(** * Alias bootstrap of the mc client: trust negotiation, signature
    probing and LDAP/STS identity exchange

    A shallow embedding of the source of the [alias set] command
    (functions [setAlias],
    [probeS3Signature], [BuildS3Config], [fetchAliasKeys],
    [checkAliasSetSyntax], [mainAliasSet], [promptTrustSelfSignedCert],
    [fetchPeerCertificate], [configurePeerCertificate],
    [prepareStsClient] and [getStsWithLDAP]) together with the
    properties the design document states about them.

    Go code is effectful: it reads the clock and standard input, talks to
    the network, mutates the process-wide certificate pool and may leave
    through [fatalIf] or a run-time panic.  The embedding threads an
    explicit [World] through a small state-and-exit monad; everything that
    lives outside the file (the network, the file system, helper functions
    of other files) is a field of the [Platform] class, so every theorem
    holds for every behaviour of those collaborators.

    Left out, because nothing the file computes depends on it: the
    [context.Context] passed along and its cancellation, the colour
    settings of the console, and the buffering of the readers of standard
    input (a read is one result taken from the world, whichever reader
    makes it). *)

From Stdlib Require Import ZArith String Ascii List Lia Bool.
From stdpp Require Import base gmap strings list.

Open Scope Z_scope.
Open Scope string_scope.

(* ===================================================================== *)
(** ** Go strings and byte slices                                        *)
(* ===================================================================== *)

(** A Go [[]byte].  A nil slice and an empty slice are both [[]]:
    [bytes.Equal] does not tell them apart either. *)
Abbreviation bytes := (list Byte.byte).

#[global] Instance byte_eq_dec : EqDecision Byte.byte := Byte.byte_eq_dec.

(** [bytes.Equal]. *)
Definition bytes_Equal (a b : bytes) : bool := bool_decide (a = b).

(** [string(b)] for a byte slice [b]. *)
Definition string_of_bytes (b : bytes) : string := string_of_list_byte b.

(** [strings.Contains]. *)
Fixpoint strings_Contains (s substr : string) : bool :=
  String.prefix substr s ||
  match s with
  | EmptyString => false
  | String _ s' => strings_Contains s' substr
  end.

(** [strings.ToLower] on the ASCII letters.  Go also lowers letters
    outside ASCII; none of them lowers to an ASCII [y], [e], [s], [o] or
    [n], so the comparisons the source makes on the result are those made
    here. *)
Definition lower_ascii (c : ascii) : ascii :=
  let n := N_of_ascii c in
  if ((65 <=? n) && (n <=? 90))%N then ascii_of_N (n + 32) else c.

Fixpoint strings_ToLower (s : string) : string :=
  match s with
  | EmptyString => EmptyString
  | String c s' => String (lower_ascii c) (strings_ToLower s')
  end.

(** The line feed, Go's ['\n']. *)
Definition LF : string := String "010"%char EmptyString.

(** [args.Get(i)] of [cli.Args]: the empty string out of range. *)
Definition Args_Get (args : list string) (i : nat) : string :=
  nth i args "".

(* ===================================================================== *)
(** ** Go errors and [probe.Error]                                       *)
(* ===================================================================== *)

(** The dynamic types of [error] values the source tells apart: the
    client's own [BucketDoesNotExist], minio-go's [ErrorResponse] (only
    its [Code] and [Message] are read), and every other error, known by
    its message. *)
Inductive error : Type :=
| BucketDoesNotExist (Bucket : string)
| ErrorResponse (Code Message : string)
| errorString (msg : string).

#[global] Instance error_eq_dec : EqDecision error.
Proof. solve_decision. Defined.

(** The [Error()] method. *)
Definition error_Error (e : error) : string :=
  match e with
  | BucketDoesNotExist b => "Bucket `" ++ b ++ "` does not exist."
  | ErrorResponse _ m => m
  | errorString m => m
  end.

(** The type assertion [e.(BucketDoesNotExist)]. *)
Definition is_BucketDoesNotExist (e : error) : bool :=
  match e with BucketDoesNotExist _ => true | _ => false end.

(** [minio.ToErrorResponse(err).Code]: the zero [ErrorResponse] (empty
    code) for an error of any other type. *)
Definition ToErrorResponse_Code (e : error) : string :=
  match e with ErrorResponse c _ => c | _ => "" end.

(** [io.EOF]. *)
Definition io_EOF : error := errorString "EOF".

Module probe.

(** [*probe.Error] is [option Error]: [None] is the nil pointer.  An
    error keeps its cause and the tags of every trace point added on the
    way up (the source positions a trace point also records are left
    out). *)
Record Error : Type := mkError {
  Cause : error;
  CallTrace : list (list string)
}.

#[global] Instance Error_eq_dec : EqDecision Error.
Proof. solve_decision. Defined.

(** [probe.NewError(e)]: nil for a nil error. *)
Definition NewError (e : option error) : option Error :=
  match e with
  | None => None
  | Some c => Some {| Cause := c; CallTrace := [[]] |}
  end.

(** [err.Trace(fields...)]: nil stays nil; otherwise one more trace
    point, tagged with the fields. *)
Definition Trace (e : option Error) (fields : list string) : option Error :=
  match e with
  | None => None
  | Some e => Some {| Cause := Cause e; CallTrace := CallTrace e ++ [fields] |}
  end.

(** [err.ToGoError()]. *)
Definition ToGoError (e : option Error) : option error :=
  match e with
  | None => None
  | Some e => Some (Cause e)
  end.

End probe.

(* ===================================================================== *)
(** ** [time.Time] and [time.Duration]                                   *)
(* ===================================================================== *)

Module time.

#[local] Open Scope Z_scope.

(** A [Duration] is a signed 64-bit count of nanoseconds. *)
Definition Duration : Type := Z.

Definition Nanosecond : Duration := 1.
Definition Second : Duration := 1000000000 * Nanosecond.
Definition Minute : Duration := 60 * Second.
Definition Hour : Duration := 60 * Minute.

Definition maxInt64 : Z := 2 ^ 63 - 1.
Definition minInt64 : Z := - 2 ^ 63.

(** Two's-complement wrap-around of a 64-bit signed integer. *)
Definition wrap64 (z : Z) : Z := (z + 2 ^ 63) mod 2 ^ 64 - 2 ^ 63.

(** An instant: whole seconds since January 1 of year 1, 00:00:00 UTC
    (the count Go keeps internally) and nanoseconds within the second.
    The packing into wall and ext words, the monotonic reading and the
    location are left out: they change neither the instant nor what the
    source computes from it. *)
Record Time : Type := mkTime {
  sec : Z;
  nsec : Z
}.

#[global] Instance Time_eq_dec : EqDecision Time.
Proof. solve_decision. Defined.

(** The zero value [time.Time{}]. *)
Definition zero : Time := {| sec := 0; nsec := 0 |}.

(** Seconds from year 1 to the Unix epoch. *)
Definition unixToInternal : Z := 62135596800.

(** [time.Unix(sec, nsec)]. *)
Definition Unix (s n : Z) : Time :=
  let '(s, n) :=
    if (n <? 0) || (n >=? 1000000000) then
      let q := Z.quot n 1000000000 in
      let s := wrap64 (s + q) in
      let n := n - q * 1000000000 in
      if n <? 0 then (wrap64 (s - 1), n + 1000000000) else (s, n)
    else (s, n) in
  {| sec := wrap64 (s + unixToInternal); nsec := n |}.

(** [t.addSec(d)]: the sum saturates instead of wrapping. *)
Definition addSec (ext d : Z) : Z :=
  let sum := wrap64 (ext + d) in
  if Bool.eqb (sum >? ext) (d >? 0) then sum
  else if d >? 0 then maxInt64
  else - maxInt64.

(** [t.Add(d)]. *)
Definition Add (t : Time) (d : Duration) : Time :=
  let dsec := Z.quot d 1000000000 in
  let n := nsec t + Z.rem d 1000000000 in
  let '(dsec, n) :=
    if n >=? 1000000000 then (dsec + 1, n - 1000000000)
    else if n <? 0 then (dsec - 1, n + 1000000000)
    else (dsec, n) in
  {| sec := addSec (sec t) dsec; nsec := n |}.

(** [t.UnixNano()] without the 64-bit truncation: the instant as a
    count of nanoseconds since the Unix epoch. *)
Definition UnixNano (t : Time) : Z :=
  (sec t - unixToInternal) * 1000000000 + nsec t.

(** [t.Before(u)]. *)
Definition Before (t u : Time) : bool :=
  (sec t <? sec u) || ((sec t =? sec u) && (nsec t <? nsec u)).

(** The instants a clock reading can be: nanoseconds within the second,
    and seconds that leave an hour of room below the largest value the
    representation holds (the clock stays there for the next 292
    billion years). *)
Definition wallclock (t : Time) : Prop :=
  0 <= nsec t < 1000000000 /\ 0 <= sec t <= maxInt64 - 3600.

End time.

(* ===================================================================== *)
(** ** Certificates, pools, TLS and HTTP values                          *)
(* ===================================================================== *)

(** The fields of [x509.Certificate] the source reads. *)
Record Certificate : Type := mkCertificate {
  Raw : bytes;
  RawSubjectPublicKeyInfo : bytes;
  SubjectKeyId : bytes;
  AuthorityKeyId : bytes
}.

#[global] Instance Certificate_eq_dec : EqDecision Certificate.
Proof. solve_decision. Defined.

(** The contents of an [x509.CertPool]. *)
Definition CertPool : Type := list Certificate.

(** [pool.AddCert(cert)] on the contents: a certificate whose raw bytes
    the pool already holds is not added again (Go compares a digest of
    the raw bytes). *)
Definition CertPool_add (pool : CertPool) (cert : Certificate) : CertPool :=
  if existsb (fun c => bytes_Equal (Raw c) (Raw cert)) pool then pool
  else (pool ++ [cert])%list.

(** A [*x509.CertPool] is [option loc]: [None] is nil, [Some l] points to
    the pool stored at [l].  Pools are shared and mutated in place, so
    they live in the [World]; no pool is allocated by the source, so the
    store is a total function. *)
Definition loc : Type := nat.

(** [tls.Config], the fields the source sets. *)
Record tlsConfig : Type := mkTlsConfig {
  RootCAs : option loc;
  InsecureSkipVerify : bool;
  MinVersion : Z
}.

Definition VersionTLS12 : Z := 771.

(** [http.Transport]: its TLS configuration ([None] is nil) and whether a
    proxy from the environment is used; dial settings and timeouts, which
    are constants of the source, are kept as a tag. *)
Record Transport : Type := mkTransport {
  Proxy : bool;
  Tuned : bool;
  TLSClientConfig : option tlsConfig
}.

(** [http.Client]. *)
Record Client : Type := mkClient {
  client_Transport : Transport
}.

(** [http.Request]: the scheme of its parsed URL and the address asked
    for. *)
Record Request : Type := mkRequest {
  URL_Scheme : string;
  req_endpoint : string
}.

(** [http.Response]: the peer certificates of its TLS connection state;
    [None] when [resp.TLS] is nil. *)
Record Response : Type := mkResponse {
  TLS_PeerCertificates : option (list Certificate)
}.

#[global] Instance tlsConfig_eq_dec : EqDecision tlsConfig.
Proof. solve_decision. Defined.
#[global] Instance Transport_eq_dec : EqDecision Transport.
Proof. solve_decision. Defined.

(* ===================================================================== *)
(** ** Records of the client                                             *)
(* ===================================================================== *)

(** [Config]: the connection parameters of an S3 client, the fields this
    file reads or writes.  [cfg_Transport] is [None] for a nil
    transport. *)
Record Config : Type := mkConfig {
  cfg_AccessKey : string;
  cfg_SecretKey : string;
  cfg_SessionToken : string;
  Signature : string;
  HostURL : string;
  Debug : bool;
  Insecure : bool;
  cfg_Transport : option Transport
}.

Definition Config_set_Signature (c : Config) (stype : string) : Config :=
  {| cfg_AccessKey := cfg_AccessKey c; cfg_SecretKey := cfg_SecretKey c;
     cfg_SessionToken := cfg_SessionToken c; Signature := stype;
     HostURL := HostURL c; Debug := Debug c; Insecure := Insecure c;
     cfg_Transport := cfg_Transport c |}.

Definition Config_set_Transport (c : Config) (t : option Transport) : Config :=
  {| cfg_AccessKey := cfg_AccessKey c; cfg_SecretKey := cfg_SecretKey c;
     cfg_SessionToken := cfg_SessionToken c; Signature := Signature c;
     HostURL := HostURL c; Debug := Debug c; Insecure := Insecure c;
     cfg_Transport := t |}.

(** [aliasConfigV10]: one alias of the configuration file. *)
Record aliasConfigV10 : Type := mkAliasConfigV10 {
  URL : string;
  AccessKey : string;
  SecretKey : string;
  SessionToken : string;
  API : string;
  Path : string;
  AType : string;
  StsAccessKey : string;
  StsSecretKey : string;
  StsSessionTk : string;
  ExpireTime : time.Time
}.

(** [mcConfigV10]: the configuration file, aliases by name. *)
Record mcConfigV10 : Type := mkMcConfigV10 {
  Version : string;
  Aliases : gmap string aliasConfigV10
}.

(** [aliasMessage]: what [alias set] reports. *)
Record aliasMessage : Type := mkAliasMessage {
  op : string;
  msg_Alias : string;
  msg_URL : string;
  msg_AccessKey : string;
  msg_SecretKey : string;
  msg_API : string;
  msg_Path : string
}.

(** [cli.Context]: positional arguments, string flags by name, and the
    name of the command. *)
Record Context : Type := mkContext {
  Args : list string;
  ctx_String : string -> string;
  Command_Name : string
}.

(** [credentials.LDAPIdentity] as the source fills it. *)
Record LDAPIdentity : Type := mkLDAPIdentity {
  ldap_Client : Client;
  STSEndpoint : string;
  LDAPUsername : string;
  LDAPPassword : string;
  RequestedExpiry : time.Duration
}.

(** [credentials.Value], the fields the source reads. *)
Record Value : Type := mkValue {
  AccessKeyID : string;
  SecretAccessKey : string;
  val_SessionToken : string
}.

(* ===================================================================== *)
(** ** The world a run acts on                                           *)
(* ===================================================================== *)

(** What a run does that can be seen from outside, newest first. *)
Inductive Event : Type :=
| EvPrintf (s : string)
| EvPrintMsg (m : aliasMessage)
| EvHttpDo (c : Client) (req : Request)
| EvS3New (cfg : Config)
| EvStat (cfg : Config)
| EvCredentialsGet (id : LDAPIdentity)
| EvWriteFile (path : string) (data : bytes)
| EvSaveConfig (cfg : mcConfigV10).

(** The process and its surroundings: the global flags, the process-wide
    root pool [globalRootCAs] (a pointer) and the store of pools it
    points into, the results the coming reads of standard input will
    give, how often the clock was read, the files written, the saved
    configuration, and the events so far. *)
Record World : Type := mkWorld {
  globalInsecure : bool;
  globalJSON : bool;
  globalDebug : bool;
  globalRootCAs : option loc;
  pools : loc -> CertPool;
  stdin : list (string * option error);
  clockReads : nat;
  files : gmap string bytes;
  mcConfig : mcConfigV10;
  trace : list Event
}.

Definition set_pools (w : World) (p : loc -> CertPool) : World :=
  {| globalInsecure := globalInsecure w; globalJSON := globalJSON w;
     globalDebug := globalDebug w; globalRootCAs := globalRootCAs w;
     pools := p; stdin := stdin w; clockReads := clockReads w;
     files := files w; mcConfig := mcConfig w; trace := trace w |}.

Definition set_stdin (w : World) (i : list (string * option error)) : World :=
  {| globalInsecure := globalInsecure w; globalJSON := globalJSON w;
     globalDebug := globalDebug w; globalRootCAs := globalRootCAs w;
     pools := pools w; stdin := i; clockReads := clockReads w;
     files := files w; mcConfig := mcConfig w; trace := trace w |}.

Definition set_clockReads (w : World) (n : nat) : World :=
  {| globalInsecure := globalInsecure w; globalJSON := globalJSON w;
     globalDebug := globalDebug w; globalRootCAs := globalRootCAs w;
     pools := pools w; stdin := stdin w; clockReads := n;
     files := files w; mcConfig := mcConfig w; trace := trace w |}.

Definition set_files (w : World) (f : gmap string bytes) : World :=
  {| globalInsecure := globalInsecure w; globalJSON := globalJSON w;
     globalDebug := globalDebug w; globalRootCAs := globalRootCAs w;
     pools := pools w; stdin := stdin w; clockReads := clockReads w;
     files := f; mcConfig := mcConfig w; trace := trace w |}.

Definition set_mcConfig (w : World) (c : mcConfigV10) : World :=
  {| globalInsecure := globalInsecure w; globalJSON := globalJSON w;
     globalDebug := globalDebug w; globalRootCAs := globalRootCAs w;
     pools := pools w; stdin := stdin w; clockReads := clockReads w;
     files := files w; mcConfig := c; trace := trace w |}.

Definition set_trace (w : World) (t : list Event) : World :=
  {| globalInsecure := globalInsecure w; globalJSON := globalJSON w;
     globalDebug := globalDebug w; globalRootCAs := globalRootCAs w;
     pools := pools w; stdin := stdin w; clockReads := clockReads w;
     files := files w; mcConfig := mcConfig w; trace := t |}.

(** How a call ends: it returns, or the process leaves through
    [fatalIf] (error and message), through an exit with a code, or
    through a run-time panic. *)
Inductive result (A : Type) : Type :=
| Ok (a : A)
| Fatal (e : probe.Error) (msg : string)
| Exit (code : Z)
| Panic (msg : string).

Arguments Ok {A} a.
Arguments Fatal {A} e msg.
Arguments Exit {A} code.
Arguments Panic {A} msg.

(** Computations on the world. *)
Definition M (A : Type) : Type := World -> result A * World.

#[global] Instance M_ret : MRet M := fun A (a : A) w => (Ok a, w).

#[global] Instance M_bind : MBind M := fun A B (k : A -> M B) (m : M A) w =>
  match m w with
  | (Ok a, w') => k a w'
  | (Fatal e msg, w') => (Fatal e msg, w')
  | (Exit c, w') => (Exit c, w')
  | (Panic msg, w') => (Panic msg, w')
  end.

Definition get {A} (f : World -> A) : M A := fun w => (Ok (f w), w).
Definition modify (f : World -> World) : M unit := fun w => (Ok tt, f w).
Definition log (ev : Event) : M unit :=
  modify (fun w => set_trace w (ev :: trace w)).
Definition panic {A} (msg : string) : M A := fun w => (Panic msg, w).
Definition exit {A} (code : Z) : M A := fun w => (Exit code, w).

(** [fatalIf(err, msg)]: returns on a nil error, otherwise reports it and
    leaves the process. *)
Definition fatalIf (err : option probe.Error) (msg : string) : M unit :=
  match err with
  | None => mret tt
  | Some e => fun w => (Fatal e msg, w)
  end.

(** [fmt.Printf] with the text already formatted. *)
Definition Printf (s : string) : M unit := log (EvPrintf s).

(** One read of standard input, whichever reader makes it: the next
    result the world holds, or end of input when none is left. *)
Definition readStdin : M (string * option error) :=
  fun w =>
    match stdin w with
    | [] => (Ok ("", Some io_EOF), w)
    | r :: rest => (Ok r, set_stdin w rest)
    end.

(** [pool.AddCert(cert)] through a pointer: the pool is changed in
    place; through a nil pointer the call panics. *)
Definition AddCert (p : option loc) (cert : Certificate) : M unit :=
  match p with
  | None => panic "invalid memory address or nil pointer dereference"
  | Some l =>
      modify (fun w => set_pools w
        (fun l' => if decide (l' = l) then CertPool_add (pools w l) cert
                   else pools w l'))
  end.

(* ===================================================================== *)
(** ** The collaborators                                                 *)
(* ===================================================================== *)

(** Everything the file calls and does not define: helpers of other files
    of the client, the libraries, the network, the clock and the file
    system.  No field is given a meaning here; the theorems quantify over
    all of them.  The network calls are given the store of certificate
    pools, since what a TLS client accepts depends on the pool its
    configuration points to. *)
Class Platform : Type := {
  (* helpers of the client *)
  cleanAlias : string -> string;
  trimTrailingSeparator : string -> string;
  isValidAlias : string -> bool;
  isValidHostURL : string -> bool;
  isValidAccessKey : string -> bool;
  isValidSecretKey : string -> bool;
  isValidAPI : string -> bool;
  isValidLookup : string -> bool;
  isValidPath : string -> bool;
  errInvalidArgument : probe.Error;
  errInvalidAlias : string -> probe.Error;
  errInvalidURL : string -> probe.Error;
  globalMCConfigVersion : string;
  mustGetMcConfigPath : string;
  mustGetCAsDir : string;
  loadMcConfig_error : option probe.Error;
  saveMcConfig_error : mcConfigV10 -> option probe.Error;
  urlJoinPath : string -> string -> string;
  randString : Z -> Z -> string -> string;
  getScheme : string -> string * string;
  NewS3Config : World -> string -> aliasConfigV10 -> Config;
  S3New : (loc -> CertPool) -> Config -> option probe.Error;
  client_Stat : (loc -> CertPool) -> Config -> option probe.Error;
  (* libraries *)
  strings_TrimSpace : string -> string;
  env_Get : string -> string -> string;
  console_Colorize : string -> string -> string;
  color_GreenString : string -> string;
  color_YellowString : string -> string;
  sha256_Sum256 : bytes -> bytes;
  hex_EncodeToString : bytes -> string;
  pem_EncodeToMemory : string -> bytes -> bytes;
  filepath_Join : string -> string -> string;
  (* the terminal, the clock, the file system and the network *)
  stdin_IsTerminal : bool;
  stdout_IsTerminal : bool;
  time_Now : nat -> time.Time;
  os_WriteFile_error : string -> bytes -> option error;
  http_NewRequest : string -> error + Request;
  http_Do : (loc -> CertPool) -> Client -> Request -> error + Response;
  credentials_Get : (loc -> CertPool) -> LDAPIdentity -> error + Value
}.

(* ===================================================================== *)
(** ** The source                                                        *)
(* ===================================================================== *)

Definition cred : string := "YellowItalics".

Definition CmdLDAPEnabled : string := "CONSOLE_LDAP_ENABLED".
Definition StsDefaultExpire : time.Duration := (time.Hour * 1)%Z.
Definition StsWindowTime : time.Duration := (time.Minute * 10)%Z.

(** The client of the first connection of [promptTrustSelfSignedCert]:
    it verifies the peer against the pool [g]. *)
Definition verifyingClient (g : option loc) : Client :=
  {| client_Transport :=
       {| Proxy := true; Tuned := false;
          TLSClientConfig :=
            Some {| RootCAs := g; InsecureSkipVerify := false;
                    MinVersion := 0 |} |} |}.

(** The client of [fetchPeerCertificate]: it verifies nothing. *)
Definition unverifyingClient : Client :=
  {| client_Transport :=
       {| Proxy := false; Tuned := false;
          TLSClientConfig :=
            Some {| RootCAs := None; InsecureSkipVerify := true;
                    MinVersion := 0 |} |} |}.

Section Source.

Context `{Platform}.

(** [time.Now()]: the next reading of the clock. *)
Definition Now : M time.Time :=
  fun w => (Ok (time_Now (clockReads w)),
            set_clockReads w (S (clockReads w))).

(** [client.Do(req)]. *)
Definition Client_Do (c : Client) (req : Request) : M (error + Response) :=
  log (EvHttpDo c req);;
  p ← get pools;
  mret (http_Do p c req).

(** [os.WriteFile(path, data, 0o644)]. *)
Definition WriteFile (path : string) (data : bytes) : M (option error) :=
  match os_WriteFile_error path data with
  | Some err => mret (Some err)
  | None =>
      log (EvWriteFile path data);;
      modify (fun w => set_files w (<[path := data]> (files w)));;
      mret None
  end.

(** [cli.ShowCommandHelpAndExit(ctx, name, code)]. *)
Definition ShowCommandHelpAndExit (ctx : Context) (name : string) (code : Z)
  : M unit := exit code.

(** [loadMcConfig()]: the saved configuration, or an error. *)
Definition loadMcConfig : M (mcConfigV10 * option probe.Error) :=
  c ← get mcConfig;
  mret (c, loadMcConfig_error).

(** [saveMcConfig(cfg)]: on success the saved configuration is
    replaced. *)
Definition saveMcConfig (cfg : mcConfigV10) : M (option probe.Error) :=
  match saveMcConfig_error cfg with
  | Some err => mret (Some err)
  | None =>
      log (EvSaveConfig cfg);;
      modify (fun w => set_mcConfig w cfg);;
      mret None
  end.

(** [printMsg(msg)]. *)
Definition printMsg (msg : aliasMessage) : M unit := log (EvPrintMsg msg).

(** [checkAliasSetSyntax] - verifies input arguments to 'alias set'. *)
Definition checkAliasSetSyntax (ctx : Context) (accessKey secretKey : string)
    (deprecated : bool) : M unit :=
  let args := Args ctx in
  let argsNr := length args in
  (if decide (argsNr = 0%nat)
   then ShowCommandHelpAndExit ctx (Command_Name ctx) 1
   else mret tt);;
  (if (4 <? argsNr)%nat || (argsNr <? 2)%nat
   then fatalIf (probe.Trace (Some errInvalidArgument) (tail args))
          "Incorrect number of arguments for alias set command."
   else mret tt);;
  let alias := cleanAlias (Args_Get args 0) in
  let url := Args_Get args 1 in
  let api := ctx_String ctx "api" in
  let path := ctx_String ctx "path" in
  let bucketLookup := ctx_String ctx "lookup" in
  (if negb (isValidAlias alias)
   then fatalIf (Some (errInvalidAlias alias)) "Invalid alias."
   else mret tt);;
  (if negb (isValidHostURL url)
   then fatalIf (Some (errInvalidURL url)) "Invalid URL."
   else mret tt);;
  (if negb (isValidAccessKey accessKey)
   then fatalIf (probe.Trace (Some errInvalidArgument) [accessKey])
          ("Invalid access key `" ++ accessKey ++ "`.")
   else mret tt);;
  (if negb (isValidSecretKey secretKey)
   then fatalIf (probe.Trace (Some errInvalidArgument) [secretKey])
          ("Invalid secret key `" ++ secretKey ++ "`.")
   else mret tt);;
  (if negb (String.eqb api "") && negb (isValidAPI api)
   then fatalIf (probe.Trace (Some errInvalidArgument) [api])
          "Unrecognized API signature. Valid options are `[S3v4, S3v2]`."
   else mret tt);;
  if deprecated then
    if negb (isValidLookup bucketLookup)
    then fatalIf (probe.Trace (Some errInvalidArgument) [bucketLookup])
           "Unrecognized bucket lookup. Valid options are `[dns,auto, path]`."
    else mret tt
  else
    if negb (isValidPath path)
    then fatalIf (probe.Trace (Some errInvalidArgument) [bucketLookup])
           "Unrecognized path value. Valid options are `[auto, on, off]`."
    else mret tt.

(** [setAlias] - set an alias config. *)
Definition setAlias (alias : string) (aliasCfgV10 : aliasConfigV10)
  : M aliasMessage :=
  '(mcCfgV10, err) ← loadMcConfig;
  fatalIf (probe.Trace err [globalMCConfigVersion])
    ("Unable to load config `" ++ mustGetMcConfigPath ++ "`.");;
  (* Add new host. *)
  let mcCfgV10 :=
    {| Version := Version mcCfgV10;
       Aliases := <[alias := aliasCfgV10]> (Aliases mcCfgV10) |} in
  err ← saveMcConfig mcCfgV10;
  fatalIf (probe.Trace err [alias])
    ("Unable to update hosts in config version `" ++ mustGetMcConfigPath ++ "`.");;
  mret {| op := "";
          msg_Alias := alias;
          msg_URL := URL aliasCfgV10;
          msg_AccessKey := AccessKey aliasCfgV10;
          msg_SecretKey := SecretKey aliasCfgV10;
          msg_API := API aliasCfgV10;
          msg_Path := Path aliasCfgV10 |}.

(** The transport [configurePeerCertificate] installs on a
    configuration that has none. *)
Definition tunedTransport (tc : tlsConfig) : Transport :=
  {| Proxy := true; Tuned := true; TLSClientConfig := Some tc |}.

(** [configurePeerCertificate] adds the peer certificate to the TLS
    root CAs of [s3Config]; the configuration is returned as changed. *)
Definition configurePeerCertificate (s3Config : Config) (peerCert : Certificate)
  : M Config :=
  g ← get globalRootCAs;
  let replaceTLS (t : option Transport) : M Config :=
    (if g is Some _ then AddCert g peerCert else mret tt);;
    let tc := {| RootCAs := g; InsecureSkipVerify := false; MinVersion := 0 |} in
    mret (Config_set_Transport s3Config
            (Some match t with
                  | None => tunedTransport tc
                  | Some t => {| Proxy := Proxy t; Tuned := Tuned t;
                                 TLSClientConfig := Some tc |}
                  end)) in
  match cfg_Transport s3Config with
  | None => replaceTLS None
  | Some t =>
      match TLSClientConfig t with
      | None => replaceTLS (Some t)
      | Some tc =>
          match RootCAs tc with
          | None => replaceTLS (Some t)
          | Some l => AddCert (Some l) peerCert;; mret s3Config
          end
      end
  end.

(** The closure [probeSignatureType] of [probeS3Signature].  It writes
    the dialect into the configuration it captured, so the
    configuration is passed in and handed back. *)
Definition probeSignatureType (s3Config : Config) (stype : string)
  : M (Config * (string * option probe.Error)) :=
  let s3Config := Config_set_Signature s3Config stype in
  log (EvS3New s3Config);;
  p ← get pools;
  match S3New p s3Config with
  | Some err => mret (s3Config, ("", Some err))
  | None =>
      log (EvStat s3Config);;
      p ← get pools;
      match client_Stat p s3Config with
      | Some err =>
          (* err.ToGoError() of an error that is not nil: its cause *)
          let e := probe.Cause err in
          if is_BucketDoesNotExist e then
            (* Bucket doesn't exist, means signature probing worked. *)
            mret (s3Config, (stype, None))
          else if String.eqb (ToErrorResponse_Code e) "AccessDenied" then
            (* AccessDenied: Stat() is not allowed but credentials are valid. *)
            mret (s3Config, (stype, None))
          else
            (* For any other errors we fail. *)
            mret (s3Config, ("", probe.Trace (Some err) [Signature s3Config]))
      | None => mret (s3Config, (stype, None))
      end
  end.

(** [probeS3Signature] - auto probe S3 server signature: issue a Stat
    call using v4 signature then v2 in case of failure. *)
Definition probeS3Signature (accessKey secretKey sessionToken url : string)
    (peerCert : option Certificate) : M (string * option probe.Error) :=
  now ← Now;
  let probeBucketName :=
    randString 60 (time.wrap64 (time.UnixNano now)) "probe-bucket-sign-" in
  gi ← get globalInsecure;
  gd ← get globalDebug;
  let s3Config :=
    {| Insecure := gi;
       cfg_AccessKey := accessKey;
       cfg_SecretKey := secretKey;
       cfg_SessionToken := sessionToken;
       HostURL := urlJoinPath url probeBucketName;
       Debug := gd;
       Signature := "";
       cfg_Transport := None |} in
  s3Config ← (match peerCert with
               | Some c => configurePeerCertificate s3Config c
               | None => mret s3Config
               end);
  '(s3Config, (stype, err)) ← probeSignatureType s3Config "s3v4";
  match err with
  | Some _ =>
      '(s3Config, (stype, err)) ← probeSignatureType s3Config "s3v2";
      match err with
      | Some _ => mret ("", probe.Trace err ["s3v4"; "s3v2"])
      | None => mret (stype, None)
      end
  | None => mret (stype, None)
  end.

(** [BuildS3Config] constructs an S3 Config and does signature
    auto-probe when needed. *)
Definition BuildS3Config (url alias accessKey secretKey sessionToken api path : string)
    (peerCert : option Certificate) : M (option Config * option probe.Error) :=
  w ← get id;
  let s3Config :=
    NewS3Config w url
      {| AccessKey := accessKey;
         SecretKey := secretKey;
         SessionToken := sessionToken;
         URL := url;
         Path := path;
         API := ""; AType := "";
         StsAccessKey := ""; StsSecretKey := ""; StsSessionTk := "";
         ExpireTime := time.zero |} in
  s3Config ← (match peerCert with
               | Some c => configurePeerCertificate s3Config c
               | None => mret s3Config
               end);
  (* If api is provided we do not auto probe signature. *)
  if negb (String.eqb api "") then
    mret (Some (Config_set_Signature s3Config api), None)
  else
    (* Probe S3 signature version *)
    '(api, err) ← probeS3Signature accessKey secretKey sessionToken url peerCert;
    match err with
    | Some _ => mret (None, probe.Trace err [url; accessKey; secretKey; api; path])
    | None => mret (Some (Config_set_Signature s3Config api), None)
    end.

(** [fetchAliasKeys] - returns the user accessKey and secretKey. *)
Definition fetchAliasKeys (args : list string) : M (string * string) :=
  let isTerminal := stdin_IsTerminal in
  let argsNr := length args in
  accessKey ←
    (if decide (argsNr = 2%nat) then
       (if isTerminal
        then Printf (console_Colorize cred "Enter Access Key: ")
        else mret tt);;
       '(value, _) ← readStdin;
       mret value
     else mret (Args_Get args 2));
  secretKey ←
    (if bool_decide (argsNr = 2%nat) || bool_decide (argsNr = 3%nat) then
       if isTerminal then
         Printf (console_Colorize cred "Enter Secret Key: ");;
         '(bytePassword, _) ← readStdin;
         Printf LF;;
         mret bytePassword
       else
         '(value, _) ← readStdin;
         mret value
     else mret (Args_Get args 3));
  mret (accessKey, secretKey).

(** [fetchPeerCertificate] fetches the peer certificate from the
    endpoint, over a connection that verifies nothing. *)
Definition fetchPeerCertificate (endpoint : string) : M (error + Certificate) :=
  match http_NewRequest endpoint with
  | inl err => mret (inl err)
  | inr req =>
      let client := unverifyingClient in
      r ← Client_Do client req;
      match r with
      | inl err => mret (inl err)
      | inr resp =>
          match TLS_PeerCertificates resp with
          | None | Some [] =>
              mret (inl (errorString "Unable to read remote TLS certificate"))
          | Some (c :: _) => mret (inr c)
          end
      end
  end.

(** The text [promptTrustSelfSignedCert] prints before it reads the
    answer. *)
Definition fingerprintPrompt (alias : string) (peerCert : Certificate) : string :=
  let fingerprint := sha256_Sum256 (RawSubjectPublicKeyInfo peerCert) in
  "Fingerprint of " ++ color_GreenString alias ++ " public key: "
    ++ color_YellowString (hex_EncodeToString fingerprint) ++ LF
    ++ "Confirm public key y/N: ".

(** Where [promptTrustSelfSignedCert] stores the certificate of an
    alias, and what it stores. *)
Definition pinnedCertPath (alias : string) : string :=
  filepath_Join mustGetCAsDir (alias ++ ".crt").

Definition pinnedCertPEM (peerCert : Certificate) : bytes :=
  pem_EncodeToMemory "CERTIFICATE" (Raw peerCert).

(** [promptTrustSelfSignedCert] connects to the given endpoint and
    checks whether the peer certificate can be verified.  If not, it
    computes a fingerprint of the peer certificate public key, asks the
    user to confirm the fingerprint and adds the peer certificate to
    the local trust store in the CAs directory. *)
Definition promptTrustSelfSignedCert (endpoint alias : string)
  : M (option Certificate * option probe.Error) :=
  match http_NewRequest endpoint with
  | inl err => mret (None, probe.NewError (Some err))
  | inr req =>
      (* no need to probe certs for http endpoints. *)
      if String.eqb (URL_Scheme req) "http" then mret (None, None)
      else
        g ← get globalRootCAs;
        let client := verifyingClient g in
        r ← Client_Do client req;
        match r with
        | inr _ =>
            (* certs are already trusted system wide, nothing to do. *)
            mret (None, None)
        | inl tlsErr =>
            if negb (strings_Contains (error_Error tlsErr)
                       "certificate signed by unknown authority")
            then mret (None, probe.NewError (Some tlsErr))
            else
              r ← fetchPeerCertificate endpoint;
              match r with
              | inl err => mret (None, probe.NewError (Some err))
              | inr peerCert =>
                  (* the subject key id must equal the authority key id *)
                  if negb (bytes_Equal (SubjectKeyId peerCert)
                                       (AuthorityKeyId peerCert))
                  then mret (None, probe.NewError (Some tlsErr))
                  else
                    Printf (fingerprintPrompt alias peerCert);;
                    '(answer, err) ← readStdin;
                    match err with
                    | Some err => mret (None, probe.NewError (Some err))
                    | None =>
                        let answer := strings_ToLower answer in
                        if negb (String.eqb answer ("y" ++ LF))
                           && negb (String.eqb answer ("yes" ++ LF))
                        then mret (None, probe.NewError (Some tlsErr))
                        else
                          let certPEM := pinnedCertPEM peerCert in
                          err ← WriteFile (pinnedCertPath alias) certPEM;
                          match err with
                          | Some err => mret (None, probe.NewError (Some err))
                          | None => mret (Some peerCert, None)
                          end
                    end
              end
        end
  end.

(** [prepareStsClient]: the HTTP client of the identity exchange. *)
Definition prepareStsClient (peerCert : option Certificate) (url : string)
  : M Client :=
  g ← get globalRootCAs;
  cas ← (match g with
          | Some _ =>
              (match peerCert with
               | Some c => AddCert g c
               | None => mret tt
               end);;
              mret g
          | None => mret None
          end);
  (match peerCert with
   | Some c => AddCert cas c
   | None => mret tt
   end);;
  let '(schem, _) := getScheme url in
  let insecure := negb (String.eqb schem "http") && bool_decide (peerCert <> None) in
  let DefaultTransport :=
    {| Proxy := true; Tuned := true;
       TLSClientConfig :=
         Some {| RootCAs := cas;
                 InsecureSkipVerify := insecure;
                 MinVersion := VersionTLS12 |} |} in
  mret {| client_Transport := DefaultTransport |}.

(** [getStsWithLDAP]: exchange the LDAP user and password for STS
    credentials. *)
Definition getStsWithLDAP (endpoint ldapUser ldapPassword : string)
    (peerCert : option Certificate)
  : M (string * string * string * option error) :=
  client ← prepareStsClient peerCert endpoint;
  let creds :=
    {| ldap_Client := client;
       STSEndpoint := endpoint;
       LDAPUsername := ldapUser;
       LDAPPassword := ldapPassword;
       RequestedExpiry := StsDefaultExpire |} in
  log (EvCredentialsGet creds);;
  p ← get pools;
  match credentials_Get p creds with
  | inl err => mret ("", "", "", Some err)
  | inr tokens =>
      mret (AccessKeyID tokens, SecretAccessKey tokens,
            val_SessionToken tokens, None)
  end.

(** The credential type [mainAliasSet] settles on. *)
Definition resolveType (ctype : string) : string :=
  if String.eqb ctype "" || String.eqb ctype "auto" then
    if String.eqb (strings_ToLower (env_Get CmdLDAPEnabled "off")) "on"
    then "ldap" else "normal"
  else ctype.

(** The path setting under the deprecated lookup flag. *)
Definition resolvePath (cli : Context) (deprecated : bool) : string :=
  let path := ctx_String cli "path" in
  if deprecated then
    let lookup := strings_ToLower (strings_TrimSpace (ctx_String cli "lookup")) in
    if String.eqb lookup "" || String.eqb lookup "auto" then "auto"
    else if String.eqb lookup "path" then "on"
    else if String.eqb lookup "dns" then "off"
    else path
  else path.

(** [mainAliasSet]: the action of [alias set]. *)
Definition mainAliasSet (cli : Context) (deprecated : bool) : M (option error) :=
  let args := Args cli in
  let alias := cleanAlias (Args_Get args 0) in
  let url := trimTrailingSeparator (Args_Get args 1) in
  let api := ctx_String cli "api" in
  (* Support deprecated lookup flag *)
  let path := resolvePath cli deprecated in
  let ctype := resolveType (ctx_String cli "type") in
  '(accessKey, secretKey) ← fetchAliasKeys args;
  checkAliasSetSyntax cli accessKey secretKey deprecated;;
  gi ← get globalInsecure;
  gj ← get globalJSON;
  peerCert ←
    (if negb gi && negb gj && stdout_IsTerminal then
       '(peerCert, err) ← promptTrustSelfSignedCert url alias;
       fatalIf (probe.Trace err args)
         "Unable to initialize new alias from the provided credentials.";;
       mret peerCert
     else mret None);
  sts ←
    (if String.eqb ctype "ldap" then
       now ← Now;
       '(stsAccessKey, stsSecretKey, stsSessionTk, e) ←
         getStsWithLDAP url accessKey secretKey peerCert;
       match e with
       | Some e =>
           fatalIf (probe.Trace (probe.NewError (Some e)) args)
             "Unable to get sts AccessKey and SecretKey with provided credentials.";;
           mret (inl e)
       | None =>
           mret (inr (stsAccessKey, stsSecretKey, stsSessionTk,
                      time.Add (time.Add now StsDefaultExpire) (- StsWindowTime)))
       end
     else
       mret (inr (accessKey, secretKey, "", time.Unix 0 0)));
  match sts with
  | inl e => mret (Some e)
  | inr (stsAccessKey, stsSecretKey, stsSessionTk, stsExpireTime) =>
      '(s3Config, err) ← BuildS3Config url alias stsAccessKey stsSecretKey
                           stsSessionTk api path peerCert;
      fatalIf (probe.Trace err args)
        "Unable to initialize new alias from the provided credentials.";;
      match s3Config with
      | None => panic "invalid memory address or nil pointer dereference"
      | Some s3Config =>
          msg ← setAlias alias
                  {| URL := HostURL s3Config;
                     AccessKey := accessKey;
                     SecretKey := secretKey;
                     SessionToken := "";
                     API := Signature s3Config;
                     Path := path;
                     AType := ctype;
                     StsAccessKey := stsAccessKey;
                     StsSecretKey := stsSecretKey;
                     StsSessionTk := stsSessionTk;
                     ExpireTime := stsExpireTime |};
          let msg :=
            {| op := if deprecated then "add" else "set";
               msg_Alias := msg_Alias msg; msg_URL := msg_URL msg;
               msg_AccessKey := msg_AccessKey msg;
               msg_SecretKey := msg_SecretKey msg;
               msg_API := msg_API msg; msg_Path := msg_Path msg |} in
          printMsg msg;;
          mret None
      end
  end.

(** The record [mainAliasSet] hands to [setAlias]. *)
Definition builtRecord (cli : Context) (deprecated : bool)
    (accessKey secretKey : string) (s3Config : Config)
    (sts : string * string * string * time.Time) : aliasConfigV10 :=
  {| URL := HostURL s3Config;
     AccessKey := accessKey;
     SecretKey := secretKey;
     SessionToken := "";
     API := Signature s3Config;
     Path := resolvePath cli deprecated;
     AType := resolveType (ctx_String cli "type");
     StsAccessKey := sts.1.1.1;
     StsSecretKey := sts.1.1.2;
     StsSessionTk := sts.1.2;
     ExpireTime := sts.2 |}.

End Source.

(** What a computation returns and the world it leaves. *)
Definition outcome {A} (m : M A) (w : World) : result A := fst (m w).
Definition after {A} (m : M A) (w : World) : World := snd (m w).

(** The events of a run, oldest first: those of [w'] that [w] did not
    have yet. *)
Definition eventsSince (w w' : World) : list Event :=
  rev (take (length (trace w') - length (trace w)) (trace w')).

(** Whether an event is a call of the signature prober to the server
    (client construction or stat), and under which dialect. *)
Definition probeDialect (ev : Event) : option string :=
  match ev with
  | EvS3New cfg | EvStat cfg => Some (Signature cfg)
  | _ => None
  end.

(** The dialects a run probed with, oldest first, one entry per client
    the prober built. *)
Definition dialectsTried (evs : list Event) : list string :=
  omap (fun ev => match ev with
                  | EvS3New cfg => Some (Signature cfg)
                  | _ => None
                  end) evs.

(** How many calls the signature prober made. *)
Definition probeCalls (evs : list Event) : nat :=
  length (omap probeDialect evs).

(** The calls of the signature prober a world has seen. *)
Definition probeLog (w : World) : list string := omap probeDialect (trace w).

(** Whether a prompt was printed. *)
Definition printed (evs : list Event) : bool :=
  existsb (fun ev => match ev with EvPrintf _ => true | _ => false end) evs.

(** Whether a file was written. *)
Definition wroteFile (evs : list Event) : bool :=
  existsb (fun ev => match ev with EvWriteFile _ _ => true | _ => false end) evs.

(** The answers the design document calls affirmative: [y] or [yes] in
    any mix of upper and lower case, ended by the line feed. *)
Definition affirmative (answer : string) : bool :=
  existsb (String.eqb answer)
    (map (fun s => s ++ LF)
       ["y"; "Y"; "yes"; "yeS"; "yEs"; "yES"; "Yes"; "YeS"; "YEs"; "YES"]).

(** The pool a certificate pool becomes when an optional pinned
    certificate is added to it. *)
Definition withPinned (pool : CertPool) (peerCert : option Certificate) : CertPool :=
  match peerCert with
  | Some c => CertPool_add pool c
  | None => pool
  end.

(* ===================================================================== *)
(** ** A concrete platform for examples                                  *)
(* ===================================================================== *)

Module Fixture.

(** A URL is split at its first ["://"], as far as the two schemes of
    the examples go. *)
Definition scheme (url : string) : string * string :=
  if String.prefix "https://" url then ("https", substring 6 (String.length url) url)
  else if String.prefix "http://" url then ("http", substring 5 (String.length url) url)
  else ("", url).

(** A platform whose server answers [stat] to a stat under a dialect,
    [firstTry] to the verified connection, shows the certificates
    [peer] to the unverified one and answers [sts] to the identity
    exchange; writing a file gives [wr]. *)
Definition platform
    (stat : string -> option probe.Error)
    (firstTry : error + Response)
    (peer : list Certificate)
    (sts : error + Value)
    (wr : option error) : Platform :=
  {| cleanAlias := fun s => s;
     trimTrailingSeparator := fun s => s;
     isValidAlias := fun _ => true;
     isValidHostURL := fun _ => true;
     isValidAccessKey := fun _ => true;
     isValidSecretKey := fun _ => true;
     isValidAPI := fun _ => true;
     isValidLookup := fun _ => true;
     isValidPath := fun _ => true;
     errInvalidArgument :=
       {| probe.Cause := errorString "Invalid arguments provided, please refer "
                                     ; probe.CallTrace := [[]] |};
     errInvalidAlias := fun a =>
       {| probe.Cause := errorString ("Alias " ++ a); probe.CallTrace := [[a]] |};
     errInvalidURL := fun u =>
       {| probe.Cause := errorString ("URL " ++ u); probe.CallTrace := [[u]] |};
     globalMCConfigVersion := "10";
     mustGetMcConfigPath := "/home/user/.mc/config.json";
     mustGetCAsDir := "/home/user/.mc/certs/CAs";
     loadMcConfig_error := None;
     saveMcConfig_error := fun _ => None;
     urlJoinPath := fun u b => u ++ "/" ++ b;
     randString := fun _ _ prefix => prefix ++ "k3";
     getScheme := scheme;
     NewS3Config := fun w url a =>
       {| cfg_AccessKey := AccessKey a; cfg_SecretKey := SecretKey a;
          cfg_SessionToken := SessionToken a; Signature := API a;
          HostURL := url; Debug := globalDebug w; Insecure := globalInsecure w;
          cfg_Transport := None |};
     S3New := fun _ _ => None;
     client_Stat := fun _ cfg => stat (Signature cfg);
     strings_TrimSpace := fun s => s;
     env_Get := fun _ d => d;
     console_Colorize := fun _ s => s;
     color_GreenString := fun s => s;
     color_YellowString := fun s => s;
     sha256_Sum256 := fun b => b;
     hex_EncodeToString := string_of_bytes;
     pem_EncodeToMemory := fun _ b => b;
     filepath_Join := fun d f => d ++ "/" ++ f;
     stdin_IsTerminal := true;
     stdout_IsTerminal := true;
     time_Now := fun n => {| time.sec := 63929088000 + Z.of_nat n;
                             time.nsec := 250 |};
     os_WriteFile_error := fun _ _ => wr;
     http_NewRequest := fun url =>
       inr {| URL_Scheme := fst (scheme url); req_endpoint := url |};
     http_Do := fun _ c _ =>
       match TLSClientConfig (client_Transport c) with
       | Some tc =>
           if InsecureSkipVerify tc
           then inr {| TLS_PeerCertificates := Some peer |}
           else firstTry
       | None => firstTry
       end;
     credentials_Get := fun _ _ => sts |}.

(** A world with an empty process-wide pool at location 0 and the given
    lines waiting on standard input. *)
Definition world (input : list (string * option error)) : World :=
  {| globalInsecure := false; globalJSON := false; globalDebug := false;
     globalRootCAs := Some 0%nat;
     pools := fun _ => [];
     stdin := input;
     clockReads := 0;
     files := ∅;
     mcConfig := {| Version := "10"; Aliases := ∅ |};
     trace := [] |}.

(** A self-signed certificate and one issued by somebody else. *)
Definition selfSigned : Certificate :=
  {| Raw := [Byte.x30; Byte.x82; Byte.x01];
     RawSubjectPublicKeyInfo := [Byte.x30; Byte.x59];
     SubjectKeyId := [Byte.x0a; Byte.x0b];
     AuthorityKeyId := [Byte.x0a; Byte.x0b] |}.

Definition issuedByOther : Certificate :=
  {| Raw := [Byte.x30; Byte.x82; Byte.x02];
     RawSubjectPublicKeyInfo := [Byte.x30; Byte.x59];
     SubjectKeyId := [Byte.x0a; Byte.x0b];
     AuthorityKeyId := [Byte.xc0; Byte.xc1] |}.

Definition unknownAuthority : error :=
  errorString "x509: certificate signed by unknown authority".

Definition accessDenied : probe.Error :=
  {| probe.Cause := ErrorResponse "AccessDenied" "Access Denied.";
     probe.CallTrace := [[]] |}.

Definition mismatch (dialect : string) : probe.Error :=
  {| probe.Cause := ErrorResponse "SignatureDoesNotMatch" ("rejected under " ++ dialect);
     probe.CallTrace := [[]] |}.

(** The command line [alias set myminio URL user secret], with flags. *)
Definition cli (url : string) (flags : string -> string) : Context :=
  {| Args := ["myminio"; url; "alice"; "wonderland"];
     ctx_String := flags;
     Command_Name := "set" |}.

Definition flags (api type : string) (name : string) : string :=
  if String.eqb name "api" then api
  else if String.eqb name "type" then type
  else if String.eqb name "path" then "auto"
  else "".

(** What the identity exchange answers: full credentials, or
    credentials whose session token is empty. *)
Definition tokens : Value :=
  {| AccessKeyID := "STSACCESS"; SecretAccessKey := "STSSECRET";
     val_SessionToken := "eyJhbGciOiJIUzUxMiJ9" |}.

Definition tokensWithoutSession : Value :=
  {| AccessKeyID := "STSACCESS"; SecretAccessKey := "STSSECRET";
     val_SessionToken := "" |}.

Definition endpoint : string := "https://minio.example".

(** A server with a self-signed certificate that answers every stat
    with AccessDenied. *)
Definition server : Platform :=
  platform (fun _ => Some accessDenied) (inl unknownAuthority) [selfSigned]
    (inr tokens) None.

(** The same server, rejecting the signature under both dialects. *)
Definition rejecting : Platform :=
  platform (fun d => Some (mismatch d)) (inl unknownAuthority) [selfSigned]
    (inr tokens) None.

(** A server whose certificate was issued by an unknown authority. *)
Definition foreign : Platform :=
  platform (fun _ => Some accessDenied) (inl unknownAuthority) [issuedByOther]
    (inr tokens) None.

(** A server that cannot be reached. *)
Definition unreachable : Platform :=
  platform (fun _ => Some accessDenied)
    (inl (errorString "read tcp 10.0.0.7:443: connection reset by peer"))
    [selfSigned] (inr tokens) None.

(** The first server, seen from a machine whose certificate directory
    cannot be written. *)
Definition readonly : Platform :=
  platform (fun _ => Some accessDenied) (inl unknownAuthority) [selfSigned]
    (inr tokens)
    (Some (errorString "open /home/user/.mc/certs/CAs/myminio.crt: permission denied")).

(** The first server, with an identity exchange that answers without a
    session token. *)
Definition tokenless : Platform :=
  platform (fun _ => Some accessDenied) (inl unknownAuthority) [selfSigned]
    (inr tokensWithoutSession) None.

(** The user confirms with [yes]. *)
Definition yes : list (string * option error) := [("yes" ++ LF, None)].

(** The configuration [probeS3Signature] prepares for the keys of the
    command line. *)
Definition probeConfig : Config :=
  {| cfg_AccessKey := "alice"; cfg_SecretKey := "wonderland";
     cfg_SessionToken := ""; Signature := "";
     HostURL := "https://minio.example/probe-bucket-sign-k3";
     Debug := false; Insecure := false; cfg_Transport := None |}.

End Fixture.

(* ===================================================================== *)
(** ** Further observations on a run                                     *)
(* ===================================================================== *)

(** The connections a world has seen made through an HTTP client. *)
Definition connLog (w : World) : list (Client * Request) :=
  omap (fun ev => match ev with
                  | EvHttpDo c req => Some (c, req)
                  | _ => None
                  end) (trace w).

(** The identity exchanges a world has seen asked for. *)
Definition exchLog (w : World) : list LDAPIdentity :=
  omap (fun ev => match ev with
                  | EvCredentialsGet id => Some id
                  | _ => None
                  end) (trace w).

(** The pool a configuration's transport verifies against; [None] when
    there is no transport, no TLS configuration or no pool. *)
Definition transportPool (cfg : Config) : option loc :=
  match cfg_Transport cfg with
  | Some t =>
      match TLSClientConfig t with
      | Some tc => RootCAs tc
      | None => None
      end
  | None => None
  end.

(** Whether a pool holds a certificate with the raw bytes of [cert]. *)
Definition holds (pool : CertPool) (cert : Certificate) : Prop :=
  exists c, In c pool /\ Raw c = Raw cert.

Section Accepts.

Context `{Platform}.

(** What [checkAliasSetSyntax] asks of the command line, collected. *)
Definition acceptsAliasSet (ctx : Context) (accessKey secretKey : string)
    (deprecated : bool) : bool :=
  (2 <=? length (Args ctx))%nat && (length (Args ctx) <=? 4)%nat
  && isValidAlias (cleanAlias (Args_Get (Args ctx) 0))
  && isValidHostURL (Args_Get (Args ctx) 1)
  && isValidAccessKey accessKey
  && isValidSecretKey secretKey
  && (String.eqb (ctx_String ctx "api") "" || isValidAPI (ctx_String ctx "api"))
  && (if deprecated then isValidLookup (ctx_String ctx "lookup")
      else isValidPath (ctx_String ctx "path")).

End Accepts.

(* ===================================================================== *)
(** ** The acl commands                                                  *)
(* ===================================================================== *)

(** [acl get] and [acl set] ([mainAclGet], [mainAclSet] and the methods
    of [userAclMessage]).  They share nothing with the alias bootstrap
    but the error values and the ways a command can end, so they run on a
    world of their own: the file system and the calls made so far. *)
Module Acl.

(** [userAclMessage]; [Policy] stands for
    [minio.AccessControlPolicyDecode]. *)
Record userAclMessage (Policy : Type) : Type := mkUserAclMessage {
  op : string;
  Status : string;
  Path : string;
  Acl : Policy
}.

Arguments mkUserAclMessage {Policy}.
Arguments op {Policy}.
Arguments Status {Policy}.
Arguments Path {Policy}.
Arguments Acl {Policy}.

(** What a command does that can be seen from outside, newest first. *)
Inductive Event (Policy S3Client : Type) : Type :=
| EvNewClient (url : string)
| EvAclGet (clnt : S3Client)
| EvAclSet (clnt : S3Client) (acl : string)
| EvPrintMsg (msg : userAclMessage Policy).

Arguments EvNewClient {Policy S3Client}.
Arguments EvAclGet {Policy S3Client}.
Arguments EvAclSet {Policy S3Client}.
Arguments EvPrintMsg {Policy S3Client}.

(** The file system, by path, and the events so far. *)
Record World (Policy S3Client : Type) : Type := mkWorld {
  fs : gmap string bytes;
  log : list (Event Policy S3Client)
}.

Arguments mkWorld {Policy S3Client}.
Arguments fs {Policy S3Client}.
Arguments log {Policy S3Client}.

(** Computations on that world; they end as those of the bootstrap
    do. *)
Definition M (Policy S3Client : Type) (A : Type) : Type :=
  World Policy S3Client -> result A * World Policy S3Client.

#[global] Instance M_ret {Policy S3Client} : MRet (M Policy S3Client) :=
  fun A (a : A) w => (Ok a, w).

#[global] Instance M_bind {Policy S3Client} : MBind (M Policy S3Client) :=
  fun A B (k : A -> M Policy S3Client B) (m : M Policy S3Client A) w =>
    match m w with
    | (Ok a, w') => k a w'
    | (Fatal e msg, w') => (Fatal e msg, w')
    | (Exit c, w') => (Exit c, w')
    | (Panic msg, w') => (Panic msg, w')
    end.

(** The collaborators of the acl commands: the client of the target with
    its two ACL calls, the JSON encoder, the console and the file
    system's refusals.  A write that fails says how many bytes it wrote
    before. *)
Class Platform (Policy S3Client : Type) : Type := {
  zeroPolicy : Policy;
  newClient : string -> probe.Error + S3Client;
  client_AclGet : S3Client -> probe.Error + Policy;
  client_AclSet : S3Client -> string -> option probe.Error;
  json_MarshalIndent : Policy -> error + bytes;
  json_MarshalIndent_message : userAclMessage Policy -> error + bytes;
  console_Colorize : string -> string -> string;
  os_Create_error : string -> option error;
  file_Write_error : string -> bytes -> option (nat * error);
  ioutil_ReadFile_error : string -> option error
}.

Section Source.

Context {Policy S3Client : Type} `{Platform Policy S3Client}.

Abbreviation M := (M Policy S3Client).

Definition log_event (ev : Event Policy S3Client) : M unit :=
  fun w => (Ok tt, {| fs := fs w; log := ev :: log w |}).

Definition set_file (path : string) (data : bytes) : M unit :=
  fun w => (Ok tt, {| fs := <[path := data]> (fs w); log := log w |}).

(** A run-time panic. *)
Definition panic {A} (msg : string) : M A := fun w => (Panic msg, w).

(** What follows a [fatalIf] whose error is not nil, were it to return:
    the value that came with the error is nil. *)
Definition nilDereference {A} : M A :=
  panic "invalid memory address or nil pointer dereference".

(** [fatalIf(err, msg)]. *)
Definition fatalIf (err : option probe.Error) (msg : string) : M unit :=
  match err with
  | None => mret tt
  | Some e => fun w => (Fatal e msg, w)
  end.

(** [cli.ShowCommandHelpAndExit(ctx, name, code)]. *)
Definition ShowCommandHelpAndExit (ctx : Context) (name : string) (code : Z)
  : M unit := fun w => (Exit code, w).

(** [printMsg(msg)]. *)
Definition printMsg (msg : userAclMessage Policy) : M unit :=
  log_event (EvPrintMsg msg).

(** [os.Create(path)]: the file is there and empty afterwards, whatever
    it held. *)
Definition Create (path : string) : M (option error) :=
  match os_Create_error path with
  | Some err => mret (Some err)
  | None => set_file path [];; mret None
  end.

(** [f.Write(data)] on a file just created at [path]. *)
Definition Write (path : string) (data : bytes) : M (option error) :=
  match file_Write_error path data with
  | Some (n, err) => set_file path (take n data);; mret (Some err)
  | None => set_file path data;; mret None
  end.

(** [ioutil.ReadFile(path)]. *)
Definition ReadFile (path : string) : M (error + bytes) :=
  match ioutil_ReadFile_error path with
  | Some err => mret (inl err)
  | None =>
      fun w =>
        match fs w !! path with
        | Some data => (Ok (inr data), w)
        | None =>
            (Ok (inl (errorString
                        ("open " ++ path ++ ": no such file or directory"))), w)
        end
  end.

(** [checkAclGetSyntax]: validate command line arguments. *)
Definition checkAclGetSyntax (cliCtx : Context) : M unit :=
  if negb (bool_decide (length (Args cliCtx) <> 0%nat))
  then ShowCommandHelpAndExit cliCtx "get" 1
  else mret tt.

(** The body of [if aclFile != ""] in [mainAclGet]: create the file,
    encode the ACL, write it. *)
Definition writeAclFile (args : list string) (aclFile : string) (acld : Policy)
  : M unit :=
  err ← Create aclFile;
  (match err with
   | Some err =>
       fatalIf (probe.Trace (probe.NewError (Some err)) args)
         "Could not open given acl file"
   | None => mret tt
   end);;
  acl ← (match json_MarshalIndent acld with
         | inl err =>
             fatalIf (probe.Trace (probe.NewError (Some err)) args)
               "Marshal failed";;
             mret []
         | inr acl => mret acl
         end);
  err ← Write aclFile acl;
  match err with
  | Some err =>
      fatalIf (probe.Trace (probe.NewError (Some err)) args)
        "Could not write to given acl file"
  | None => mret tt
  end.

(** [mainAclGet]. *)
Definition mainAclGet (cli : Context) : M (option error) :=
  checkAclGetSyntax cli;;
  let args := Args cli in
  let targetURL := Args_Get args 0 in
  log_event (EvNewClient targetURL);;
  match newClient targetURL with
  | inl err =>
      fatalIf (probe.Trace (Some err) [targetURL])
        ("Invalid target `" ++ targetURL ++ "`.");;
      nilDereference
  | inr clnt =>
      log_event (EvAclGet clnt);;
      match client_AclGet clnt with
      | inl err =>
          fatalIf (probe.Trace (Some err) [targetURL])
            ("Unable to get ACL `" ++ targetURL ++ "`.");;
          nilDereference
      | inr acld =>
          let aclFile := ctx_String cli "acl-file" in
          (if negb (String.eqb aclFile "")
           then writeAclFile args aclFile acld
           else mret tt);;
          printMsg {| op := "get"; Status := ""; Path := targetURL; Acl := acld |};;
          mret None
      end
  end.

(** [checkAclSetSyntax]. *)
Definition checkAclSetSyntax (ctx : Context) : M unit :=
  if negb (bool_decide (length (Args ctx) = 2%nat))
  then ShowCommandHelpAndExit ctx "set" 1
  else mret tt.

(** [userAclMessage.String]. *)
Definition String_ (u : userAclMessage Policy) : M string :=
  if String.eqb (op u) "get" then
    match json_MarshalIndent (Acl u) with
    | inl e =>
        fatalIf (probe.NewError (Some e)) "Unable to marshal to JSON.";;
        mret ""
    | inr buf => mret (string_of_bytes buf)
    end
  else if String.eqb (op u) "set" then
    mret (console_Colorize "AclMessage"
            ("Acl is " ++ op u ++ " on " ++ Path u))
  else mret "".

(** [userAclMessage.JSON]: the receiver is a copy, so the status is set
    on the copy only. *)
Definition JSON (u : userAclMessage Policy) : M string :=
  let u := {| op := op u; Status := "success"; Path := Path u; Acl := Acl u |} in
  match json_MarshalIndent_message u with
  | inl e =>
      fatalIf (probe.NewError (Some e)) "Unable to marshal into JSON.";;
      mret ""
  | inr jsonMessageBytes => mret (string_of_bytes jsonMessageBytes)
  end.

(** [mainAclSet]. *)
Definition mainAclSet (cli : Context) : M (option error) :=
  checkAclSetSyntax cli;;
  let args := Args cli in
  let targetURL := Args_Get args 0 in
  r ← ReadFile (Args_Get args 1);
  aclbytes ← (match r with
              | inl e =>
                  fatalIf (probe.Trace (probe.NewError (Some e)) args)
                    "Unable to get acl";;
                  mret []
              | inr aclbytes => mret aclbytes
              end);
  log_event (EvNewClient targetURL);;
  match newClient targetURL with
  | inl err =>
      fatalIf (Some err) ("Invalid target `" ++ targetURL ++ "`.");;
      nilDereference
  | inr clnt =>
      log_event (EvAclSet clnt (string_of_bytes aclbytes));;
      fatalIf (client_AclSet clnt (string_of_bytes aclbytes))
        ("Set acl `" ++ targetURL ++ "` failed");;
      printMsg {| op := "set"; Status := ""; Path := Args_Get args 0;
                  Acl := zeroPolicy |};;
      mret None
  end.

End Source.

End Acl.

(** Concrete collaborators for the acl commands: a client is the name of
    its target, an ACL is the bytes of its JSON text. *)
Module AclFixture.

Definition refused : probe.Error :=
  {| probe.Cause := errorString "dial tcp 10.0.0.7:9000: connect: connection refused";
     probe.CallTrace := [[]] |}.

Definition unsupported : error :=
  errorString "json: unsupported value".

(** The ACL every target answers: the text [{}]. *)
Definition emptyAcl : bytes := [Byte.x7b; Byte.x7d].

(** [reach] answers the making of a client, [fetch] the fetching of an
    ACL and [encode] the encoder; nothing else fails. *)
Definition platform (reach fetch : option probe.Error) (encode : option error)
  : Acl.Platform bytes string :=
  {| Acl.zeroPolicy := [];
     Acl.newClient := fun url =>
       match reach with Some e => inl e | None => inr url end;
     Acl.client_AclGet := fun _ =>
       match fetch with Some e => inl e | None => inr emptyAcl end;
     Acl.client_AclSet := fun _ _ => None;
     Acl.json_MarshalIndent := fun p =>
       match encode with Some e => inl e | None => inr p end;
     Acl.json_MarshalIndent_message := fun u => inr (Acl.Acl u);
     Acl.console_Colorize := fun _ s => s;
     Acl.os_Create_error := fun _ => None;
     Acl.file_Write_error := fun _ _ => None;
     Acl.ioutil_ReadFile_error := fun _ => None |}.

(** A target that answers. *)
Definition server : Acl.Platform bytes string := platform None None None.

(** A world with the given files and nothing done yet. *)
Definition world (files : gmap string bytes) : Acl.World bytes string :=
  {| Acl.fs := files; Acl.log := [] |}.

(** The command line of an acl command, with its [--acl-file]. *)
Definition cli (name : string) (args : list string) (aclFile : string) : Context :=
  {| Args := args;
     ctx_String := fun flag => if String.eqb flag "acl-file" then aclFile else "";
     Command_Name := name |}.

End AclFixture.

(* ===================================================================== *)
(** ** Properties                                                        *)
(* ===================================================================== *)

(** *** The monad and the world *)

Lemma bind_run {A B} (m : M A) (k : A -> M B) (w : World) :
  (m ≫= k) w =
  match m w with
  | (Ok a, w') => k a w'
  | (Fatal e msg, w') => (Fatal e msg, w')
  | (Exit c, w') => (Exit c, w')
  | (Panic msg, w') => (Panic msg, w')
  end.
Proof. reflexivity. Qed.

Lemma bind_Ok_eq {A B} (m : M A) (k : A -> M B) (w w' : World) (b : B) :
  (m ≫= k) w = (Ok b, w') ->
  exists a w1, m w = (Ok a, w1) /\ k a w1 = (Ok b, w').
Proof.
  rewrite bind_run.
  destruct (m w) as [[a | e msg | c | msg] w1]; try discriminate.
  intros E. exists a, w1. auto.
Qed.

(** Unfolding of the monad's operations, for stepping through a
    definition. *)
Ltac run :=
  unfold mbind, M_bind, mret, M_ret, get, modify, log, Printf, panic, exit,
    outcome, after, set_trace, set_pools, set_stdin, set_clockReads,
    set_files, set_mcConfig in *; simpl in *.

Lemma take_prefix (evs t : list Event) :
  take (length (evs ++ t)%list - length t) (evs ++ t)%list = evs.
Proof.
  rewrite length_app.
  replace (length evs + length t - length t)%nat with (length evs) by lia.
  apply take_app_length.
Qed.

Lemma eventsSince_app (w w' : World) (evs : list Event) :
  trace w' = (evs ++ trace w)%list -> eventsSince w w' = rev evs.
Proof.
  intros E. unfold eventsSince. rewrite E, take_prefix. reflexivity.
Qed.

(** The events a list of events has in front of an older one. *)
Ltac prefix_of t' t :=
  lazymatch t' with
  | t => constr:(@nil Event)
  | ?e :: ?r => let p := prefix_of r t in constr:(e :: p)
  end.

(** Computes the events since a world from the two traces. *)
Ltac since :=
  repeat match goal with
         | |- context [take (?n - length ?t) ?t'] =>
             let p := prefix_of t' t in
             change (take (n - length t) t')
               with (take (length (p ++ t)%list - length t) (p ++ t)%list);
             rewrite (take_prefix p t)
         end.

(** Case analysis on a scrutinee that holds no further case analysis. *)
Ltac case_innermost :=
  match goal with
  | |- context [match ?x with _ => _ end] =>
      lazymatch x with
      | context [match _ with _ => _ end] => fail
      | _ => destruct x eqn:?; simpl
      end
  end.

Section Properties.

Context `{Platform}.

(** *** Certificate pools *)

Lemma CertPool_add_idem (pool : CertPool) (c : Certificate) :
  CertPool_add (CertPool_add pool c) c = CertPool_add pool c.
Proof.
  unfold CertPool_add.
  destruct (existsb _ pool) eqn:E; [ now rewrite E | ].
  rewrite existsb_app, E. simpl.
  unfold bytes_Equal. rewrite bool_decide_eq_true_2 by reflexivity.
  reflexivity.
Qed.

(** [configurePeerCertificate] always returns, and neither prints nor
    calls the network. *)
Lemma configurePeerCertificate_total (cfg : Config) (c : Certificate) (w : World) :
  exists cfg' w',
    configurePeerCertificate cfg c w = (Ok cfg', w') /\
    trace w' = trace w /\ clockReads w' = clockReads w /\
    stdin w' = stdin w /\ files w' = files w /\ mcConfig w' = mcConfig w /\
    globalRootCAs w' = globalRootCAs w /\
    Signature cfg' = Signature cfg /\ HostURL cfg' = HostURL cfg.
Proof.
  unfold configurePeerCertificate. run.
  destruct (cfg_Transport cfg) as [t | ];
    [ destruct (TLSClientConfig t) as [tc | ];
      [ destruct (RootCAs tc) as [l | ] | ] | ];
    try (destruct (globalRootCAs w) as [g | ] eqn:G); run;
    eexists _, _; (split; [ reflexivity | ]); simpl; auto 10.
Qed.

(** One probing attempt always returns; it builds one client and makes
    at most one stat call, both under the dialect it was asked for. *)
Lemma probeSignatureType_total (cfg : Config) (stype : string) (w : World) :
  exists st e w',
    probeSignatureType cfg stype w = (Ok (Config_set_Signature cfg stype, (st, e)), w') /\
    (trace w' = EvS3New (Config_set_Signature cfg stype) :: trace w \/
     trace w' = EvStat (Config_set_Signature cfg stype)
                  :: EvS3New (Config_set_Signature cfg stype) :: trace w).
Proof.
  unfold probeSignatureType. run.
  destruct (S3New _ _) as [e | ]; [ eexists _, _, _; split; [ reflexivity | auto ] | ].
  destruct (client_Stat _ _) as [e | ];
    [ destruct (is_BucketDoesNotExist _);
      [ | destruct (String.eqb _ _) ] | ];
    eexists _, _, _; (split; [ reflexivity | auto ]).
Qed.

(** C5.  [probeS3Signature], one attempt under a dialect.  When the
    stat is answered with an error saying that the bucket does not
    exist, or with an error whose code is AccessDenied, the attempt
    returns the dialect as accepted.  Every other error of the attempt
    makes it fail, which is what sends the prober on to the next dialect:
    any other stat error (handed back traced with the dialect) and
    equally a client that cannot be built. *)
Theorem probeSignatureType_classifies
    (s3Config : Config) (stype : string) (w : World) (err : probe.Error) :
  (S3New (pools w) (Config_set_Signature s3Config stype) = None ->
   client_Stat (pools w) (Config_set_Signature s3Config stype) = Some err ->
   is_BucketDoesNotExist (probe.Cause err) = true ->
     outcome (probeSignatureType s3Config stype) w
     = Ok (Config_set_Signature s3Config stype, (stype, None)))
  /\ (S3New (pools w) (Config_set_Signature s3Config stype) = None ->
      client_Stat (pools w) (Config_set_Signature s3Config stype) = Some err ->
      ToErrorResponse_Code (probe.Cause err) = "AccessDenied" ->
     outcome (probeSignatureType s3Config stype) w
     = Ok (Config_set_Signature s3Config stype, (stype, None)))
  /\ (S3New (pools w) (Config_set_Signature s3Config stype) = None ->
      client_Stat (pools w) (Config_set_Signature s3Config stype) = Some err ->
      is_BucketDoesNotExist (probe.Cause err) = false ->
      ToErrorResponse_Code (probe.Cause err) <> "AccessDenied" ->
     outcome (probeSignatureType s3Config stype) w
     = Ok (Config_set_Signature s3Config stype,
           ("", Some {| probe.Cause := probe.Cause err;
                        probe.CallTrace :=
                          (probe.CallTrace err ++ [[stype]])%list |})))
  /\ (S3New (pools w) (Config_set_Signature s3Config stype) = Some err ->
     outcome (probeSignatureType s3Config stype) w
     = Ok (Config_set_Signature s3Config stype, ("", Some err))).
Proof.
  unfold probeSignatureType. run. repeat split.
  - intros HN HS HB. rewrite HN. simpl. rewrite HS. simpl. rewrite HB.
    reflexivity.
  - intros HN HS HC. rewrite HN. simpl. rewrite HS. simpl. rewrite HC.
    destruct (is_BucketDoesNotExist _); reflexivity.
  - intros HN HS HB HC. apply String.eqb_neq in HC.
    rewrite HN. simpl. rewrite HS. simpl. rewrite HB, HC. reflexivity.
  - intros HN. rewrite HN. reflexivity.
Qed.

Ltac total_configure :=
  match goal with
  | |- context [configurePeerCertificate ?cfg ?c ?w] =>
      let cfg' := fresh "cfg'" in let w' := fresh "w'" in
      let E := fresh "E" in
      destruct (configurePeerCertificate_total cfg c w)
        as (cfg' & w' & E & ? & ? & ? & ? & ? & ? & ? & ?);
      rewrite E; simpl
  end.

(** C4, as the code has it.  [probeS3Signature] prepares one
    configuration and makes its first attempt under [s3v4].  When that
    attempt is accepted, its dialect is the result and no other dialect
    is tried.  Only when it fails is a second attempt made, under
    [s3v2]; when that one fails too, the result is the error of the
    [s3v2] attempt, given one more trace point tagged with the two
    dialect names.  The cause of the [s3v4] failure is not part of the
    result. *)
Theorem probeS3Signature_fallback
    (accessKey secretKey sessionToken url : string)
    (peerCert : option Certificate) (w : World) :
  exists cfg w0 st4 e4 w4,
    trace w0 = trace w /\
    probeSignatureType cfg "s3v4" w0
      = (Ok (Config_set_Signature cfg "s3v4", (st4, e4)), w4) /\
    match e4 with
    | None =>
        probeS3Signature accessKey secretKey sessionToken url peerCert w
          = (Ok (st4, None), w4) /\
        dialectsTried (eventsSince w w4) = ["s3v4"]
    | Some _ =>
        exists st2 e2 w2,
          probeSignatureType (Config_set_Signature cfg "s3v4") "s3v2" w4
            = (Ok (Config_set_Signature cfg "s3v2", (st2, e2)), w2) /\
          dialectsTried (eventsSince w w2) = ["s3v4"; "s3v2"] /\
          probeS3Signature accessKey secretKey sessionToken url peerCert w
            = (Ok match e2 with
                  | None => (st2, None)
                  | Some c2 =>
                      ("", Some {| probe.Cause := probe.Cause c2;
                                   probe.CallTrace :=
                                     (probe.CallTrace c2 ++ [["s3v4"; "s3v2"]])%list |})
                  end, w2)
    end.
Proof.
  unfold probeS3Signature, Now. run.
  assert (exists cfg w0,
    trace w0 = trace w /\
    (match peerCert with
     | Some c =>
         configurePeerCertificate
           {| cfg_AccessKey := accessKey; cfg_SecretKey := secretKey;
              cfg_SessionToken := sessionToken; Signature := "";
              HostURL := urlJoinPath url
                (randString 60 (time.wrap64 (time.UnixNano (time_Now (clockReads w))))
                   "probe-bucket-sign-");
              Debug := globalDebug w; Insecure := globalInsecure w;
              cfg_Transport := None |} c
     | None => fun w1 => (Ok
           {| cfg_AccessKey := accessKey; cfg_SecretKey := secretKey;
              cfg_SessionToken := sessionToken; Signature := "";
              HostURL := urlJoinPath url
                (randString 60 (time.wrap64 (time.UnixNano (time_Now (clockReads w))))
                   "probe-bucket-sign-");
              Debug := globalDebug w; Insecure := globalInsecure w;
              cfg_Transport := None |}, w1)
     end
       {| globalInsecure := globalInsecure w; globalJSON := globalJSON w;
          globalDebug := globalDebug w; globalRootCAs := globalRootCAs w;
          pools := pools w; stdin := stdin w;
          clockReads := S (clockReads w); files := files w;
          mcConfig := mcConfig w; trace := trace w |}) = (Ok cfg, w0))
    as (cfg & w0 & Ht & E).
  { destruct peerCert as [c | ].
    - total_configure. eauto.
    - eexists _, _. split; [ | reflexivity ]. reflexivity. }
  rewrite E.
  destruct (probeSignatureType_total cfg "s3v4" w0) as (st4 & e4 & w4 & E4 & T4).
  exists cfg, w0, st4, e4, w4. split; [ exact Ht | ]. split; [ exact E4 | ].
  rewrite E4.
  assert (D4 : dialectsTried (eventsSince w w4) = ["s3v4"]).
  { destruct T4 as [T4 | T4];
      [ rewrite (eventsSince_app w w4 [EvS3New (Config_set_Signature cfg "s3v4")])
      | rewrite (eventsSince_app w w4 [EvStat (Config_set_Signature cfg "s3v4");
                                       EvS3New (Config_set_Signature cfg "s3v4")]) ];
      try reflexivity; rewrite T4, Ht; reflexivity. }
  destruct e4 as [c4 | ]; [ | split; [ reflexivity | exact D4 ] ].
  destruct (probeSignatureType_total (Config_set_Signature cfg "s3v4") "s3v2" w4)
    as (st2 & e2 & w2 & E2 & T2).
  exists st2, e2, w2. split; [ exact E2 | ].
  split.
  - destruct T4 as [T4 | T4], T2 as [T2 | T2];
      match type of T2 with
      | trace w2 = ?a :: ?b :: trace w4 =>
          match type of T4 with
          | trace w4 = ?c :: ?d :: _ =>
              rewrite (eventsSince_app w w2 [a; b; c; d])
          | trace w4 = ?c :: _ =>
              rewrite (eventsSince_app w w2 [a; b; c])
          end
      | trace w2 = ?a :: trace w4 =>
          match type of T4 with
          | trace w4 = ?c :: ?d :: _ =>
              rewrite (eventsSince_app w w2 [a; c; d])
          | trace w4 = ?c :: _ =>
              rewrite (eventsSince_app w w2 [a; c])
          end
      end; try reflexivity; rewrite T2, T4, Ht; reflexivity.
  - simpl. rewrite E2. destruct e2; reflexivity.
Qed.

(** With an explicit dialect [BuildS3Config] returns at once: the
    dialect is written into the configuration, nothing is printed, no
    call reaches the network and the clock is not read. *)
Lemma BuildS3Config_explicit
    (url alias accessKey secretKey sessionToken api path : string)
    (peerCert : option Certificate) (w : World) :
  api <> "" ->
  exists cfg w',
    BuildS3Config url alias accessKey secretKey sessionToken api path peerCert w
      = (Ok (Some cfg, None), w') /\
    Signature cfg = api /\ trace w' = trace w /\
    clockReads w' = clockReads w /\ mcConfig w' = mcConfig w.
Proof.
  intros Hapi. apply String.eqb_neq in Hapi.
  unfold BuildS3Config. run.
  destruct peerCert as [c | ].
  - total_configure. rewrite Hapi. simpl.
    eexists _, _. split; [ reflexivity | ]. simpl. auto.
  - rewrite Hapi. simpl. eexists _, _. split; [ reflexivity | ]. simpl. auto.
Qed.

(** *** Trust negotiation *)

Ltac unfold_trust :=
  unfold promptTrustSelfSignedCert, fetchPeerCertificate, Client_Do,
    readStdin, WriteFile, eventsSince, printed, wroteFile in *; run.

(** [strings.ToLower] sends a character to [y], [e], [s] or the line
    feed exactly when it is that letter in either case. *)
Lemma lower_ascii_y (c : ascii) :
  Ascii.eqb (lower_ascii c) "y" = Ascii.eqb c "y" || Ascii.eqb c "Y".
Proof. destruct c as [[] [] [] [] [] [] [] []]; reflexivity. Qed.

Lemma lower_ascii_e (c : ascii) :
  Ascii.eqb (lower_ascii c) "e" = Ascii.eqb c "e" || Ascii.eqb c "E".
Proof. destruct c as [[] [] [] [] [] [] [] []]; reflexivity. Qed.

Lemma lower_ascii_s (c : ascii) :
  Ascii.eqb (lower_ascii c) "s" = Ascii.eqb c "s" || Ascii.eqb c "S".
Proof. destruct c as [[] [] [] [] [] [] [] []]; reflexivity. Qed.

Lemma lower_ascii_LF (c : ascii) :
  Ascii.eqb (lower_ascii c) "010" = Ascii.eqb c "010".
Proof. destruct c as [[] [] [] [] [] [] [] []]; reflexivity. Qed.

(** The test of the source, [ToLower(answer)] being ["y\n"] or
    ["yes\n"], accepts exactly the affirmative answers. *)
Lemma affirmative_ToLower (answer : string) :
  String.eqb (strings_ToLower answer) ("y" ++ LF)
  || String.eqb (strings_ToLower answer) ("yes" ++ LF)
  = affirmative answer.
Proof.
  unfold affirmative.
  set (l := map _ _). vm_compute in l. subst l.
  set (a := "y" ++ LF). vm_compute in a. subst a.
  set (a := "yes" ++ LF). vm_compute in a. subst a.
  destruct answer as [ | c1 [ | c2 [ | c3 [ | c4 [ | c5 s]]]]];
    cbn -[Ascii.eqb lower_ascii];
    rewrite ?lower_ascii_y, ?lower_ascii_e, ?lower_ascii_s, ?lower_ascii_LF;
    repeat match goal with
           | |- context [Ascii.eqb ?a ?b] => destruct (Ascii.eqb a b)
           end; reflexivity.
Qed.

(** C9.  [promptTrustSelfSignedCert], first connection (verified
    against the process-wide pool) failing with an error whose message
    does not contain "certificate signed by unknown authority": the
    error is handed back as it is, no certificate is returned, and
    nothing else happens (one connection, nothing printed or read, no
    file written).  A failure that does carry that message is the one
    case in which the function goes on, to the unverified connection
    that fetches the peer certificate. *)
Theorem promptTrust_propagates_other_failures
    (endpoint alias : string) (w : World) (req : Request) (tlsErr : error) :
  http_NewRequest endpoint = inr req ->
  URL_Scheme req <> "http" ->
  http_Do (pools w) (verifyingClient (globalRootCAs w)) req = inl tlsErr ->
  (strings_Contains (error_Error tlsErr)
     "certificate signed by unknown authority" = false ->
   outcome (promptTrustSelfSignedCert endpoint alias) w
     = Ok (None, probe.NewError (Some tlsErr)) /\
   eventsSince w (after (promptTrustSelfSignedCert endpoint alias) w)
     = [EvHttpDo (verifyingClient (globalRootCAs w)) req] /\
   stdin (after (promptTrustSelfSignedCert endpoint alias) w) = stdin w /\
   files (after (promptTrustSelfSignedCert endpoint alias) w) = files w)
  /\ (strings_Contains (error_Error tlsErr)
        "certificate signed by unknown authority" = true ->
      In (EvHttpDo unverifyingClient req)
         (eventsSince w (after (promptTrustSelfSignedCert endpoint alias) w))).
Proof.
  intros HR HS HD. apply String.eqb_neq in HS.
  split; intros HC; unfold_trust; rewrite HR, HS; simpl; rewrite HD; simpl;
    rewrite HC; simpl.
  - repeat split; since; reflexivity.
  - repeat case_innermost; since; simpl; auto 10.
Qed.

(** C3.  [promptTrustSelfSignedCert], peer certificate fetched after
    an unknown-authority failure, with a subject key id that differs
    from its authority key id: whatever waits on standard input, the
    result is the rejection that carries the unknown-authority error,
    no certificate is returned, no prompt is printed, nothing is read
    from standard input and no file is written. *)
Theorem promptTrust_rejects_foreign_issuer
    (endpoint alias : string) (w : World) (input : list (string * option error))
    (req : Request) (tlsErr : error) (peerCert : Certificate) :
  http_NewRequest endpoint = inr req ->
  URL_Scheme req <> "http" ->
  http_Do (pools w) (verifyingClient (globalRootCAs w)) req = inl tlsErr ->
  strings_Contains (error_Error tlsErr)
    "certificate signed by unknown authority" = true ->
  outcome (fetchPeerCertificate endpoint) w = Ok (inr peerCert) ->
  SubjectKeyId peerCert <> AuthorityKeyId peerCert ->
  outcome (promptTrustSelfSignedCert endpoint alias) (set_stdin w input)
    = Ok (None, probe.NewError (Some tlsErr)) /\
  printed (eventsSince (set_stdin w input)
             (after (promptTrustSelfSignedCert endpoint alias) (set_stdin w input)))
    = false /\
  wroteFile (eventsSince (set_stdin w input)
               (after (promptTrustSelfSignedCert endpoint alias) (set_stdin w input)))
    = false /\
  stdin (after (promptTrustSelfSignedCert endpoint alias) (set_stdin w input))
    = input /\
  files (after (promptTrustSelfSignedCert endpoint alias) (set_stdin w input))
    = files w.
Proof.
  intros HR HS HD HC HF HK. apply String.eqb_neq in HS.
  assert (HB : bytes_Equal (SubjectKeyId peerCert) (AuthorityKeyId peerCert) = false)
    by (unfold bytes_Equal; apply bool_decide_eq_false_2; exact HK).
  unfold_trust. rewrite HR in *. rewrite HS. simpl in *.
  rewrite HD, HC. simpl.
  destruct (http_Do (pools w) unverifyingClient req) as [e | resp];
    [ discriminate | ].
  simpl in *.
  destruct (TLS_PeerCertificates resp) as [[ | c rest] | ];
    simpl in *; try discriminate.
  injection HF as ->. rewrite HB. simpl.
  repeat split; since; reflexivity.
Qed.

(** C8, as the code has it.  [promptTrustSelfSignedCert], self-signed
    peer certificate fetched after an unknown-authority failure: the
    fingerprint prompt is printed and one answer is read.  An answer
    read without error that is not affirmative gives the rejection
    that carries the unknown-authority error, and no file is written.
    An affirmative answer makes the function write the certificate
    file; the certificate is returned exactly when that write succeeds,
    and a failed write gives the write error and no certificate.  A
    failed read gives the read error.  So a pinned certificate is
    returned, and stored, if and only if the answer was read, is
    affirmative, and the file could be written. *)
Theorem promptTrust_confirmation
    (endpoint alias : string) (w : World) (req : Request) (tlsErr : error)
    (peerCert : Certificate) (answer : string) (rerr : option error)
    (rest : list (string * option error)) :
  http_NewRequest endpoint = inr req ->
  URL_Scheme req <> "http" ->
  http_Do (pools w) (verifyingClient (globalRootCAs w)) req = inl tlsErr ->
  strings_Contains (error_Error tlsErr)
    "certificate signed by unknown authority" = true ->
  outcome (fetchPeerCertificate endpoint) w = Ok (inr peerCert) ->
  SubjectKeyId peerCert = AuthorityKeyId peerCert ->
  stdin w = (answer, rerr) :: rest ->
  outcome (promptTrustSelfSignedCert endpoint alias) w
    = Ok match rerr with
         | Some e => (None, probe.NewError (Some e))
         | None =>
             if affirmative answer then
               match os_WriteFile_error (pinnedCertPath alias) (pinnedCertPEM peerCert) with
               | Some e => (None, probe.NewError (Some e))
               | None => (Some peerCert, None)
               end
             else (None, probe.NewError (Some tlsErr))
         end
  /\ ((exists c, outcome (promptTrustSelfSignedCert endpoint alias) w = Ok (Some c, None))
      <-> rerr = None /\ affirmative answer = true /\
          os_WriteFile_error (pinnedCertPath alias) (pinnedCertPEM peerCert) = None)
  /\ files (after (promptTrustSelfSignedCert endpoint alias) w)
     = (if bool_decide (rerr = None) && affirmative answer
           && bool_decide (os_WriteFile_error (pinnedCertPath alias)
                             (pinnedCertPEM peerCert) = None)
        then <[pinnedCertPath alias := pinnedCertPEM peerCert]> (files w)
        else files w)
  /\ wroteFile (eventsSince w (after (promptTrustSelfSignedCert endpoint alias) w))
     = bool_decide (rerr = None) && affirmative answer
       && bool_decide (os_WriteFile_error (pinnedCertPath alias)
                         (pinnedCertPEM peerCert) = None)
  /\ printed (eventsSince w (after (promptTrustSelfSignedCert endpoint alias) w))
     = true.
Proof.
  intros HR HS HD HC HF HK HI. apply String.eqb_neq in HS.
  assert (HB : bytes_Equal (SubjectKeyId peerCert) (AuthorityKeyId peerCert) = true)
    by (unfold bytes_Equal; apply bool_decide_eq_true_2; exact HK).
  assert (HO : outcome (promptTrustSelfSignedCert endpoint alias) w
    = Ok match rerr with
         | Some e => (None, probe.NewError (Some e))
         | None =>
             if affirmative answer then
               match os_WriteFile_error (pinnedCertPath alias) (pinnedCertPEM peerCert) with
               | Some e => (None, probe.NewError (Some e))
               | None => (Some peerCert, None)
               end
             else (None, probe.NewError (Some tlsErr))
         end
    /\ files (after (promptTrustSelfSignedCert endpoint alias) w)
       = (if bool_decide (rerr = None) && affirmative answer
             && bool_decide (os_WriteFile_error (pinnedCertPath alias)
                               (pinnedCertPEM peerCert) = None)
          then <[pinnedCertPath alias := pinnedCertPEM peerCert]> (files w)
          else files w)
    /\ wroteFile (eventsSince w (after (promptTrustSelfSignedCert endpoint alias) w))
       = bool_decide (rerr = None) && affirmative answer
         && bool_decide (os_WriteFile_error (pinnedCertPath alias)
                           (pinnedCertPEM peerCert) = None)
    /\ printed (eventsSince w (after (promptTrustSelfSignedCert endpoint alias) w))
       = true).
  { rewrite <- (affirmative_ToLower answer).
    unfold_trust. rewrite HR in *. rewrite HS. simpl in *.
    rewrite HD, HC. simpl.
    destruct (http_Do (pools w) unverifyingClient req) as [e | resp];
      [ discriminate | ].
    simpl in *.
    destruct (TLS_PeerCertificates resp) as [[ | c rest'] | ];
      simpl in *; try discriminate.
    injection HF as ->. rewrite HB, HI. simpl.
    destruct rerr as [e | ]; simpl.
    - repeat split; since; reflexivity.
    - rewrite <- negb_orb.
      destruct (String.eqb (strings_ToLower answer) ("y" ++ LF)
                || String.eqb (strings_ToLower answer) ("yes" ++ LF)); simpl.
      + destruct (os_WriteFile_error _ _) as [e | ]; simpl;
          repeat split; since; reflexivity.
      + repeat split; since; reflexivity. }
  destruct HO as (HO & Hf & Hw & Hp).
  split; [ exact HO | ]. split; [ | auto ].
  rewrite HO. split.
  - intros [c E]. destruct rerr as [e | ]; [ discriminate | ].
    destruct (affirmative answer); [ | discriminate ].
    destruct (os_WriteFile_error _ _); [ discriminate | auto ].
  - intros (-> & -> & ->). eauto.
Qed.

(** *** The client of the identity exchange *)

(** C1, as the code has it.  [prepareStsClient] returns a client
    whenever the process has a root pool or no certificate is pinned.
    For every client it returns, with or without a root pool:
    certificate verification is skipped exactly when the scheme of the
    endpoint is not [http] and a pinned certificate is present, so it
    is kept for an unencrypted endpoint, and for an encrypted endpoint
    it is kept only as long as no certificate was pinned; and the
    client's trust set is the process-wide pool itself.  When that pool
    exists, the pinned certificate, when there is one, has been added
    to it in place; no other pool changes. *)
Theorem prepareStsClient_trust
    (peerCert : option Certificate) (url : string) (w : World) :
  (globalRootCAs w <> None \/ peerCert = None ->
   exists c, outcome (prepareStsClient peerCert url) w = Ok c)
  /\ forall c, outcome (prepareStsClient peerCert url) w = Ok c ->
     exists tc,
       TLSClientConfig (client_Transport c) = Some tc /\
       (InsecureSkipVerify tc = true
        <-> fst (getScheme url) <> "http" /\ peerCert <> None) /\
       RootCAs tc = globalRootCAs w /\
       globalRootCAs (after (prepareStsClient peerCert url) w) = globalRootCAs w /\
       (forall l, globalRootCAs w = Some l ->
          pools (after (prepareStsClient peerCert url) w) l
            = withPinned (pools w l) peerCert) /\
       (forall l', globalRootCAs w <> Some l' ->
          pools (after (prepareStsClient peerCert url) w) l' = pools w l').
Proof.
  unfold prepareStsClient, AddCert. run.
  destruct (globalRootCAs w) as [l | ] eqn:HG;
    destruct (getScheme url) as [schem rest] eqn:Es;
    destruct peerCert as [p | ]; simpl.
  - split; [ intros _; eexists; reflexivity | ].
    intros c E. injection E as <-. eexists. simpl.
    split; [ reflexivity | ]. split; [ | split; [ reflexivity | ] ].
    + simpl. rewrite andb_true_r, negb_true_iff, String.eqb_neq. split.
      * intros Hs. split; [ exact Hs | discriminate ].
      * intros [Hs _]. exact Hs.
    + split; [ exact HG | ]. split.
      * intros l0 E. injection E as <-.
        rewrite !decide_True by reflexivity. apply CertPool_add_idem.
      * intros l' Hl. rewrite !decide_False by congruence. reflexivity.
  - split; [ intros _; eexists; reflexivity | ].
    intros c E. injection E as <-. eexists. simpl.
    split; [ reflexivity | ]. split; [ | split; [ reflexivity | ] ].
    + simpl. rewrite andb_false_r. split; [ discriminate | ].
      intros [_ Hn]. contradiction Hn. reflexivity.
    + split; [ exact HG | ]. split; reflexivity.
  - split; [ intros [Hn | Hn]; [ contradiction Hn; reflexivity | discriminate ] | ].
    intros c E. discriminate E.
  - split; [ intros _; eexists; reflexivity | ].
    intros c E. injection E as <-. eexists. simpl.
    split; [ reflexivity | ]. split; [ | split; [ reflexivity | ] ].
    + simpl. rewrite andb_false_r. split; [ discriminate | ].
      intros [_ Hn]. contradiction Hn. reflexivity.
    + split; [ exact HG | ]. split; [ discriminate | reflexivity ].
Qed.

(** *** The bootstrap as a whole *)

(** [fetchAliasKeys] always returns; it reads neither the clock nor the
    network. *)
Lemma fetchAliasKeys_total (args : list string) (w : World) :
  exists accessKey secretKey w1,
    fetchAliasKeys args w = (Ok (accessKey, secretKey), w1) /\
    clockReads w1 = clockReads w /\ probeLog w1 = probeLog w.
Proof.
  unfold fetchAliasKeys, readStdin, probeLog. run.
  repeat case_innermost; eexists _, _, _; (split; [ reflexivity | ]); auto.
Qed.

(** [checkAliasSetSyntax] only ever checks: when it returns, the world
    is as it was. *)
Lemma checkAliasSetSyntax_Ok (ctx : Context) (accessKey secretKey : string)
    (deprecated : bool) (w w' : World) (u : unit) :
  checkAliasSetSyntax ctx accessKey secretKey deprecated w = (Ok u, w') -> w' = w.
Proof.
  unfold checkAliasSetSyntax, ShowCommandHelpAndExit, fatalIf. run.
  repeat (case_innermost; try discriminate).
  all: intros E; injection E as _ <-; reflexivity.
Qed.

(** [promptTrustSelfSignedCert] reads no clock and does not probe. *)
Lemma promptTrust_frame (endpoint alias : string) (w : World) :
  clockReads (after (promptTrustSelfSignedCert endpoint alias) w) = clockReads w /\
  probeLog (after (promptTrustSelfSignedCert endpoint alias) w) = probeLog w.
Proof.
  unfold promptTrustSelfSignedCert, fetchPeerCertificate, Client_Do,
    readStdin, WriteFile, probeLog. run.
  repeat case_innermost; auto.
Qed.

(** What a successful [getStsWithLDAP] returns is what the identity
    exchange answered to the user name and password it was given. *)
Lemma getStsWithLDAP_Ok (endpoint ldapUser ldapPassword : string)
    (peerCert : option Certificate) (w w' : World) (a s t : string) :
  getStsWithLDAP endpoint ldapUser ldapPassword peerCert w = (Ok (a, s, t, None), w') ->
  probeLog w' = probeLog w /\
  exists client w1 tokens,
    prepareStsClient peerCert endpoint w = (Ok client, w1) /\
    credentials_Get (pools w1)
      {| ldap_Client := client; STSEndpoint := endpoint;
         LDAPUsername := ldapUser; LDAPPassword := ldapPassword;
         RequestedExpiry := StsDefaultExpire |} = inr tokens /\
    a = AccessKeyID tokens /\ s = SecretAccessKey tokens /\
    t = val_SessionToken tokens.
Proof.
  unfold getStsWithLDAP. intros E.
  apply bind_Ok_eq in E as (client & w1 & E1 & E).
  assert (T1 : probeLog w1 = probeLog w).
  { revert E1. unfold prepareStsClient, AddCert, probeLog. run.
    repeat (case_innermost; try discriminate);
      intros E1; injection E1 as _ <-; reflexivity. }
  revert E. unfold probeLog in *. run.
  destruct (credentials_Get _ _) as [e | tokens] eqn:EC; [ discriminate | ].
  intros E. injection E as <- <- <- <-. simpl. split; [ exact T1 | ].
  exists client, w1, tokens. auto.
Qed.

(** A run of [mainAliasSet] that returns went through every stage:
    the keys were fetched, trust was negotiated without reading the
    clock, the credentials are those of the identity exchange (ldap) or
    the keys themselves (any other type), the configuration was built,
    and the record was saved under the alias. *)
Lemma mainAliasSet_Ok (cli : Context) (deprecated : bool) (w : World)
    (r : option error) :
  outcome (mainAliasSet cli deprecated) w = Ok r ->
  exists accessKey secretKey w1 peerCert w2 sts w3 s3Config w4,
    fetchAliasKeys (Args cli) w = (Ok (accessKey, secretKey), w1) /\
    clockReads w2 = clockReads w /\ probeLog w2 = probeLog w /\
    (if String.eqb (resolveType (ctx_String cli "type")) "ldap"
     then exists a s t,
         getStsWithLDAP (trimTrailingSeparator (Args_Get (Args cli) 1))
           accessKey secretKey peerCert
           (set_clockReads w2 (S (clockReads w2)))
         = (Ok (a, s, t, None), w3) /\
         sts = (a, s, t,
                time.Add (time.Add (time_Now (clockReads w)) StsDefaultExpire)
                         (- StsWindowTime))
     else w3 = w2 /\ sts = (accessKey, secretKey, "", time.Unix 0 0)) /\
    BuildS3Config (trimTrailingSeparator (Args_Get (Args cli) 1))
      (cleanAlias (Args_Get (Args cli) 0))
      sts.1.1.1 sts.1.1.2 sts.1.2 (ctx_String cli "api")
      (resolvePath cli deprecated) peerCert w3
    = (Ok (Some s3Config, None), w4) /\
    r = None /\
    Aliases (mcConfig (after (mainAliasSet cli deprecated) w))
      !! cleanAlias (Args_Get (Args cli) 0)
    = Some (builtRecord cli deprecated accessKey secretKey s3Config sts) /\
    probeLog (after (mainAliasSet cli deprecated) w) = probeLog w4.
Proof.
  unfold outcome, after.
  destruct (mainAliasSet cli deprecated w) as [res w'] eqn:E. simpl.
  intros ->. unfold mainAliasSet in E.
  apply bind_Ok_eq in E as ([accessKey secretKey] & w1 & E1 & E).
  destruct (fetchAliasKeys_total (Args cli) w) as (ak & sk & w1' & E1' & C1 & L1).
  rewrite E1 in E1'. injection E1' as <- <- <-.
  apply bind_Ok_eq in E as (u & w1' & E2 & E).
  apply checkAliasSetSyntax_Ok in E2 as ->.
  apply bind_Ok_eq in E as (gi & w1' & E3 & E).
  injection E3 as <- <-.
  apply bind_Ok_eq in E as (gj & w1' & E3 & E).
  injection E3 as <- <-.
  apply bind_Ok_eq in E as (peerCert & w2 & E4 & E).
  assert (F2 : clockReads w2 = clockReads w /\ probeLog w2 = probeLog w).
  { destruct (negb (globalInsecure w1) && negb (globalJSON w1) && stdout_IsTerminal).
    - apply bind_Ok_eq in E4 as ([pc err] & w2' & E4 & E5).
      destruct (promptTrust_frame (trimTrailingSeparator (Args_Get (Args cli) 1))
                  (cleanAlias (Args_Get (Args cli) 0)) w1) as [Fc Fl].
      unfold after in Fc, Fl. rewrite E4 in Fc, Fl. simpl in Fc, Fl.
      apply bind_Ok_eq in E5 as (u' & w2'' & E5 & E6).
      unfold fatalIf in E5. destruct (probe.Trace err (Args cli)); [ discriminate | ].
      injection E5 as _ <-. injection E6 as _ <-.
      split; congruence.
    - injection E4 as _ <-. auto. }
  destruct F2 as [C2 L2].
  apply bind_Ok_eq in E as (sts & w3 & E5 & E).
  destruct sts as [e | sts].
  { (* the exchange failed: [fatalIf] has left before *)
    exfalso. destruct (String.eqb _ "ldap"); [ | discriminate ].
    apply bind_Ok_eq in E5 as (now & wn & _ & E5).
    apply bind_Ok_eq in E5 as ([[[a s] t] [e' | ]] & w3' & _ & E5);
      [ | discriminate ].
    apply bind_Ok_eq in E5 as (u' & w3'' & E5 & _). discriminate. }
  exists accessKey, secretKey, w1, peerCert, w2, sts, w3.
  destruct sts as [[[stsAccessKey stsSecretKey] stsSessionTk] stsExpireTime].
  apply bind_Ok_eq in E as ([s3Config err] & w4 & E6 & E).
  apply bind_Ok_eq in E as (u' & w4' & E7 & E).
  unfold fatalIf in E7. destruct err as [err | ]; [ discriminate | ].
  simpl in E7. injection E7 as _ <-.
  destruct s3Config as [s3Config | ]; [ | discriminate ].
  exists s3Config, w4.
  split; [ exact E1 | ]. split; [ exact C2 | ]. split; [ exact L2 | ].
  split.
  { destruct (String.eqb _ "ldap").
    - apply bind_Ok_eq in E5 as (now & wn & En & E5).
      injection En as <- <-.
      apply bind_Ok_eq in E5 as ([[[a s] t] [e' | ]] & w3' & Eg & E5).
      + apply bind_Ok_eq in E5 as (u'' & w3'' & E5 & _). discriminate.
      + injection E5 as <- <- <- <- <-.
        exists a, s, t. split; [ exact Eg | rewrite C2; reflexivity ].
    - injection E5 as <- <- <- <- <-. auto. }
  split; [ exact E6 | ].
  apply bind_Ok_eq in E as (msg & w5 & E8 & E).
  unfold printMsg in E. revert E. run. intros E. injection E as <- <-.
  revert E8. unfold setAlias, loadMcConfig, saveMcConfig, fatalIf, probeLog. run.
  destruct loadMcConfig_error; [ discriminate | ]. simpl.
  destruct (saveMcConfig_error _); [ discriminate | ]. simpl.
  intros E8. injection E8 as <- <-. simpl.
  split; [ reflexivity | ]. split; [ | reflexivity ].
  apply lookup_insert_eq.
Qed.

(** *** Expiry arithmetic *)

Lemma wrap64_small (z : Z) :
  (time.minInt64 <= z <= time.maxInt64)%Z -> time.wrap64 z = z.
Proof.
  unfold time.wrap64, time.minInt64, time.maxInt64.
  change (2 ^ 63)%Z with 9223372036854775808%Z.
  change (2 ^ 64)%Z with 18446744073709551616%Z.
  intros Hz. rewrite Z.mod_small by lia. lia.
Qed.

Lemma addSec_exact (ext d : Z) :
  (time.minInt64 <= ext + d <= time.maxInt64)%Z ->
  time.addSec ext d = (ext + d)%Z.
Proof.
  intros Hz. unfold time.addSec. rewrite wrap64_small by exact Hz.
  destruct (ext + d >? ext)%Z eqn:E1, (d >? 0)%Z eqn:E2; simpl; try reflexivity; lia.
Qed.

(** Adding a whole number of seconds moves the seconds and leaves the
    nanoseconds, as long as the result can be represented. *)
Lemma Add_seconds (t : time.Time) (k : Z) :
  (0 <= time.nsec t < 1000000000)%Z ->
  (time.minInt64 <= time.sec t + k <= time.maxInt64)%Z ->
  time.Add t (k * 1000000000)
    = {| time.sec := time.sec t + k; time.nsec := time.nsec t |}.
Proof.
  intros Hn Hs. unfold time.Add.
  rewrite Z.quot_mul, Z.rem_mul, Z.add_0_r by lia.
  destruct (time.nsec t >=? 1000000000)%Z eqn:E1; [ lia | ].
  destruct (time.nsec t <? 0)%Z eqn:E2; [ lia | ].
  rewrite addSec_exact by exact Hs. reflexivity.
Qed.

(** One hour later and ten minutes earlier is fifty minutes later. *)
Lemma expiry_fifty_minutes (t : time.Time) :
  time.wallclock t ->
  time.Add (time.Add t StsDefaultExpire) (- StsWindowTime)
    = {| time.sec := time.sec t + 3000; time.nsec := time.nsec t |}
  /\ time.Add t (50 * time.Minute)
    = {| time.sec := time.sec t + 3000; time.nsec := time.nsec t |}.
Proof.
  intros [Hn Hs]. unfold time.maxInt64 in Hs.
  change (2 ^ 63)%Z with 9223372036854775808%Z in Hs.
  assert (R : forall z : Z, (0 <= z <= 9223372036854775807)%Z ->
              (time.minInt64 <= z <= time.maxInt64)%Z).
  { intros z Hz. unfold time.minInt64, time.maxInt64.
    change (2 ^ 63)%Z with 9223372036854775808%Z. lia. }
  change StsDefaultExpire with (3600 * 1000000000)%Z.
  change (- StsWindowTime)%Z with (-600 * 1000000000)%Z.
  change (50 * time.Minute)%Z with (3000 * 1000000000)%Z.
  rewrite (Add_seconds t 3600) by (auto; apply R; lia).
  rewrite (Add_seconds _ (-600)) by (simpl; auto; apply R; lia).
  rewrite (Add_seconds t 3000) by (auto; apply R; lia).
  simpl. split; f_equal; lia.
Qed.

(** With all four arguments on the command line the keys are the
    third and the fourth. *)
Lemma fetchAliasKeys_args (args : list string) (w w1 : World)
    (accessKey secretKey : string) :
  length args = 4%nat ->
  fetchAliasKeys args w = (Ok (accessKey, secretKey), w1) ->
  accessKey = Args_Get args 2 /\ secretKey = Args_Get args 3.
Proof.
  intros HL. unfold fetchAliasKeys. rewrite HL. run.
  intros E. injection E as <- <- _. auto.
Qed.

(** C2.  [mainAliasSet], credential type ldap, run to the end: the
    record saved under the alias carries as its expiry the clock
    reading [T] taken when the exchange was asked for (the first
    reading of the run) plus one hour minus ten minutes, which is [T]
    plus fifty minutes exactly, to the nanosecond. *)
Theorem federated_expiry_is_fifty_minutes
    (cli : Context) (deprecated : bool) (w : World) (r : option error) :
  outcome (mainAliasSet cli deprecated) w = Ok r ->
  resolveType (ctx_String cli "type") = "ldap" ->
  time.wallclock (time_Now (clockReads w)) ->
  exists rec,
    Aliases (mcConfig (after (mainAliasSet cli deprecated) w))
      !! cleanAlias (Args_Get (Args cli) 0) = Some rec /\
    ExpireTime rec = time.Add (time_Now (clockReads w)) (50 * time.Minute) /\
    time.UnixNano (ExpireTime rec)
      = (time.UnixNano (time_Now (clockReads w)) + 50 * time.Minute)%Z.
Proof.
  intros Hrun Hty Hclock.
  destruct (mainAliasSet_Ok cli deprecated w r Hrun)
    as (ak & sk & w1 & pc & w2 & sts & w3 & cfg & w4
        & _ & _ & _ & Hsts & _ & _ & Hrec & _).
  rewrite Hty in Hsts. simpl in Hsts.
  destruct Hsts as (a & s & t & _ & ->).
  eexists. split; [ exact Hrec | ]. simpl.
  destruct (expiry_fifty_minutes _ Hclock) as [-> ->].
  split; [ reflexivity | ].
  unfold time.UnixNano, time.Minute, time.Second, time.Nanosecond. simpl. lia.
Qed.

(** C7, as the code has it.  [mainAliasSet] run to the end.  For any
    credential type other than ldap the saved record has an empty
    session token and the expiry [time.Unix(0, 0)].  For ldap the
    session token is the one the identity exchange answered, whatever
    it is (the code does not look at it), and the expiry is the clock
    reading [T] taken when the exchange was asked for plus fifty
    minutes, hence strictly after [T]. *)
Theorem record_session_fields
    (cli : Context) (deprecated : bool) (w : World) (r : option error) :
  outcome (mainAliasSet cli deprecated) w = Ok r ->
  time.wallclock (time_Now (clockReads w)) ->
  exists rec,
    Aliases (mcConfig (after (mainAliasSet cli deprecated) w))
      !! cleanAlias (Args_Get (Args cli) 0) = Some rec /\
    AType rec = resolveType (ctx_String cli "type") /\
    (AType rec <> "ldap" ->
       StsSessionTk rec = "" /\ ExpireTime rec = time.Unix 0 0) /\
    (AType rec = "ldap" ->
       (exists client p tokens,
          credentials_Get p
            {| ldap_Client := client;
               STSEndpoint := trimTrailingSeparator (Args_Get (Args cli) 1);
               LDAPUsername := AccessKey rec; LDAPPassword := SecretKey rec;
               RequestedExpiry := StsDefaultExpire |} = inr tokens /\
          StsSessionTk rec = val_SessionToken tokens) /\
       ExpireTime rec = time.Add (time_Now (clockReads w)) (50 * time.Minute) /\
       time.Before (time_Now (clockReads w)) (ExpireTime rec) = true).
Proof.
  intros Hrun Hclock.
  destruct (mainAliasSet_Ok cli deprecated w r Hrun)
    as (ak & sk & w1 & pc & w2 & sts & w3 & cfg & w4
        & _ & _ & _ & Hsts & _ & _ & Hrec & _).
  eexists. split; [ exact Hrec | ]. simpl. split; [ reflexivity | ].
  destruct (String.eqb (resolveType (ctx_String cli "type")) "ldap") eqn:Ety.
  - apply String.eqb_eq in Ety.
    destruct Hsts as (a & s & t & Hget & ->). simpl.
    split; [ intros Hn; contradiction | ]. intros _.
    apply getStsWithLDAP_Ok in Hget as (_ & client & wc & tokens & _ & Hc & _ & _ & ->).
    split; [ eauto | ].
    destruct (expiry_fifty_minutes _ Hclock) as [-> ->].
    split; [ reflexivity | ].
    unfold time.Before. simpl.
    apply orb_true_iff. left. apply Z.ltb_lt. lia.
  - apply String.eqb_neq in Ety.
    destruct Hsts as (_ & ->). simpl.
    split; [ auto | ]. intros Hn; contradiction.
Qed.

(** C10.  [mainAliasSet], credential type ldap, run to the end: the
    saved record keeps the user's own LDAP name and password, the keys
    [fetchAliasKeys] returned (the third and fourth argument when the
    command line has four), in its access-key and secret-key fields,
    and next to them, in fields of their own, the access key, secret
    key and session token the identity exchange answered when it was
    given that name and password. *)
Theorem ldap_record_keeps_both_credentials
    (cli : Context) (deprecated : bool) (w : World) (r : option error) :
  outcome (mainAliasSet cli deprecated) w = Ok r ->
  resolveType (ctx_String cli "type") = "ldap" ->
  exists accessKey secretKey w1 client p tokens rec,
    fetchAliasKeys (Args cli) w = (Ok (accessKey, secretKey), w1) /\
    (length (Args cli) = 4%nat ->
       accessKey = Args_Get (Args cli) 2 /\ secretKey = Args_Get (Args cli) 3) /\
    credentials_Get p
      {| ldap_Client := client;
         STSEndpoint := trimTrailingSeparator (Args_Get (Args cli) 1);
         LDAPUsername := accessKey; LDAPPassword := secretKey;
         RequestedExpiry := StsDefaultExpire |} = inr tokens /\
    Aliases (mcConfig (after (mainAliasSet cli deprecated) w))
      !! cleanAlias (Args_Get (Args cli) 0) = Some rec /\
    AType rec = "ldap" /\
    AccessKey rec = accessKey /\ SecretKey rec = secretKey /\
    StsAccessKey rec = AccessKeyID tokens /\
    StsSecretKey rec = SecretAccessKey tokens /\
    StsSessionTk rec = val_SessionToken tokens.
Proof.
  intros Hrun Hty.
  destruct (mainAliasSet_Ok cli deprecated w r Hrun)
    as (ak & sk & w1 & pc & w2 & sts & w3 & cfg & w4
        & Hkeys & _ & _ & Hsts & _ & _ & Hrec & _).
  rewrite Hty in Hsts. simpl in Hsts.
  destruct Hsts as (a & s & t & Hget & ->).
  apply getStsWithLDAP_Ok in Hget
    as (_ & client & wc & tokens & _ & Hc & -> & -> & ->).
  exists ak, sk, w1, client, (pools wc), tokens. eexists.
  split; [ exact Hkeys | ].
  split; [ intros HL; exact (fetchAliasKeys_args _ _ _ _ _ HL Hkeys) | ].
  split; [ exact Hc | ]. split; [ exact Hrec | ]. simpl.
  rewrite Hty. auto 10.
Qed.

(** C6.  With a dialect given by the caller, [BuildS3Config] returns a
    configuration whose dialect is the given one and makes no call of
    the signature prober; and a run of [mainAliasSet] with that
    dialect in its [api] flag that reaches the end has made no call of
    the prober and has saved a record whose dialect is the flag's
    value, unchanged. *)
Theorem explicit_dialect_skips_probing
    (url alias accessKey secretKey sessionToken api path : string)
    (peerCert : option Certificate) (w0 : World)
    (cli : Context) (deprecated : bool) (w : World) (r : option error) :
  api <> "" ->
  (exists cfg,
     outcome (BuildS3Config url alias accessKey secretKey sessionToken api path
                peerCert) w0 = Ok (Some cfg, None) /\
     Signature cfg = api /\
     probeCalls (eventsSince w0
                   (after (BuildS3Config url alias accessKey secretKey
                             sessionToken api path peerCert) w0)) = 0%nat)
  /\ (ctx_String cli "api" = api ->
      outcome (mainAliasSet cli deprecated) w = Ok r ->
      probeLog (after (mainAliasSet cli deprecated) w) = probeLog w /\
      exists rec,
        Aliases (mcConfig (after (mainAliasSet cli deprecated) w))
          !! cleanAlias (Args_Get (Args cli) 0) = Some rec /\
        API rec = api).
Proof.
  intros Hapi. split.
  - destruct (BuildS3Config_explicit url alias accessKey secretKey sessionToken
                api path peerCert w0 Hapi) as (cfg & w' & E & Hs & Ht & _).
    exists cfg. unfold outcome, after. rewrite E. simpl.
    split; [ reflexivity | ]. split; [ exact Hs | ].
    rewrite (eventsSince_app w0 w' []) by exact Ht. reflexivity.
  - intros <- Hrun.
    destruct (mainAliasSet_Ok cli deprecated w r Hrun)
      as (ak & sk & w1 & pc & w2 & sts & w3 & cfg & w4
          & _ & _ & L2 & Hsts & Hbuild & _ & Hrec & Lf).
    destruct (BuildS3Config_explicit
                (trimTrailingSeparator (Args_Get (Args cli) 1))
                (cleanAlias (Args_Get (Args cli) 0))
                sts.1.1.1 sts.1.1.2 sts.1.2 (ctx_String cli "api")
                (resolvePath cli deprecated) pc w3 Hapi)
      as (cfg' & w4' & E & Hs & Ht & _).
    rewrite Hbuild in E. injection E as <- <-.
    assert (L3 : probeLog w3 = probeLog w2).
    { destruct (String.eqb _ "ldap").
      - destruct Hsts as (a & s & t & Hget & _).
        apply getStsWithLDAP_Ok in Hget as (L & _). exact L.
      - destruct Hsts as (-> & _). reflexivity. }
    split.
    + rewrite Lf. unfold probeLog in *. rewrite Ht. congruence.
    + eexists. split; [ exact Hrec | ]. exact Hs.
Qed.

End Properties.

(* ===================================================================== *)
(** ** Instances on a concrete platform                                  *)
(* ===================================================================== *)

Import Fixture.

(** Instance of C5: the server answers AccessDenied to the stat under
    [s3v4], and the attempt returns [s3v4]. *)
Lemma probeSignatureType_classifies_witness :
  outcome (@probeSignatureType server probeConfig "s3v4") (world [])
  = Ok (Config_set_Signature probeConfig "s3v4", ("s3v4", None)).
Proof.
  apply (proj1 (proj2 (@probeSignatureType_classifies server probeConfig "s3v4"
                         (world []) accessDenied))); reflexivity.
Defined.

(** C4 as stated fails: with both dialects rejected, the error that
    comes back has the cause of the [s3v2] attempt only; the cause of the
    [s3v4] attempt, a different error, is nowhere in it. *)
Lemma probeS3Signature_drops_v4_cause :
  outcome (@probeSignatureType rejecting probeConfig "s3v4") (world [])
  = Ok (Config_set_Signature probeConfig "s3v4",
        ("", Some {| probe.Cause := probe.Cause (mismatch "s3v4");
                     probe.CallTrace := [[]; ["s3v4"]] |}))
  /\ outcome (@probeS3Signature rejecting "alice" "wonderland" "" endpoint None)
             (world [])
     = Ok ("", Some {| probe.Cause := probe.Cause (mismatch "s3v2");
                       probe.CallTrace := [[]; ["s3v2"]; ["s3v4"; "s3v2"]] |})
  /\ probe.Cause (mismatch "s3v4") <> probe.Cause (mismatch "s3v2").
Proof. repeat split; discriminate. Qed.

(** C1 as stated fails in both directions: for the encrypted endpoint
    with a pinned certificate the client skips verification, and for the
    unencrypted endpoint it does not. *)
Lemma prepareStsClient_skips_for_pinned_https :
  (@getScheme server "https://minio.example").1 = "https"
  /\ outcome (@prepareStsClient server (Some selfSigned) "https://minio.example")
            (world [])
     = Ok {| client_Transport :=
               {| Proxy := true; Tuned := true;
                  TLSClientConfig :=
                    Some {| RootCAs := Some 0%nat; InsecureSkipVerify := true;
                            MinVersion := VersionTLS12 |} |} |}
  /\ (@getScheme server "http://minio.example").1 = "http"
  /\ outcome (@prepareStsClient server (Some selfSigned) "http://minio.example")
            (world [])
     = Ok {| client_Transport :=
               {| Proxy := true; Tuned := true;
                  TLSClientConfig :=
                    Some {| RootCAs := Some 0%nat; InsecureSkipVerify := false;
                            MinVersion := VersionTLS12 |} |} |}.
Proof. repeat split. Qed.

(** Instances of C1.  With a root pool and a pinned certificate, the
    certificate joins the process-wide pool, which is the client's trust
    set, and verification is skipped for the encrypted endpoint.
    Without a root pool and without a pinned certificate a client is
    built all the same, with no pool and with verification on. *)
Lemma prepareStsClient_trust_witness :
  (exists c tc,
     outcome (@prepareStsClient server (Some selfSigned) endpoint) (world []) = Ok c /\
     TLSClientConfig (client_Transport c) = Some tc /\
     RootCAs tc = Some 0%nat /\
     pools (after (@prepareStsClient server (Some selfSigned) endpoint) (world []))
           0%nat
       = [selfSigned] /\
     InsecureSkipVerify tc = true)
  /\ (exists c tc,
        outcome (@prepareStsClient server None endpoint)
                {| globalInsecure := false; globalJSON := false;
                   globalDebug := false; globalRootCAs := None;
                   pools := fun _ => []; stdin := []; clockReads := 0;
                   files := ∅;
                   mcConfig := {| Version := "10"; Aliases := ∅ |};
                   trace := [] |} = Ok c /\
        TLSClientConfig (client_Transport c) = Some tc /\
        RootCAs tc = None /\
        InsecureSkipVerify tc <> true).
Proof.
  split.
  - destruct (@prepareStsClient_trust server (Some selfSigned) endpoint (world []))
      as [Hr Hc].
    destruct Hr as [c Ho]; [ left; discriminate | ].
    destruct (Hc c Ho) as (tc & Ht & Hi & Hroot & _ & Hp & _).
    exists c, tc.
    split; [ exact Ho | ]. split; [ exact Ht | ]. split; [ exact Hroot | ].
    split; [ exact (Hp 0%nat eq_refl) | apply Hi; split; discriminate ].
  - destruct (@prepareStsClient_trust server None endpoint
                {| globalInsecure := false; globalJSON := false;
                   globalDebug := false; globalRootCAs := None;
                   pools := fun _ => []; stdin := []; clockReads := 0;
                   files := ∅;
                   mcConfig := {| Version := "10"; Aliases := ∅ |};
                   trace := [] |})
      as [Hr Hc].
    destruct Hr as [c Ho]; [ right; reflexivity | ].
    destruct (Hc c Ho) as (tc & Ht & Hi & Hroot & _).
    exists c, tc.
    split; [ exact Ho | ]. split; [ exact Ht | ]. split; [ exact Hroot | ].
    intros Hs. apply Hi in Hs. destruct Hs as [_ Hn]. apply Hn. reflexivity.
Defined.

(** Without a process-wide pool a pinned certificate makes
    [prepareStsClient] add to a nil pool: the call panics. *)
Example prepareStsClient_nil_pool_panics :
  outcome (@prepareStsClient server (Some selfSigned) endpoint)
          {| globalInsecure := false; globalJSON := false; globalDebug := false;
             globalRootCAs := None; pools := fun _ => []; stdin := [];
             clockReads := 0; files := ∅;
             mcConfig := {| Version := "10"; Aliases := ∅ |}; trace := [] |}
  = Panic "invalid memory address or nil pointer dereference".
Proof. reflexivity. Qed.

(** Instance of C3: a certificate issued by somebody else is rejected
    although [yes] waits on standard input. *)
Lemma promptTrust_rejects_foreign_issuer_witness :
  outcome (@promptTrustSelfSignedCert foreign endpoint "myminio")
          (set_stdin (world []) yes)
  = Ok (None, probe.NewError (Some unknownAuthority))
  /\ printed (eventsSince (set_stdin (world []) yes)
                (after (@promptTrustSelfSignedCert foreign endpoint "myminio")
                       (set_stdin (world []) yes))) = false
  /\ stdin (after (@promptTrustSelfSignedCert foreign endpoint "myminio")
                  (set_stdin (world []) yes)) = yes.
Proof.
  destruct (@promptTrust_rejects_foreign_issuer foreign endpoint "myminio"
              (world []) yes
              {| URL_Scheme := "https"; req_endpoint := endpoint |}
              unknownAuthority issuedByOther)
    as (Ho & Hp & _ & Hs & _);
    try reflexivity; try discriminate.
  auto.
Defined.

(** C8 as stated fails: the certificate is self-signed and the answer is
    [yes], but the certificate file cannot be written; no certificate is
    returned and none is stored. *)
Lemma promptTrust_affirmative_without_certificate :
  SubjectKeyId selfSigned = AuthorityKeyId selfSigned
  /\ affirmative ("yes" ++ LF) = true
  /\ outcome (@promptTrustSelfSignedCert readonly endpoint "myminio") (world yes)
     = Ok (None,
           Some {| probe.Cause :=
                     errorString "open /home/user/.mc/certs/CAs/myminio.crt: permission denied";
                   probe.CallTrace := [[]] |})
  /\ files (after (@promptTrustSelfSignedCert readonly endpoint "myminio") (world yes))
     = ∅.
Proof. repeat split. Qed.

(** Instance of C8: on a machine that can write the file, [yes] gives the
    pinned certificate, stored under the alias. *)
Lemma promptTrust_confirmation_witness :
  outcome (@promptTrustSelfSignedCert server endpoint "myminio") (world yes)
  = Ok (Some selfSigned, None)
  /\ files (after (@promptTrustSelfSignedCert server endpoint "myminio") (world yes))
     = {[ "/home/user/.mc/certs/CAs/myminio.crt" := Raw selfSigned ]}.
Proof.
  destruct (@promptTrust_confirmation server endpoint "myminio" (world yes)
              {| URL_Scheme := "https"; req_endpoint := endpoint |}
              unknownAuthority selfSigned ("yes" ++ LF) None [])
    as (Ho & _ & Hf & _);
    try reflexivity; try discriminate.
  split; [ exact Ho | exact Hf ].
Defined.

(** Instance of C9: a connection reset is handed back as it is. *)
Lemma promptTrust_propagates_other_failures_witness :
  outcome (@promptTrustSelfSignedCert unreachable endpoint "myminio") (world yes)
  = Ok (None,
        probe.NewError
          (Some (errorString "read tcp 10.0.0.7:443: connection reset by peer")))
  /\ stdin (after (@promptTrustSelfSignedCert unreachable endpoint "myminio")
                  (world yes)) = yes.
Proof.
  destruct (@promptTrust_propagates_other_failures unreachable endpoint "myminio"
              (world yes)
              {| URL_Scheme := "https"; req_endpoint := endpoint |}
              (errorString "read tcp 10.0.0.7:443: connection reset by peer"))
    as (Hp & _);
    try reflexivity; try discriminate.
  destruct Hp as (Ho & _ & Hs & _); [ reflexivity | ].
  split; [ exact Ho | exact Hs ].
Defined.

(** The run [alias set myminio https://minio.example alice wonderland
    --type ldap] against the first server, the user confirming the
    fingerprint: the clock stood at 63929088000 seconds and 250
    nanoseconds when the exchange was asked for. *)
Lemma federated_expiry_is_fifty_minutes_witness :
  exists rec,
    Aliases (mcConfig (after (@mainAliasSet server (cli endpoint (flags "" "ldap")) false)
                             (world yes))) !! "myminio" = Some rec /\
    ExpireTime rec = {| time.sec := 63929088000 + 3000; time.nsec := 250 |}.
Proof.
  destruct (@federated_expiry_is_fifty_minutes server (cli endpoint (flags "" "ldap"))
              false (world yes) None) as (rec & Hl & He & _).
  - vm_compute. reflexivity.
  - reflexivity.
  - vm_compute. repeat split; discriminate.
  - exists rec. split; [ exact Hl | ]. rewrite He. reflexivity.
Defined.

(** C7 as stated fails: the identity exchange succeeds with an empty
    session token, and the record of the federated bootstrap is saved
    with an empty session token. *)
Lemma federated_record_with_empty_token :
  outcome (@mainAliasSet tokenless (cli endpoint (flags "" "ldap")) false) (world yes)
  = Ok None
  /\ Aliases (mcConfig (after (@mainAliasSet tokenless (cli endpoint (flags "" "ldap")) false)
                              (world yes))) !! "myminio"
     = Some {| URL := "https://minio.example";
               AccessKey := "alice";
               SecretKey := "wonderland";
               SessionToken := "";
               API := "s3v4";
               Path := "auto";
               AType := "ldap";
               StsAccessKey := "STSACCESS";
               StsSecretKey := "STSSECRET";
               StsSessionTk := "";
               ExpireTime := {| time.sec := 63929091000; time.nsec := 250 |} |}.
Proof. split; vm_compute; reflexivity. Qed.

(** Instance of C7: the same command with static keys. *)
Lemma record_session_fields_witness :
  exists rec,
    Aliases (mcConfig (after (@mainAliasSet server (cli endpoint (flags "" "normal")) false)
                             (world yes))) !! "myminio" = Some rec /\
    AType rec = "normal" /\
    StsSessionTk rec = "" /\
    ExpireTime rec = {| time.sec := 62135596800; time.nsec := 0 |}.
Proof.
  destruct (@record_session_fields server (cli endpoint (flags "" "normal"))
              false (world yes) None) as (rec & Hl & Ht & Hs & _).
  - vm_compute. reflexivity.
  - vm_compute. repeat split; discriminate.
  - exists rec. split; [ exact Hl | ]. split; [ exact Ht | ].
    apply Hs. rewrite Ht. discriminate.
Defined.

(** The expiry of a static record, the Unix epoch, is not the zero
    [time.Time]. *)
Example static_expiry_is_the_unix_epoch :
  time.Unix 0 0 = {| time.sec := 62135596800; time.nsec := 0 |}
  /\ time.Unix 0 0 <> time.zero.
Proof. split; [ reflexivity | discriminate ]. Qed.

(** Instance of C10: the ldap record of the run above. *)
Lemma ldap_record_keeps_both_credentials_witness :
  exists rec,
    Aliases (mcConfig (after (@mainAliasSet server (cli endpoint (flags "" "ldap")) false)
                             (world yes))) !! "myminio" = Some rec /\
    AccessKey rec = "alice" /\ SecretKey rec = "wonderland" /\
    StsAccessKey rec = "STSACCESS" /\ StsSecretKey rec = "STSSECRET" /\
    StsSessionTk rec = "eyJhbGciOiJIUzUxMiJ9".
Proof.
  destruct (@ldap_record_keeps_both_credentials server
              (cli endpoint (flags "" "ldap")) false (world yes) None)
    as (ak & sk & w1 & client & p & tk & rec
        & _ & Hargs & Hc & Hl & _ & Ha & Hs & Hsa & Hss & Hst).
  - vm_compute. reflexivity.
  - reflexivity.
  - destruct (Hargs eq_refl) as [-> ->].
    injection Hc as <-.
    exists rec. repeat split; assumption.
Defined.

(** Instance of C6: with [--api S3v2] the prober is never called and
    the record says [S3v2]. *)
Lemma explicit_dialect_skips_probing_witness :
  probeLog (after (@mainAliasSet server (cli endpoint (flags "S3v2" "normal")) false)
                  (world yes)) = []
  /\ exists rec,
       Aliases (mcConfig (after (@mainAliasSet server
                                   (cli endpoint (flags "S3v2" "normal")) false)
                                (world yes))) !! "myminio" = Some rec /\
       API rec = "S3v2".
Proof.
  destruct (@explicit_dialect_skips_probing server
              endpoint "myminio" "alice" "wonderland" "" "S3v2" "auto" None (world [])
              (cli endpoint (flags "S3v2" "normal")) false (world yes) None)
    as (_ & Hm).
  - discriminate.
  - apply Hm; [ reflexivity | vm_compute; reflexivity ].
Defined.

(* ===================================================================== *)
(** ** Further properties of the alias bootstrap                         *)
(* ===================================================================== *)

Section TrustProperties.

Context `{Platform}.

Ltac unfold_trust :=
  unfold promptTrustSelfSignedCert, fetchPeerCertificate, Client_Do,
    readStdin, WriteFile, eventsSince, printed, wroteFile, connLog in *; run.

(** X1.  [promptTrustSelfSignedCert] on an [http] endpoint: nothing to
    negotiate.  No certificate and no error are returned, and the world
    is left exactly as it was: no connection, no prompt, no read. *)
Theorem promptTrust_http_endpoint
    (endpoint alias : string) (w : World) (req : Request) :
  http_NewRequest endpoint = inr req ->
  URL_Scheme req = "http" ->
  promptTrustSelfSignedCert endpoint alias w = (Ok (None, None), w).
Proof.
  intros HR HS. unfold promptTrustSelfSignedCert. rewrite HR, HS. reflexivity.
Qed.

(** X2.  [promptTrustSelfSignedCert] on an endpoint the process-wide
    pool already verifies: no certificate and no error are returned
    after exactly one connection, the verified one; nothing is printed,
    read or written. *)
Theorem promptTrust_already_trusted
    (endpoint alias : string) (w : World) (req : Request) (resp : Response) :
  http_NewRequest endpoint = inr req ->
  URL_Scheme req <> "http" ->
  http_Do (pools w) (verifyingClient (globalRootCAs w)) req = inr resp ->
  outcome (promptTrustSelfSignedCert endpoint alias) w = Ok (None, None) /\
  eventsSince w (after (promptTrustSelfSignedCert endpoint alias) w)
    = [EvHttpDo (verifyingClient (globalRootCAs w)) req] /\
  stdin (after (promptTrustSelfSignedCert endpoint alias) w) = stdin w /\
  files (after (promptTrustSelfSignedCert endpoint alias) w) = files w.
Proof.
  intros HR HS HD. apply String.eqb_neq in HS.
  unfold_trust. rewrite HR, HS. simpl. rewrite HD. simpl.
  repeat split; since; reflexivity.
Qed.

(** X3.  Whenever [promptTrustSelfSignedCert] returns a certificate, it
    returns no error with it, the certificate is self-signed (its
    subject key id is its authority key id), the user was shown the
    prompt and gave an affirmative answer, and the certificate is in the
    store, under the path of the alias. *)
Theorem promptTrust_pins_only_self_signed
    (endpoint alias : string) (w : World) (c : Certificate)
    (e : option probe.Error) :
  outcome (promptTrustSelfSignedCert endpoint alias) w = Ok (Some c, e) ->
  e = None /\
  SubjectKeyId c = AuthorityKeyId c /\
  (exists answer rest,
     stdin w = (answer, None) :: rest /\ affirmative answer = true) /\
  printed (eventsSince w (after (promptTrustSelfSignedCert endpoint alias) w))
    = true /\
  files (after (promptTrustSelfSignedCert endpoint alias) w)
    !! pinnedCertPath alias = Some (pinnedCertPEM c).
Proof.
  unfold_trust.
  destruct (http_NewRequest endpoint) as [e0 | req]; [ discriminate | ].
  destruct (String.eqb (URL_Scheme req) "http"); [ discriminate | ]. simpl.
  destruct (http_Do (pools w) (verifyingClient (globalRootCAs w)) req)
    as [tlsErr | resp]; [ | discriminate ]. simpl.
  destruct (strings_Contains _ _); [ | discriminate ]. simpl.
  destruct (http_Do (pools w) unverifyingClient req) as [e1 | resp];
    [ discriminate | ]. simpl.
  destruct (TLS_PeerCertificates resp) as [[ | c0 rest] | ];
    try discriminate. simpl.
  destruct (bytes_Equal (SubjectKeyId c0) (AuthorityKeyId c0)) eqn:HB;
    [ | discriminate ]. simpl.
  destruct (stdin w) as [ | [answer [rerr | ]] rest'] eqn:HI;
    try discriminate. simpl.
  pose proof (affirmative_ToLower answer) as HA.
  rewrite <- negb_orb.
  destruct (String.eqb (strings_ToLower answer) ("y" ++ LF)
            || String.eqb (strings_ToLower answer) ("yes" ++ LF));
    [ | discriminate ]. simpl.
  destruct (os_WriteFile_error _ _) as [e2 | ]; [ discriminate | ]. simpl.
  intros E. injection E as <- <-.
  unfold bytes_Equal in HB. apply bool_decide_eq_true_1 in HB.
  split; [ reflexivity | ]. split; [ exact HB | ].
  split; [ eauto | ]. split; [ since; reflexivity | ].
  apply lookup_insert_eq.
Qed.

(** X4.  [promptTrustSelfSignedCert] always comes back to its caller:
    it never leaves the process and never panics.  It makes at most two
    connections, changes neither a certificate pool nor the saved
    configuration, and the only file it may write is the certificate
    file of the alias. *)
Theorem promptTrust_returns_to_caller
    (endpoint alias : string) (w : World) :
  (exists r, outcome (promptTrustSelfSignedCert endpoint alias) w = Ok r) /\
  (length (connLog (after (promptTrustSelfSignedCert endpoint alias) w))
     <= length (connLog w) + 2)%nat /\
  pools (after (promptTrustSelfSignedCert endpoint alias) w) = pools w /\
  mcConfig (after (promptTrustSelfSignedCert endpoint alias) w) = mcConfig w /\
  (forall path, path <> pinnedCertPath alias ->
     files (after (promptTrustSelfSignedCert endpoint alias) w) !! path
     = files w !! path).
Proof.
  unfold_trust.
  repeat case_innermost;
    (split; [ eauto | ]); (split; [ unfold omap; lia | ]);
    (split; [ reflexivity | ]); (split; [ reflexivity | ]);
    intros path Hp; try reflexivity;
    apply lookup_insert_ne; congruence.
Qed.

(** X5.  Whenever [fetchPeerCertificate] returns a certificate, it made
    exactly one connection, with the client that verifies nothing, and
    the certificate is the first one the peer presented on it. *)
Theorem fetchPeerCertificate_first_peer
    (endpoint : string) (w : World) (c : Certificate) :
  outcome (fetchPeerCertificate endpoint) w = Ok (inr c) ->
  exists req resp rest,
    http_NewRequest endpoint = inr req /\
    http_Do (pools w) unverifyingClient req = inr resp /\
    TLS_PeerCertificates resp = Some (c :: rest) /\
    eventsSince w (after (fetchPeerCertificate endpoint) w)
      = [EvHttpDo unverifyingClient req].
Proof.
  unfold_trust.
  destruct (http_NewRequest endpoint) as [e0 | req]; [ discriminate | ]. simpl.
  destruct (http_Do (pools w) unverifyingClient req) as [e1 | resp] eqn:HD;
    [ discriminate | ]. simpl.
  destruct (TLS_PeerCertificates resp) as [[ | c0 rest] | ] eqn:HP;
    try discriminate. simpl.
  intros E. injection E as <-.
  exists req, resp, rest. repeat split; auto. since. reflexivity.
Qed.

End TrustProperties.

Section PoolProperties.

Context `{Platform}.

Lemma holds_add (pool : CertPool) (c : Certificate) :
  holds (CertPool_add pool c) c.
Proof.
  unfold holds, CertPool_add.
  destruct (existsb _ pool) eqn:E.
  - apply existsb_exists in E as (x & Hx & Hb).
    unfold bytes_Equal in Hb. apply bool_decide_eq_true_1 in Hb. eauto.
  - exists c. split; [ | reflexivity ]. apply in_or_app. right. left. reflexivity.
Qed.

Lemma In_add (pool : CertPool) (c x : Certificate) :
  In x pool -> In x (CertPool_add pool c).
Proof.
  unfold CertPool_add. destruct (existsb _ pool); [ auto | ].
  intros Hx. apply in_or_app. auto.
Qed.

(** X6.  [configurePeerCertificate] always returns.  The pool the
    configuration verifies against afterwards is the one it had, or else
    the process-wide pool; when there is such a pool, it holds the peer
    certificate afterwards.  No pool loses a certificate, and the
    credentials, the dialect and the address of the configuration are
    left as they were. *)
Theorem configurePeerCertificate_trusts_peer
    (cfg : Config) (peerCert : Certificate) (w : World) :
  exists cfg' w',
    configurePeerCertificate cfg peerCert w = (Ok cfg', w') /\
    transportPool cfg'
      = match transportPool cfg with
        | Some l => Some l
        | None => globalRootCAs w
        end /\
    (forall l, transportPool cfg' = Some l -> holds (pools w' l) peerCert) /\
    (forall l c, In c (pools w l) -> In c (pools w' l)) /\
    (cfg_AccessKey cfg', cfg_SecretKey cfg', cfg_SessionToken cfg',
     Signature cfg', HostURL cfg')
    = (cfg_AccessKey cfg, cfg_SecretKey cfg, cfg_SessionToken cfg,
       Signature cfg, HostURL cfg).
Proof.
  unfold configurePeerCertificate, AddCert, transportPool. run.
  destruct (cfg_Transport cfg) as [t | ] eqn:ET;
    [ destruct (TLSClientConfig t) as [tc | ] eqn:EC;
      [ destruct (RootCAs tc) as [l0 | ] eqn:ER | ] | ];
    try (destruct (globalRootCAs w) as [g | ] eqn:G); simpl;
    eexists _, _; (split; [ reflexivity | ]); simpl;
    rewrite ?ET; simpl; rewrite ?EC; simpl; rewrite ?ER;
    (split; [ reflexivity | ]);
    (split; [ intros l Hl; try discriminate; injection Hl as <-;
              rewrite decide_True by reflexivity; apply holds_add | ]);
    (split; [ | reflexivity ]);
    intros l c Hc; try exact Hc;
    destruct (decide _) as [-> | ]; auto using In_add.
Qed.

(** X7.  [configurePeerCertificate] without any pool: when the process
    has no root pool and the configuration verifies against none, the
    configuration still gets a TLS setup but no pool, and the peer
    certificate is added nowhere; the world is left as it was. *)
Theorem configurePeerCertificate_without_pool
    (cfg : Config) (peerCert : Certificate) (w : World) :
  globalRootCAs w = None ->
  transportPool cfg = None ->
  exists cfg' tc,
    configurePeerCertificate cfg peerCert w = (Ok cfg', w) /\
    (exists t, cfg_Transport cfg' = Some t /\ TLSClientConfig t = Some tc) /\
    RootCAs tc = None /\ InsecureSkipVerify tc = false.
Proof.
  intros HG HT. unfold configurePeerCertificate, AddCert, transportPool in *. run.
  rewrite HG.
  destruct (cfg_Transport cfg) as [t | ];
    [ destruct (TLSClientConfig t) as [tc | ];
      [ destruct (RootCAs tc) as [l0 | ]; [ discriminate | ] | ] | ];
    simpl; destruct w; simpl in *; subst;
    eexists _, _; (split; [ reflexivity | ]); simpl; eauto.
Qed.

(** X8.  [prepareStsClient] panics exactly when the process has no root
    pool and a pinned certificate is given (the certificate is added to
    a nil pool); in every other case it returns a client. *)
Theorem prepareStsClient_panics_iff
    (peerCert : option Certificate) (url : string) (w : World) :
  ((exists msg, outcome (prepareStsClient peerCert url) w = Panic msg)
   <-> globalRootCAs w = None /\ peerCert <> None)
  /\ ((exists c, outcome (prepareStsClient peerCert url) w = Ok c)
      <-> globalRootCAs w <> None \/ peerCert = None).
Proof.
  unfold prepareStsClient, AddCert. run.
  destruct (globalRootCAs w) as [g | ], peerCert as [c | ],
    (getScheme url) as [schem rest]; simpl;
    (split; split);
    try (intros [x Hx]; discriminate);
    try (intros [Ha Hb]; congruence);
    try (intros [Ha | Hb]; congruence);
    intros; eauto; try (split; congruence).
Qed.

(** X9.  Whenever [getStsWithLDAP] returns, it has asked for exactly one
    identity exchange, at the endpoint, with the name and password it
    was given and a validity of one hour; and when it returns an error
    the three credentials it returns with it are empty. *)
Theorem getStsWithLDAP_one_exchange
    (endpoint ldapUser ldapPassword : string) (peerCert : option Certificate)
    (w : World) (a s t : string) (e : option error) :
  outcome (getStsWithLDAP endpoint ldapUser ldapPassword peerCert) w
    = Ok (a, s, t, e) ->
  (exists client,
     exchLog (after (getStsWithLDAP endpoint ldapUser ldapPassword peerCert) w)
     = {| ldap_Client := client; STSEndpoint := endpoint;
          LDAPUsername := ldapUser; LDAPPassword := ldapPassword;
          RequestedExpiry := time.Hour |} :: exchLog w) /\
  (e <> None -> a = "" /\ s = "" /\ t = "").
Proof.
  unfold getStsWithLDAP, prepareStsClient, AddCert, exchLog. run.
  repeat (first [ case_innermost
                | match goal with
                  | |- context [match credentials_Get ?p ?i with _ => _ end] =>
                      destruct (credentials_Get p i) eqn:?; simpl
                  end ];
          try discriminate);
    intros E; injection E as <- <- <- <-;
    (split; [ eexists; reflexivity | ]); intros Hn; auto; congruence.
Qed.

End PoolProperties.

Section ProbeProperties.

Context `{Platform}.

(** What [probeS3Signature] returns and leaves behind, whatever the
    server does. *)
Lemma probeS3Signature_shape
    (accessKey secretKey sessionToken url : string)
    (peerCert : option Certificate) (w : World) :
  exists st e w',
    probeS3Signature accessKey secretKey sessionToken url peerCert w
      = (Ok (st, e), w') /\
    ((e = None /\ (st = "s3v4" \/ st = "s3v2"))
     \/ (exists c, e = Some c /\ st = "" /\
                   last (probe.CallTrace c) = Some ["s3v4"; "s3v2"])) /\
    (1 <= probeCalls (eventsSince w w') <= 4)%nat /\
    clockReads w' = S (clockReads w) /\
    files w' = files w /\ mcConfig w' = mcConfig w /\
    connLog w' = connLog w /\ exchLog w' = exchLog w /\ stdin w' = stdin w.
Proof.
  unfold probeS3Signature, probeSignatureType, configurePeerCertificate,
    AddCert, Now, eventsSince, connLog, exchLog. run.
  repeat first
    [ case_innermost
    | match goal with
      | |- context [match S3New ?p ?c with _ => _ end] =>
          destruct (S3New p c) eqn:?; simpl
      | |- context [match client_Stat ?p ?c with _ => _ end] =>
          destruct (client_Stat p c) eqn:?; simpl
      end ];
    eexists _, _, _; (split; [ reflexivity | ]); simpl;
    (split; [ first [ left; split; [ reflexivity | auto ]
                    | right; eexists; split; [ reflexivity | ];
                      split; [ reflexivity | ]; apply last_snoc ] | ]);
    (split; [ since; unfold probeCalls; simpl; lia | ]); auto 10.
Qed.

(** What [BuildS3Config] returns and leaves behind. *)
Lemma BuildS3Config_shape
    (url alias accessKey secretKey sessionToken api path : string)
    (peerCert : option Certificate) (w : World) :
  exists c e w',
    BuildS3Config url alias accessKey secretKey sessionToken api path peerCert w
      = (Ok (c, e), w') /\
    ((exists cfg, c = Some cfg /\ e = None /\
                  (Signature cfg = api \/
                   api = "" /\ (Signature cfg = "s3v4" \/ Signature cfg = "s3v2")))
     \/ (exists err, c = None /\ e = Some err /\ api = "" /\
                     last (probe.CallTrace err)
                     = Some [url; accessKey; secretKey; ""; path])) /\
    files w' = files w /\ mcConfig w' = mcConfig w /\
    connLog w' = connLog w /\ exchLog w' = exchLog w /\ stdin w' = stdin w.
Proof.
  unfold BuildS3Config. run.
  assert (exists cfg0 w0,
    (match peerCert with
     | Some c =>
         configurePeerCertificate
           (NewS3Config w url
              {| URL := url; AccessKey := accessKey; SecretKey := secretKey;
                 SessionToken := sessionToken; API := ""; Path := path;
                 AType := ""; StsAccessKey := ""; StsSecretKey := "";
                 StsSessionTk := ""; ExpireTime := time.zero |}) c
     | None => fun w1 => (Ok
           (NewS3Config w url
              {| URL := url; AccessKey := accessKey; SecretKey := secretKey;
                 SessionToken := sessionToken; API := ""; Path := path;
                 AType := ""; StsAccessKey := ""; StsSecretKey := "";
                 StsSessionTk := ""; ExpireTime := time.zero |}), w1)
     end w) = (Ok cfg0, w0) /\
    trace w0 = trace w /\ files w0 = files w /\ mcConfig w0 = mcConfig w /\
    stdin w0 = stdin w) as (cfg0 & w0 & E & Ht & Hf & Hm & Hi).
  { destruct peerCert as [c | ].
    - destruct (configurePeerCertificate_total
                  (NewS3Config w url
                     {| URL := url; AccessKey := accessKey; SecretKey := secretKey;
                        SessionToken := sessionToken; API := ""; Path := path;
                        AType := ""; StsAccessKey := ""; StsSecretKey := "";
                        StsSessionTk := ""; ExpireTime := time.zero |}) c w)
        as (cfg' & w' & E & Ht & _ & Hi & Hf & Hm & _).
      exists cfg', w'. auto.
    - eexists _, _. split; [ reflexivity | auto ]. }
  rewrite E.
  assert (L0 : connLog w0 = connLog w /\ exchLog w0 = exchLog w)
    by (unfold connLog, exchLog; rewrite Ht; auto).
  destruct L0 as [Lc Le].
  destruct (String.eqb api "") eqn:Eapi; simpl.
  - apply String.eqb_eq in Eapi.
    destruct (probeS3Signature_shape accessKey secretKey sessionToken url peerCert w0)
      as (st & e & w1 & E1 & Hsh & _ & _ & Hf1 & Hm1 & Lc1 & Le1 & Hi1).
    rewrite E1.
    destruct Hsh as [[-> Hst] | (c & -> & -> & Hl)]; simpl.
    + eexists _, _, _. split; [ reflexivity | ].
      split; [ left; eexists; split; [ reflexivity | ]; split; [ reflexivity | ];
               right; auto | ].
      repeat split; congruence.
    + eexists _, _, _. split; [ reflexivity | ].
      split; [ right; eexists; split; [ reflexivity | ]; split; [ reflexivity | ];
               split; [ exact Eapi | apply last_snoc ] | ].
      repeat split; congruence.
  - eexists _, _, _. split; [ reflexivity | ].
    split; [ left; eexists; split; [ reflexivity | ]; split; [ reflexivity | ];
             left; reflexivity | ].
    auto.
Qed.

(** X10.  [probeS3Signature] always returns.  It reads the clock once
    and makes between one and four calls to the server (one or two
    clients, at most one stat each): there is no retry.  A result
    without error is [s3v4] or [s3v2]; a result with an error has the
    empty dialect and an error whose last trace point names the two
    dialects. *)
Theorem probeS3Signature_bounded
    (accessKey secretKey sessionToken url : string)
    (peerCert : option Certificate) (w : World) :
  exists st e,
    outcome (probeS3Signature accessKey secretKey sessionToken url peerCert) w
      = Ok (st, e) /\
    ((e = None /\ (st = "s3v4" \/ st = "s3v2"))
     \/ (exists c, e = Some c /\ st = "" /\
                   last (probe.CallTrace c) = Some ["s3v4"; "s3v2"])) /\
    (1 <= probeCalls
            (eventsSince w
               (after (probeS3Signature accessKey secretKey sessionToken url
                         peerCert) w)) <= 4)%nat /\
    clockReads (after (probeS3Signature accessKey secretKey sessionToken url
                         peerCert) w) = S (clockReads w).
Proof.
  destruct (probeS3Signature_shape accessKey secretKey sessionToken url peerCert w)
    as (st & e & w' & E & Hsh & Hc & Hk & _).
  exists st, e. unfold outcome, after. rewrite E. simpl. auto.
Qed.


(** X12.  When [BuildS3Config] returns an error, the caller had given no
    dialect, and the last trace point of the error is tagged with the
    address, the access key, the secret key, the empty dialect and the
    path: the secret key travels with the error. *)
Theorem BuildS3Config_error_carries_keys
    (url alias accessKey secretKey sessionToken api path : string)
    (peerCert : option Certificate) (w : World)
    (c : option Config) (err : probe.Error) :
  outcome (BuildS3Config url alias accessKey secretKey sessionToken api path
             peerCert) w = Ok (c, Some err) ->
  api = "" /\ c = None /\
  last (probe.CallTrace err) = Some [url; accessKey; secretKey; ""; path].
Proof.
  destruct (BuildS3Config_shape url alias accessKey secretKey sessionToken api
              path peerCert w) as (c' & e & w' & E & Hsh & _).
  unfold outcome. rewrite E. simpl. intros E'. injection E' as -> ->.
  destruct Hsh as [(cfg & _ & He & _) | (err' & -> & He & -> & Hl)];
    [ discriminate | ].
  injection He as <-. auto.
Qed.

End ProbeProperties.

Section CommandLineProperties.

Context `{Platform}.

(** [checkAliasSetSyntax] has no effect on the world, however it ends. *)
Lemma checkAliasSetSyntax_same (ctx : Context) (accessKey secretKey : string)
    (deprecated : bool) (w : World) :
  after (checkAliasSetSyntax ctx accessKey secretKey deprecated) w = w.
Proof.
  unfold checkAliasSetSyntax, ShowCommandHelpAndExit, fatalIf. run.
  repeat case_innermost; reflexivity.
Qed.

(** X13.  [checkAliasSetSyntax] returns exactly when the command line
    has two to four arguments, a valid alias and address, valid keys, an
    API that is empty or valid, and a valid path (a valid lookup under
    the deprecated command); in every other case it leaves the process.
    It changes nothing either way. *)
Theorem checkAliasSetSyntax_accepts_iff
    (ctx : Context) (accessKey secretKey : string) (deprecated : bool)
    (w : World) :
  (outcome (checkAliasSetSyntax ctx accessKey secretKey deprecated) w = Ok tt
   <-> acceptsAliasSet ctx accessKey secretKey deprecated = true)
  /\ after (checkAliasSetSyntax ctx accessKey secretKey deprecated) w = w.
Proof.
  split; [ | apply checkAliasSetSyntax_same ].
  unfold checkAliasSetSyntax, ShowCommandHelpAndExit, fatalIf, acceptsAliasSet.
  set (bad := ((4 <? length (Args ctx))%nat || (length (Args ctx) <? 2)%nat)).
  set (fits := ((2 <=? length (Args ctx))%nat && (length (Args ctx) <=? 4)%nat)).
  assert (EC : bad = negb fits).
  { subst bad fits.
    destruct (2 <=? length (Args ctx))%nat eqn:E2;
      destruct (length (Args ctx) <=? 4)%nat eqn:E4;
      destruct (4 <? length (Args ctx))%nat eqn:E4';
      destruct (length (Args ctx) <? 2)%nat eqn:E2'; simpl; try reflexivity;
      exfalso;
      repeat match goal with
             | E : (_ <=? _)%nat = true |- _ => apply Nat.leb_le in E
             | E : (_ <=? _)%nat = false |- _ => apply Nat.leb_gt in E
             | E : (_ <? _)%nat = true |- _ => apply Nat.ltb_lt in E
             | E : (_ <? _)%nat = false |- _ => apply Nat.ltb_ge in E
             end; lia. }
  assert (E0 : length (Args ctx) = 0%nat -> fits = false)
    by (intros E; subst fits; rewrite E; reflexivity).
  clearbody bad fits. subst bad. run.
  destruct (decide (length (Args ctx) = 0%nat)) as [E | E]; simpl.
  { rewrite (E0 E). simpl. split; discriminate. }
  destruct fits; simpl; [ | split; discriminate ].
  destruct (isValidAlias _); simpl; [ | split; discriminate ].
  destruct (isValidHostURL _); simpl; [ | split; discriminate ].
  destruct (isValidAccessKey _); simpl; [ | split; discriminate ].
  destruct (isValidSecretKey _); simpl; [ | split; discriminate ].
  destruct (String.eqb (ctx_String ctx "api") ""); simpl;
    [ | destruct (isValidAPI _); simpl; [ | split; discriminate ] ];
    (destruct deprecated;
     [ destruct (isValidLookup _) | destruct (isValidPath _) ]; simpl;
     split; auto; discriminate).
Qed.

(** X14.  [checkAliasSetSyntax] and the number of arguments: with none
    the process shows the help and exits with code 1; with one, or with
    more than four, it leaves through [fatalIf] with the
    invalid-argument error, tagged with the arguments after the
    first. *)
Theorem checkAliasSetSyntax_argument_count
    (ctx : Context) (accessKey secretKey : string) (deprecated : bool)
    (w : World) :
  (length (Args ctx) = 0%nat ->
   outcome (checkAliasSetSyntax ctx accessKey secretKey deprecated) w = Exit 1)
  /\ (length (Args ctx) = 1%nat \/ (4 < length (Args ctx))%nat ->
      outcome (checkAliasSetSyntax ctx accessKey secretKey deprecated) w
      = Fatal {| probe.Cause := probe.Cause errInvalidArgument;
                 probe.CallTrace :=
                   (probe.CallTrace errInvalidArgument ++ [tail (Args ctx)])%list |}
              "Incorrect number of arguments for alias set command.").
Proof.
  unfold checkAliasSetSyntax, ShowCommandHelpAndExit, fatalIf. run. split.
  - intros ->. reflexivity.
  - intros Hn.
    destruct (decide (length (Args ctx) = 0%nat)) as [E0 | E0]; [ lia | ]. simpl.
    assert (E : ((4 <? length (Args ctx))%nat || (length (Args ctx) <? 2)%nat) = true).
    { apply orb_true_iff. destruct Hn as [Hn | Hn].
      - right. apply Nat.ltb_lt. lia.
      - left. apply Nat.ltb_lt. lia. }
    rewrite E. reflexivity.
Qed.

(** X15.  [fetchAliasKeys] and standard input.  With two arguments the
    access key is the first read and the secret key the second; with
    three the access key is the third argument and the secret key the
    one read.  What a read returned is taken as the key even when the
    read reported an error. *)
Theorem fetchAliasKeys_reads_missing_keys
    (args : list string) (w : World)
    (a s : string) (ea es : option error) (rest : list (string * option error)) :
  (length args = 2%nat -> stdin w = (a, ea) :: (s, es) :: rest ->
   outcome (fetchAliasKeys args) w = Ok (a, s) /\
   stdin (after (fetchAliasKeys args) w) = rest)
  /\ (length args = 3%nat -> stdin w = (s, es) :: rest ->
      outcome (fetchAliasKeys args) w = Ok (Args_Get args 2, s) /\
      stdin (after (fetchAliasKeys args) w) = rest).
Proof.
  unfold fetchAliasKeys, readStdin. split; intros HL HI; rewrite HL; run;
    destruct stdin_IsTerminal; run; rewrite HI; simpl; auto.
Qed.

(** X16.  [fetchAliasKeys] at the end of input: with two arguments and
    nothing to read both keys come back empty; no error is raised. *)
Theorem fetchAliasKeys_end_of_input (args : list string) (w : World) :
  length args = 2%nat -> stdin w = [] ->
  outcome (fetchAliasKeys args) w = Ok ("", "").
Proof.
  unfold fetchAliasKeys, readStdin. intros HL HI. rewrite HL. run.
  destruct stdin_IsTerminal; run; repeat (rewrite HI; simpl); reflexivity.
Qed.

(** X17.  [fetchAliasKeys] when nothing is missing or nobody watches:
    with a number of arguments other than two or three it reads and
    prints nothing, the keys being the third and fourth argument (empty
    when absent); and when standard input is not a terminal it never
    prints a prompt. *)
Theorem fetchAliasKeys_quiet (args : list string) (w : World) :
  (length args <> 2%nat -> length args <> 3%nat ->
   fetchAliasKeys args w = (Ok (Args_Get args 2, Args_Get args 3), w))
  /\ (stdin_IsTerminal = false ->
      trace (after (fetchAliasKeys args) w) = trace w).
Proof.
  unfold fetchAliasKeys, readStdin. split.
  - intros H2 H3.
    destruct (decide (length args = 2%nat)); [ contradiction | ].
    rewrite !bool_decide_eq_false_2 by assumption. reflexivity.
  - intros ->. run. repeat case_innermost; reflexivity.
Qed.

(** X18.  [setAlias] when the configuration can be loaded and saved:
    afterwards the saved configuration maps the alias to the record it
    was given, whatever it held for the alias before; every other alias
    and the version are as they were; and the message returned repeats
    the address, the keys, the dialect and the path of the record. *)
Theorem setAlias_round_trip
    (alias : string) (aliasCfgV10 : aliasConfigV10) (w : World) :
  loadMcConfig_error = None ->
  saveMcConfig_error
    {| Version := Version (mcConfig w);
       Aliases := <[alias := aliasCfgV10]> (Aliases (mcConfig w)) |} = None ->
  outcome (setAlias alias aliasCfgV10) w
    = Ok {| op := ""; msg_Alias := alias; msg_URL := URL aliasCfgV10;
            msg_AccessKey := AccessKey aliasCfgV10;
            msg_SecretKey := SecretKey aliasCfgV10;
            msg_API := API aliasCfgV10; msg_Path := Path aliasCfgV10 |} /\
  Aliases (mcConfig (after (setAlias alias aliasCfgV10) w)) !! alias
    = Some aliasCfgV10 /\
  (forall other, other <> alias ->
     Aliases (mcConfig (after (setAlias alias aliasCfgV10) w)) !! other
     = Aliases (mcConfig w) !! other) /\
  Version (mcConfig (after (setAlias alias aliasCfgV10) w)) = Version (mcConfig w).
Proof.
  intros HL HS. unfold setAlias, loadMcConfig, saveMcConfig, fatalIf. run.
  rewrite HL. simpl. rewrite HS. simpl.
  split; [ reflexivity | ]. split; [ apply lookup_insert_eq | ].
  split; [ | reflexivity ].
  intros other Ho. apply lookup_insert_ne. congruence.
Qed.

(** X19.  [setAlias] when loading or saving fails: the process leaves
    through [fatalIf], and the world, the saved configuration with it,
    is exactly as it was.  [setAlias] never ends in any other way than
    returning or [fatalIf]. *)
Theorem setAlias_failure_saves_nothing
    (alias : string) (aliasCfgV10 : aliasConfigV10) (w : World) :
  match outcome (setAlias alias aliasCfgV10) w with
  | Ok _ => loadMcConfig_error = None
  | Fatal e msg =>
      after (setAlias alias aliasCfgV10) w = w /\
      (loadMcConfig_error <> None \/
       saveMcConfig_error
         {| Version := Version (mcConfig w);
            Aliases := <[alias := aliasCfgV10]> (Aliases (mcConfig w)) |} <> None)
  | Exit _ | Panic _ => False
  end.
Proof.
  unfold setAlias, loadMcConfig, saveMcConfig, fatalIf. run.
  destruct loadMcConfig_error as [e | ]; simpl.
  - split; [ destruct w; reflexivity | left; discriminate ].
  - destruct (saveMcConfig_error _) as [e | ]; simpl; [ | reflexivity ].
    split; [ destruct w; reflexivity | right; discriminate ].
Qed.

End CommandLineProperties.

Section BootstrapProperties.

Context `{Platform}.

Ltac frame_by_cases :=
  repeat first
    [ case_innermost
    | match goal with
      | |- context [match credentials_Get ?p ?i with _ => _ end] =>
          destruct (credentials_Get p i) eqn:?; simpl
      end ];
  intros E; injection E as E1 E2; subst; simpl; auto 10.

(** [fetchAliasKeys] returns, and only prints and reads. *)
Lemma fetchAliasKeys_frame (args : list string) (w : World) :
  exists keys w1,
    fetchAliasKeys args w = (Ok keys, w1) /\
    files w1 = files w /\ mcConfig w1 = mcConfig w /\
    connLog w1 = connLog w /\ exchLog w1 = exchLog w /\
    globalInsecure w1 = globalInsecure w /\ globalJSON w1 = globalJSON w.
Proof.
  unfold fetchAliasKeys, readStdin, connLog, exchLog. run.
  repeat case_innermost; eexists _, _; (split; [ reflexivity | ]); simpl; auto 10.
Qed.

(** [promptTrustSelfSignedCert] neither saves a configuration nor asks
    for an identity exchange. *)
Lemma promptTrust_frame_all (endpoint alias : string) (w : World)
    (r : result (option Certificate * option probe.Error)) (w' : World) :
  promptTrustSelfSignedCert endpoint alias w = (r, w') ->
  mcConfig w' = mcConfig w /\ exchLog w' = exchLog w.
Proof.
  unfold promptTrustSelfSignedCert, fetchPeerCertificate, Client_Do,
    readStdin, WriteFile, exchLog. run.
  frame_by_cases.
Qed.

(** [getStsWithLDAP] writes no file, saves no configuration and makes no
    connection through an HTTP client of its own. *)
Lemma getStsWithLDAP_frame_all (endpoint ldapUser ldapPassword : string)
    (peerCert : option Certificate) (w : World)
    (r : result (string * string * string * option error)) (w' : World) :
  getStsWithLDAP endpoint ldapUser ldapPassword peerCert w = (r, w') ->
  files w' = files w /\ mcConfig w' = mcConfig w /\ connLog w' = connLog w.
Proof.
  unfold getStsWithLDAP, prepareStsClient, AddCert, connLog. run.
  frame_by_cases.
Qed.

(** [setAlias] touches nothing but the saved configuration. *)
Lemma setAlias_frame_all (alias : string) (rec : aliasConfigV10) (w : World)
    (r : result aliasMessage) (w' : World) :
  setAlias alias rec w = (r, w') ->
  files w' = files w /\ connLog w' = connLog w /\ exchLog w' = exchLog w /\
  match r with
  | Ok _ =>
      mcConfig w' = {| Version := Version (mcConfig w);
                       Aliases := <[alias := rec]> (Aliases (mcConfig w)) |}
  | _ => mcConfig w' = mcConfig w
  end.
Proof.
  unfold setAlias, loadMcConfig, saveMcConfig, fatalIf, connLog, exchLog. run.
  destruct loadMcConfig_error as [e | ]; simpl;
    [ | destruct (saveMcConfig_error _) as [e | ]; simpl ];
    intros E; injection E as E1 E2; subst; simpl; auto 10.
Qed.

(** [fetchAliasKeys] changes no certificate pool. *)
Lemma fetchAliasKeys_pools (args : list string) (w : World)
    (r : result (string * string)) (w' : World) :
  fetchAliasKeys args w = (r, w') ->
  pools w' = pools w /\ globalRootCAs w' = globalRootCAs w.
Proof.
  unfold fetchAliasKeys, readStdin. run.
  repeat case_innermost; intros E; injection E as E1 E2; subst; simpl; auto.
Qed.

(** [getStsWithLDAP] without a pinned certificate changes no certificate
    pool, and the one exchange it asks for goes through a client that
    verifies certificates against the process-wide pool. *)
Lemma getStsWithLDAP_unpinned (endpoint ldapUser ldapPassword : string)
    (w : World) (r : result (string * string * string * option error))
    (w' : World) :
  getStsWithLDAP endpoint ldapUser ldapPassword None w = (r, w') ->
  pools w' = pools w /\ globalRootCAs w' = globalRootCAs w /\
  exchLog w'
  = {| ldap_Client :=
         {| client_Transport :=
              {| Proxy := true; Tuned := true;
                 TLSClientConfig :=
                   Some {| RootCAs := globalRootCAs w;
                           InsecureSkipVerify := false;
                           MinVersion := VersionTLS12 |} |} |};
       STSEndpoint := endpoint; LDAPUsername := ldapUser;
       LDAPPassword := ldapPassword; RequestedExpiry := StsDefaultExpire |}
    :: exchLog w.
Proof.
  unfold getStsWithLDAP, prepareStsClient, AddCert, exchLog. run.
  destruct (globalRootCAs w) eqn:HG; simpl;
    destruct (getScheme endpoint) as [schem rest]; simpl;
    rewrite andb_false_r;
    match goal with
    | |- context [match credentials_Get ?p ?i with _ => _ end] =>
        destruct (credentials_Get p i) eqn:?; simpl
    end;
    intros E; injection E as E1 E2; subst; simpl; auto.
Qed.

(** [BuildS3Config] without a pinned certificate changes no certificate
    pool. *)
Lemma BuildS3Config_unpinned
    (url alias accessKey secretKey sessionToken api path : string)
    (w : World) (r : result (option Config * option probe.Error)) (w' : World) :
  BuildS3Config url alias accessKey secretKey sessionToken api path None w = (r, w') ->
  pools w' = pools w /\ globalRootCAs w' = globalRootCAs w.
Proof.
  unfold BuildS3Config, probeS3Signature, probeSignatureType, Now. run.
  repeat first
    [ case_innermost
    | match goal with
      | |- context [match S3New ?p ?c with _ => _ end] =>
          destruct (S3New p c) eqn:?; simpl
      | |- context [match client_Stat ?p ?c with _ => _ end] =>
          destruct (client_Stat p c) eqn:?; simpl
      end ];
    intros E; injection E as E1 E2; subst; simpl; auto.
Qed.

(** [setAlias] changes no certificate pool. *)
Lemma setAlias_pools (alias : string) (rec : aliasConfigV10) (w : World)
    (r : result aliasMessage) (w' : World) :
  setAlias alias rec w = (r, w') ->
  pools w' = pools w /\ globalRootCAs w' = globalRootCAs w.
Proof.
  unfold setAlias, loadMcConfig, saveMcConfig, fatalIf. run.
  destruct loadMcConfig_error as [e | ]; simpl;
    [ | destruct (saveMcConfig_error _) as [e | ]; simpl ];
    intros E; injection E as E1 E2; subst; simpl; auto.
Qed.


(** [mainAliasSet] when trust is not negotiated: no certificate is
    pinned, so no pool changes, and the identity exchange, if one is
    asked for, goes through a client that verifies certificates against
    the process-wide pool. *)
Lemma mainAliasSet_unpinned (cli : Context) (deprecated : bool) (w : World) :
  globalInsecure w = true \/ globalJSON w = true \/ stdout_IsTerminal = false ->
  pools (after (mainAliasSet cli deprecated) w) = pools w /\
  (exchLog (after (mainAliasSet cli deprecated) w) = exchLog w \/
   exists ldapUser ldapPassword,
     exchLog (after (mainAliasSet cli deprecated) w)
     = {| ldap_Client :=
            {| client_Transport :=
                 {| Proxy := true; Tuned := true;
                    TLSClientConfig :=
                      Some {| RootCAs := globalRootCAs w;
                              InsecureSkipVerify := false;
                              MinVersion := VersionTLS12 |} |} |};
          STSEndpoint := trimTrailingSeparator (Args_Get (Args cli) 1);
          LDAPUsername := ldapUser; LDAPPassword := ldapPassword;
          RequestedExpiry := StsDefaultExpire |}
       :: exchLog w).
Proof.
  intros Hc. unfold after.
  destruct (mainAliasSet cli deprecated w) as [res wf] eqn:E. simpl.
  unfold mainAliasSet in E.
  (* the keys *)
  destruct (fetchAliasKeys_frame (Args cli) w)
    as ([accessKey secretKey] & w1 & E1 & _ & _ & _ & X1 & GI & GJ).
  destruct (fetchAliasKeys_pools _ _ _ _ E1) as [P1 G1].
  rewrite bind_run, E1 in E. cbv beta iota zeta in E.
  (* the syntax check *)
  rewrite bind_run in E.
  pose proof (checkAliasSetSyntax_same cli accessKey secretKey deprecated w1) as S2.
  unfold after in S2.
  destruct (checkAliasSetSyntax cli accessKey secretKey deprecated w1)
    as [[u | e msg | code | msg] w1'] eqn:E2; simpl in S2; subst w1';
    try (injection E as <- <-; split; [ exact P1 | left; exact X1 ]).
  rewrite bind_run in E. unfold get at 1 in E. cbv beta iota zeta in E.
  rewrite bind_run in E. unfold get at 1 in E. cbv beta iota zeta in E.
  (* no negotiation *)
  assert (Hneg : negb (globalInsecure w1) && negb (globalJSON w1) && stdout_IsTerminal
                 = false).
  { rewrite GI, GJ. destruct Hc as [-> | [-> | ->]]; simpl;
      rewrite ?andb_false_r; reflexivity. }
  rewrite Hneg in E. rewrite bind_run in E. unfold mret at 1, M_ret at 1 in E.
  cbv beta iota zeta in E.
  (* the credentials *)
  assert (exists rs w3,
    ((if String.eqb (resolveType (ctx_String cli "type")) "ldap"
      then
        Now ≫= fun now =>
        getStsWithLDAP (trimTrailingSeparator (Args_Get (Args cli) 1))
          accessKey secretKey None
        ≫= fun pat =>
             match pat with
             | (stsAccessKey, stsSecretKey, stsSessionTk, Some e0) =>
                 fatalIf (probe.Trace (probe.NewError (Some e0)) (Args cli))
                   "Unable to get sts AccessKey and SecretKey with provided credentials."
                 ≫= fun _ => mret (inl e0)
             | (stsAccessKey, stsSecretKey, stsSessionTk, None) =>
                 mret (inr (stsAccessKey, stsSecretKey, stsSessionTk,
                            time.Add (time.Add now StsDefaultExpire)
                                     (- StsWindowTime)))
             end
      else mret (inr (accessKey, secretKey, "", time.Unix 0 0))) w1) = (rs, w3) /\
    pools w3 = pools w1 /\ globalRootCAs w3 = globalRootCAs w1 /\
    (exchLog w3 = exchLog w1 \/
     exchLog w3
     = {| ldap_Client :=
            {| client_Transport :=
                 {| Proxy := true; Tuned := true;
                    TLSClientConfig :=
                      Some {| RootCAs := globalRootCAs w1;
                              InsecureSkipVerify := false;
                              MinVersion := VersionTLS12 |} |} |};
          STSEndpoint := trimTrailingSeparator (Args_Get (Args cli) 1);
          LDAPUsername := accessKey; LDAPPassword := secretKey;
          RequestedExpiry := StsDefaultExpire |}
       :: exchLog w1))
    as (rs & w3 & E4 & P3 & G3 & X3).
  { destruct (String.eqb (resolveType (ctx_String cli "type")) "ldap") eqn:Ety.
    - rewrite bind_run. unfold Now at 1. cbv beta iota zeta. rewrite bind_run.
      destruct (getStsWithLDAP _ _ _ _ _) as [rg wg] eqn:EG.
      destruct (getStsWithLDAP_unpinned _ _ _ _ _ _ EG) as (Pg & Gg & Xg).
      change (pools wg = pools w1) in Pg.
      change (globalRootCAs wg = globalRootCAs w1) in Gg.
      assert (Xg' : exchLog wg = _ :: exchLog w1) by exact Xg.
      destruct rg as [[[[a s] t] [e0 | ]] | e msg | code | msg];
        cbv beta iota zeta; simpl;
        eexists _, _; (split; [ reflexivity | ]); auto.
    - eexists _, _. split; [ reflexivity | ]. auto. }
  rewrite bind_run, E4 in E.
  assert (P3' : pools w3 = pools w) by congruence.
  assert (X3' : exchLog w3 = exchLog w \/
                exists ldapUser ldapPassword,
                  exchLog w3
                  = {| ldap_Client :=
                         {| client_Transport :=
                              {| Proxy := true; Tuned := true;
                                 TLSClientConfig :=
                                   Some {| RootCAs := globalRootCAs w;
                                           InsecureSkipVerify := false;
                                           MinVersion := VersionTLS12 |} |} |};
                       STSEndpoint := trimTrailingSeparator (Args_Get (Args cli) 1);
                       LDAPUsername := ldapUser; LDAPPassword := ldapPassword;
                       RequestedExpiry := StsDefaultExpire |}
                    :: exchLog w).
  { destruct X3 as [X3 | X3]; [ left; congruence | right ].
    exists accessKey, secretKey. rewrite X3, G1, X1. reflexivity. }
  destruct rs as [[e0 | [[[stsAccessKey stsSecretKey] stsSessionTk] stsExpireTime]]
                 | e msg | code | msg]; cbv beta iota zeta in E;
    try (injection E as <- <-; split; assumption).
  (* the configuration *)
  destruct (BuildS3Config_shape (trimTrailingSeparator (Args_Get (Args cli) 1))
              (cleanAlias (Args_Get (Args cli) 0))
              stsAccessKey stsSecretKey stsSessionTk (ctx_String cli "api")
              (resolvePath cli deprecated) None w3)
    as (c & e & w4 & E5 & Hsh & _ & _ & _ & X4 & _).
  destruct (BuildS3Config_unpinned _ _ _ _ _ _ _ _ _ _ E5) as [P4 G4].
  rewrite bind_run, E5 in E. cbv beta iota zeta in E.
  rewrite bind_run in E. unfold fatalIf at 1 in E.
  assert (P4' : pools w4 = pools w) by congruence.
  rewrite <- X4 in X3'.
  destruct Hsh as [(cfg & -> & -> & _) | (err & -> & -> & _)]; simpl in E;
    [ | injection E as <- <-; split; assumption ].
  (* the record *)
  rewrite bind_run in E.
  destruct (setAlias _ _ w4) as [rm w5] eqn:E6.
  destruct (setAlias_frame_all _ _ _ _ _ E6) as (_ & _ & X5 & _).
  destruct (setAlias_pools _ _ _ _ _ E6) as [P5 _].
  rewrite <- X5 in X3'.
  destruct rm as [m | e msg | code | msg]; cbv beta iota zeta in E;
    try (injection E as <- <-; split; [ congruence | assumption ]).
  unfold printMsg, exchLog in *. revert E. run. intros E.
  injection E as <- <-. simpl. unfold omap in *.
  split; [ congruence | assumption ].
Qed.

(** What a run of [mainAliasSet] leaves behind, however it ends. *)
Lemma mainAliasSet_effects (cli : Context) (deprecated : bool) (w : World) :
  match outcome (mainAliasSet cli deprecated) w with
  | Ok r =>
      r = None /\
      exists rec,
        mcConfig (after (mainAliasSet cli deprecated) w)
        = {| Version := Version (mcConfig w);
             Aliases := <[cleanAlias (Args_Get (Args cli) 0) := rec]>
                          (Aliases (mcConfig w)) |} /\
        (resolveType (ctx_String cli "type") <> "ldap" ->
         StsAccessKey rec = AccessKey rec /\ StsSecretKey rec = SecretKey rec)
  | _ => mcConfig (after (mainAliasSet cli deprecated) w) = mcConfig w
  end
  /\ (globalInsecure w = true \/ globalJSON w = true \/ stdout_IsTerminal = false ->
      files (after (mainAliasSet cli deprecated) w) = files w /\
      connLog (after (mainAliasSet cli deprecated) w) = connLog w)
  /\ (resolveType (ctx_String cli "type") <> "ldap" ->
      exchLog (after (mainAliasSet cli deprecated) w) = exchLog w).
Proof.
  unfold outcome, after.
  destruct (mainAliasSet cli deprecated w) as [res wf] eqn:E. simpl.
  unfold mainAliasSet in E.
  (* the keys *)
  destruct (fetchAliasKeys_frame (Args cli) w)
    as ([accessKey secretKey] & w1 & E1 & F1 & M1 & C1 & X1 & GI & GJ).
  rewrite bind_run, E1 in E. cbv beta iota zeta in E.
  (* the syntax check *)
  rewrite bind_run in E.
  pose proof (checkAliasSetSyntax_same cli accessKey secretKey deprecated w1) as S2.
  unfold after in S2.
  destruct (checkAliasSetSyntax cli accessKey secretKey deprecated w1)
    as [[u | e msg | code | msg] w1'] eqn:E2; simpl in S2; subst w1';
    try (injection E as <- <-; repeat split; intros; congruence).
  rewrite bind_run in E. unfold get at 1 in E. cbv beta iota zeta in E.
  rewrite bind_run in E. unfold get at 1 in E. cbv beta iota zeta in E.
  (* trust negotiation *)
  assert (exists rn w2,
    ((if negb (globalInsecure w1) && negb (globalJSON w1) && stdout_IsTerminal
      then
        promptTrustSelfSignedCert (trimTrailingSeparator (Args_Get (Args cli) 1))
          (cleanAlias (Args_Get (Args cli) 0))
        ≫= (fun '(peerCert, err) =>
              fatalIf (probe.Trace err (Args cli))
                "Unable to initialize new alias from the provided credentials."
              ≫= fun _ => mret peerCert)
      else mret None) w1) = (rn, w2) /\
    mcConfig w2 = mcConfig w /\ exchLog w2 = exchLog w /\
    (globalInsecure w = true \/ globalJSON w = true \/ stdout_IsTerminal = false ->
     files w2 = files w /\ connLog w2 = connLog w))
    as (rn & w2 & E3 & M2 & X2 & N2).
  { rewrite GI, GJ.
    destruct (negb (globalInsecure w) && negb (globalJSON w) && stdout_IsTerminal)
      eqn:Hneg.
    - rewrite bind_run.
      destruct (promptTrustSelfSignedCert _ _ w1) as [rp wp] eqn:EP.
      destruct (promptTrust_frame_all _ _ _ _ _ EP) as [Mp Xp].
      assert (Hno : ~ (globalInsecure w = true \/ globalJSON w = true
                       \/ stdout_IsTerminal = false)).
      { intros [Hi | [Hj | Ht]]; rewrite ?Hi, ?Hj, ?Ht in Hneg;
          simpl in Hneg; try discriminate;
          destruct (globalInsecure w), (globalJSON w); discriminate. }
      destruct rp as [[pc err] | e msg | code | msg]; cbv beta iota zeta.
      + rewrite bind_run. unfold fatalIf.
        destruct (probe.Trace err (Args cli)); cbv beta iota zeta;
          eexists _, _; (split; [ reflexivity | ]);
          repeat split; try congruence; intros Hc; contradiction.
      + eexists _, _. split; [ reflexivity | ].
        repeat split; try congruence; intros Hc; contradiction.
      + eexists _, _. split; [ reflexivity | ].
        repeat split; try congruence; intros Hc; contradiction.
      + eexists _, _. split; [ reflexivity | ].
        repeat split; try congruence; intros Hc; contradiction.
    - eexists _, _. split; [ reflexivity | ]. auto. }
  rewrite bind_run, E3 in E.
  destruct rn as [peerCert | e msg | code | msg]; cbv beta iota zeta in E;
    try (injection E as <- <-; repeat split; intros; try congruence;
         apply N2; assumption).
  (* the credentials *)
  assert (exists rs w3,
    ((if String.eqb (resolveType (ctx_String cli "type")) "ldap"
      then
        Now ≫= fun now =>
        getStsWithLDAP (trimTrailingSeparator (Args_Get (Args cli) 1))
          accessKey secretKey peerCert
        ≫= fun pat =>
             match pat with
             | (stsAccessKey, stsSecretKey, stsSessionTk, Some e0) =>
                 fatalIf (probe.Trace (probe.NewError (Some e0)) (Args cli))
                   "Unable to get sts AccessKey and SecretKey with provided credentials."
                 ≫= fun _ => mret (inl e0)
             | (stsAccessKey, stsSecretKey, stsSessionTk, None) =>
                 mret (inr (stsAccessKey, stsSecretKey, stsSessionTk,
                            time.Add (time.Add now StsDefaultExpire)
                                     (- StsWindowTime)))
             end
      else mret (inr (accessKey, secretKey, "", time.Unix 0 0))) w2) = (rs, w3) /\
    files w3 = files w2 /\ mcConfig w3 = mcConfig w2 /\ connLog w3 = connLog w2 /\
    (resolveType (ctx_String cli "type") <> "ldap" ->
     exchLog w3 = exchLog w2 /\
     forall sts, rs = Ok sts -> sts = inr (accessKey, secretKey, "", time.Unix 0 0)) /\
    (forall e0, rs <> Ok (inl e0)))
    as (rs & w3 & E4 & F3 & M3 & C3 & X3 & R3).
  { destruct (String.eqb (resolveType (ctx_String cli "type")) "ldap") eqn:Ety.
    - apply String.eqb_eq in Ety.
      rewrite bind_run. unfold Now at 1. cbv beta iota zeta. rewrite bind_run.
      destruct (getStsWithLDAP _ _ _ _ _) as [rg wg] eqn:EG.
      destruct (getStsWithLDAP_frame_all _ _ _ _ _ _ _ EG) as (Fg & Mg & Cg).
      change (files wg = files w2) in Fg.
      change (mcConfig wg = mcConfig w2) in Mg.
      change (connLog wg = connLog w2) in Cg.
      destruct rg as [[[[a s] t] [e0 | ]] | e msg | code | msg];
        cbv beta iota zeta; simpl;
        eexists _, _; (split; [ reflexivity | ]);
        repeat split; try congruence; intros; congruence.
    - apply String.eqb_neq in Ety.
      eexists _, _. split; [ reflexivity | ].
      repeat split; try congruence;
        intros sts E'; injection E' as <-; reflexivity. }
  rewrite bind_run, E4 in E.
  assert (N3 : globalInsecure w = true \/ globalJSON w = true
               \/ stdout_IsTerminal = false ->
               files w3 = files w /\ connLog w3 = connLog w).
  { intros Hc. destruct (N2 Hc). split; congruence. }
  assert (X3' : resolveType (ctx_String cli "type") <> "ldap" ->
                exchLog w3 = exchLog w).
  { intros Hc. destruct (X3 Hc). congruence. }
  destruct rs as [[e0 | [[[stsAccessKey stsSecretKey] stsSessionTk] stsExpireTime]]
                 | e msg | code | msg]; cbv beta iota zeta in E;
    try (exfalso; eapply R3; reflexivity);
    try (injection E as <- <-; repeat split; intros; try congruence; auto;
         apply N3; assumption).
  (* the configuration *)
  destruct (BuildS3Config_shape (trimTrailingSeparator (Args_Get (Args cli) 1))
              (cleanAlias (Args_Get (Args cli) 0))
              stsAccessKey stsSecretKey stsSessionTk (ctx_String cli "api")
              (resolvePath cli deprecated) peerCert w3)
    as (c & e & w4 & E5 & Hsh & F4 & M4 & C4 & X4 & _).
  rewrite bind_run, E5 in E. cbv beta iota zeta in E.
  rewrite bind_run in E. unfold fatalIf at 1 in E.
  assert (N4 : globalInsecure w = true \/ globalJSON w = true
               \/ stdout_IsTerminal = false ->
               files w4 = files w /\ connLog w4 = connLog w).
  { intros Hc. destruct (N3 Hc). split; congruence. }
  assert (X4' : resolveType (ctx_String cli "type") <> "ldap" ->
                exchLog w4 = exchLog w).
  { intros Hc. rewrite X4. auto. }
  destruct Hsh as [(cfg & -> & -> & _) | (err & -> & -> & _)]; simpl in E;
    [ | injection E as <- <-; repeat split; intros; try congruence; auto;
        destruct (N4 ltac:(assumption)); congruence ].
  (* the record *)
  rewrite bind_run in E.
  destruct (setAlias _ _ w4) as [rm w5] eqn:E6.
  destruct (setAlias_frame_all _ _ _ _ _ E6) as (F5 & C5 & X5 & M5).
  destruct rm as [m | e msg | code | msg]; cbv beta iota zeta in E;
    try (injection E as <- <-; repeat split; intros; try congruence;
         [ destruct (N4 ltac:(assumption)); congruence
         | destruct (N4 ltac:(assumption)); congruence
         | rewrite X5; auto ]).
  unfold printMsg, connLog, exchLog in *. revert E. run. intros E.
  injection E as <- <-. simpl. unfold omap in *.
  split; [ split; [ reflexivity | ] | split ].
  - eexists. split.
    + rewrite M5. rewrite M4, M3, M2. reflexivity.
    + intros Hty. destruct (X3 Hty) as [_ Hs].
      specialize (Hs _ eq_refl). injection Hs as -> -> _ _. auto.
  - intros Hc. destruct (N4 Hc). split; congruence.
  - intros Hty. rewrite X5. auto.
Qed.

(** X20.  [mainAliasSet] saves a record only when it succeeds: a run
    that returns has changed the saved configuration by exactly one
    entry, the one of the alias, every other alias and the version being
    as they were; a run that ends in any other way (a failed check,
    negotiation, exchange, probe or save) leaves the saved configuration
    as it was. *)
Theorem mainAliasSet_saves_only_on_success
    (cli : Context) (deprecated : bool) (w : World) :
  match outcome (mainAliasSet cli deprecated) w with
  | Ok r =>
      r = None /\
      Version (mcConfig (after (mainAliasSet cli deprecated) w))
        = Version (mcConfig w) /\
      is_Some (Aliases (mcConfig (after (mainAliasSet cli deprecated) w))
                 !! cleanAlias (Args_Get (Args cli) 0)) /\
      forall other, other <> cleanAlias (Args_Get (Args cli) 0) ->
        Aliases (mcConfig (after (mainAliasSet cli deprecated) w)) !! other
        = Aliases (mcConfig w) !! other
  | _ => mcConfig (after (mainAliasSet cli deprecated) w) = mcConfig w
  end.
Proof.
  destruct (mainAliasSet_effects cli deprecated w) as (Hm & _ & _).
  destruct (outcome (mainAliasSet cli deprecated) w); auto.
  destruct Hm as (-> & rec & -> & _). simpl.
  split; [ reflexivity | ]. split; [ reflexivity | ].
  split; [ rewrite lookup_insert_eq; eauto | ].
  intros other Ho. apply lookup_insert_ne. congruence.
Qed.

(** X21.  [mainAliasSet] under [--insecure], under [--json], or with an
    output that is not a terminal: [promptTrustSelfSignedCert] is not
    called and a nil certificate is passed on.  However the run ends, no
    request has been sent with [client.Do], nothing has been written
    with [os.WriteFile] and no certificate pool has changed: no
    certificate was fetched, stored or pinned.  The identity exchange,
    the probes and the saving of the configuration are not part of the
    negotiation and may still happen; at most one exchange is asked
    for, at the address of the command line, and it goes through a
    client that verifies certificates against the process-wide pool. *)
Theorem mainAliasSet_without_negotiation
    (cli : Context) (deprecated : bool) (w : World) :
  globalInsecure w = true \/ globalJSON w = true \/ stdout_IsTerminal = false ->
  files (after (mainAliasSet cli deprecated) w) = files w /\
  connLog (after (mainAliasSet cli deprecated) w) = connLog w /\
  pools (after (mainAliasSet cli deprecated) w) = pools w /\
  (exchLog (after (mainAliasSet cli deprecated) w) = exchLog w \/
   exists ldapUser ldapPassword,
     exchLog (after (mainAliasSet cli deprecated) w)
     = {| ldap_Client :=
            {| client_Transport :=
                 {| Proxy := true; Tuned := true;
                    TLSClientConfig :=
                      Some {| RootCAs := globalRootCAs w;
                              InsecureSkipVerify := false;
                              MinVersion := VersionTLS12 |} |} |};
          STSEndpoint := trimTrailingSeparator (Args_Get (Args cli) 1);
          LDAPUsername := ldapUser; LDAPPassword := ldapPassword;
          RequestedExpiry := StsDefaultExpire |}
       :: exchLog w).
Proof.
  intros Hc.
  destruct (mainAliasSet_effects cli deprecated w) as (_ & Hn & _).
  destruct (Hn Hc) as [Hf Hl].
  destruct (mainAliasSet_unpinned cli deprecated w Hc) as [Hp Hx].
  auto.
Qed.

(** X22.  [mainAliasSet] with a credential type other than ldap: no
    identity exchange is asked for, however the run ends; and the record
    of a run that returns repeats the access key and the secret key in
    its STS fields. *)
Theorem mainAliasSet_static_copies_keys
    (cli : Context) (deprecated : bool) (w : World) :
  resolveType (ctx_String cli "type") <> "ldap" ->
  exchLog (after (mainAliasSet cli deprecated) w) = exchLog w /\
  forall r, outcome (mainAliasSet cli deprecated) w = Ok r ->
    exists rec,
      Aliases (mcConfig (after (mainAliasSet cli deprecated) w))
        !! cleanAlias (Args_Get (Args cli) 0) = Some rec /\
      StsAccessKey rec = AccessKey rec /\ StsSecretKey rec = SecretKey rec.
Proof.
  intros Hty.
  destruct (mainAliasSet_effects cli deprecated w) as (Hm & _ & Hx).
  split; [ auto | ]. intros r Hr. rewrite Hr in Hm.
  destruct Hm as (_ & rec & -> & Hk). exists rec. simpl.
  split; [ apply lookup_insert_eq | auto ].
Qed.

End BootstrapProperties.

(* ===================================================================== *)
(** ** Properties of the acl commands                                    *)
(* ===================================================================== *)

Section AclProperties.

Context {Policy S3Client : Type} `{Acl.Platform Policy S3Client}.

Ltac acl_run :=
  unfold Acl.mainAclGet, Acl.mainAclSet, Acl.writeAclFile, Acl.checkAclGetSyntax,
    Acl.checkAclSetSyntax, Acl.ShowCommandHelpAndExit, Acl.Create, Acl.Write,
    Acl.ReadFile, Acl.printMsg, Acl.fatalIf, Acl.nilDereference, Acl.panic,
    Acl.log_event, Acl.set_file, mbind, Acl.M_bind, mret, Acl.M_ret in *;
  simpl in *.

(** A run of [mainAclGet] that returns: the client was made, the ACL
    fetched and printed, and the file, when one was asked for, written in
    full. *)
Lemma mainAclGet_Ok (cli : Context) (w w' : Acl.World Policy S3Client)
    (r : option error) :
  Acl.mainAclGet cli w = (Ok r, w') ->
  r = None /\ Args cli <> [] /\
  exists clnt acld,
    Acl.newClient (Args_Get (Args cli) 0) = inr clnt /\
    Acl.client_AclGet clnt = inr acld /\
    Acl.log w' = Acl.EvPrintMsg {| Acl.op := "get"; Acl.Status := "";
                                   Acl.Path := Args_Get (Args cli) 0;
                                   Acl.Acl := acld |}
                 :: Acl.EvAclGet clnt
                 :: Acl.EvNewClient (Args_Get (Args cli) 0) :: Acl.log w /\
    (ctx_String cli "acl-file" = "" -> Acl.fs w' = Acl.fs w) /\
    (ctx_String cli "acl-file" <> "" ->
     exists acl,
       Acl.json_MarshalIndent acld = inr acl /\
       Acl.fs w' = <[ctx_String cli "acl-file" := acl]> (Acl.fs w)).
Proof.
  intros E. acl_run.
  destruct (bool_decide (length (Args cli) <> 0%nat)) eqn:EL; simpl in *;
    [ | discriminate E ].
  apply bool_decide_eq_true_1 in EL.
  assert (EA : Args cli <> []) by (intros EA; rewrite EA in EL; apply EL; reflexivity).
  destruct (Acl.newClient _) as [e | clnt] eqn:EN; simpl in *; [ discriminate E | ].
  destruct (Acl.client_AclGet clnt) as [e | acld] eqn:EG; simpl in *; [ discriminate E | ].
  destruct (String.eqb (ctx_String cli "acl-file") "") eqn:EF; simpl in *.
  - apply String.eqb_eq in EF. injection E as E1 E2; subst r w'. simpl.
    split; [ reflexivity | ]. split; [ exact EA | ].
    exists clnt, acld. repeat split; try reflexivity; congruence.
  - apply String.eqb_neq in EF.
    destruct (Acl.os_Create_error _) as [e | ]; simpl in *; [ discriminate E | ].
    destruct (Acl.json_MarshalIndent acld) as [e | acl] eqn:EM; simpl in *; [ discriminate E | ].
    destruct (Acl.file_Write_error _ _) as [[n e] | ]; simpl in *; [ discriminate E | ].
    injection E as E1 E2; subst r w'. simpl.
    split; [ reflexivity | ]. split; [ exact EA | ].
    exists clnt, acld. do 4 (split; [ reflexivity || congruence | ]).
    intros _. exists acl. split; [ exact EM | ]. apply insert_insert_eq.
Qed.

(** A run of [mainAclSet] that returns: the file was read, and its
    content, as a string, is what the target was sent. *)
Lemma mainAclSet_Ok (cli : Context) (w w' : Acl.World Policy S3Client)
    (r : option error) :
  Acl.mainAclSet cli w = (Ok r, w') ->
  r = None /\ length (Args cli) = 2%nat /\
  Acl.ioutil_ReadFile_error (Args_Get (Args cli) 1) = None /\
  exists data clnt,
    Acl.fs w !! Args_Get (Args cli) 1 = Some data /\
    Acl.newClient (Args_Get (Args cli) 0) = inr clnt /\
    Acl.client_AclSet clnt (string_of_bytes data) = None /\
    Acl.log w' = Acl.EvPrintMsg {| Acl.op := "set"; Acl.Status := "";
                                   Acl.Path := Args_Get (Args cli) 0;
                                   Acl.Acl := Acl.zeroPolicy |}
                 :: Acl.EvAclSet clnt (string_of_bytes data)
                 :: Acl.EvNewClient (Args_Get (Args cli) 0) :: Acl.log w /\
    Acl.fs w' = Acl.fs w.
Proof.
  intros E. acl_run.
  destruct (bool_decide (length (Args cli) = 2%nat)) eqn:EL; simpl in *;
    [ | discriminate E ].
  apply bool_decide_eq_true_1 in EL.
  destruct (Acl.ioutil_ReadFile_error _) as [e | ] eqn:ER; simpl in *; [ discriminate E | ].
  destruct (Acl.fs w !! Args_Get (Args cli) 1) as [data | ] eqn:EF; simpl in *;
    [ | discriminate E ].
  destruct (Acl.newClient _) as [e | clnt] eqn:EN; simpl in *; [ discriminate E | ].
  destruct (Acl.client_AclSet clnt _) as [e | ] eqn:ES; simpl in *; [ discriminate E | ].
  injection E as E1 E2; subst r w'. simpl.
  split; [ reflexivity | ]. split; [ exact EL | ]. split; [ reflexivity | ].
  exists data, clnt. repeat split; reflexivity || assumption.
Qed.

(** X23.  [mainAclGet] and the file system: however the command ends, no
    file other than the one named by [--acl-file] is changed, and
    without that flag the file system is left as it was. *)
Theorem mainAclGet_touches_only_acl_file
    (cli : Context) (w : Acl.World Policy S3Client) :
  (ctx_String cli "acl-file" = "" ->
   Acl.fs (Acl.mainAclGet cli w).2 = Acl.fs w)
  /\ (forall path, path <> ctx_String cli "acl-file" ->
      Acl.fs (Acl.mainAclGet cli w).2 !! path = Acl.fs w !! path).
Proof.
  acl_run. split.
  - intros ->. simpl. repeat case_innermost; reflexivity.
  - intros path Hp.
    repeat case_innermost; try reflexivity;
      rewrite ?lookup_insert_ne by congruence; reflexivity.
Qed.

(** X24.  A run of [mainAclGet] that returns has made one client for
    the target, fetched the ACL once and printed it under [get] with the
    target as path, in that order; and with [--acl-file] the file holds
    exactly the indented JSON of the ACL that was fetched. *)
Theorem mainAclGet_success
    (cli : Context) (w : Acl.World Policy S3Client) (r : option error) :
  (Acl.mainAclGet cli w).1 = Ok r ->
  r = None /\
  exists clnt acld,
    Acl.newClient (Args_Get (Args cli) 0) = inr clnt /\
    Acl.client_AclGet clnt = inr acld /\
    Acl.log (Acl.mainAclGet cli w).2
    = Acl.EvPrintMsg {| Acl.op := "get"; Acl.Status := "";
                        Acl.Path := Args_Get (Args cli) 0; Acl.Acl := acld |}
      :: Acl.EvAclGet clnt
      :: Acl.EvNewClient (Args_Get (Args cli) 0) :: Acl.log w /\
    (ctx_String cli "acl-file" <> "" ->
     exists acl,
       Acl.json_MarshalIndent acld = inr acl /\
       Acl.fs (Acl.mainAclGet cli w).2 !! ctx_String cli "acl-file" = Some acl).
Proof.
  destruct (Acl.mainAclGet cli w) as [res w'] eqn:E. simpl. intros ->.
  destruct (mainAclGet_Ok _ _ _ _ E) as (-> & _ & clnt & acld & Hn & Hg & Hl & _ & Hf).
  split; [ reflexivity | ]. exists clnt, acld. repeat split; auto.
  intros Hne. destruct (Hf Hne) as (acl & Hm & ->).
  exists acl. split; [ exact Hm | apply lookup_insert_eq ].
Qed.

(** X25.  [mainAclGet] fetches before it touches the file: when the
    client cannot be made, or the ACL cannot be fetched, the command
    leaves through [fatalIf] with that error tagged with the target,
    nothing is printed, and the file system, the file named by
    [--acl-file] included, is as it was. *)
Theorem mainAclGet_fetches_first
    (cli : Context) (w : Acl.World Policy S3Client) (e : probe.Error) :
  Args cli <> [] ->
  (Acl.newClient (Args_Get (Args cli) 0) = inl e \/
   exists clnt, Acl.newClient (Args_Get (Args cli) 0) = inr clnt /\
                Acl.client_AclGet clnt = inl e) ->
  (exists msg,
     (Acl.mainAclGet cli w).1
     = Fatal {| probe.Cause := probe.Cause e;
                probe.CallTrace :=
                  (probe.CallTrace e ++ [[Args_Get (Args cli) 0]])%list |} msg) /\
  Acl.fs (Acl.mainAclGet cli w).2 = Acl.fs w /\
  Forall (fun ev => match ev with Acl.EvPrintMsg _ => False | _ => True end)
         (take (length (Acl.log (Acl.mainAclGet cli w).2) - length (Acl.log w))
               (Acl.log (Acl.mainAclGet cli w).2)).
Proof.
  intros HA HF. acl_run.
  rewrite bool_decide_eq_true_2
    by (destruct (Args cli); [ contradiction | discriminate ]).
  simpl.
  destruct HF as [-> | (clnt & -> & ->)]; simpl;
    (split; [ eexists; reflexivity | ]); (split; [ reflexivity | ]).
  - replace (S (length (Acl.log w)) - length (Acl.log w))%nat with 1%nat by lia.
    simpl. repeat constructor.
  - replace (S (S (length (Acl.log w))) - length (Acl.log w))%nat with 2%nat by lia.
    simpl. repeat constructor.
Qed.

(** X26.  [mainAclGet] creates the file before it encodes: when the ACL
    was fetched and the file created but the encoding fails, the command
    leaves through [fatalIf] with "Marshal failed", and the file named by
    [--acl-file] is left empty, whatever it held before. *)
Theorem mainAclGet_marshal_failure_empties_file
    (cli : Context) (w : Acl.World Policy S3Client)
    (clnt : S3Client) (acld : Policy) (e : error) :
  Args cli <> [] ->
  ctx_String cli "acl-file" <> "" ->
  Acl.newClient (Args_Get (Args cli) 0) = inr clnt ->
  Acl.client_AclGet clnt = inr acld ->
  Acl.os_Create_error (ctx_String cli "acl-file") = None ->
  Acl.json_MarshalIndent acld = inl e ->
  (Acl.mainAclGet cli w).1
    = Fatal {| probe.Cause := e; probe.CallTrace := [[]; Args cli] |}
            "Marshal failed" /\
  Acl.fs (Acl.mainAclGet cli w).2 !! ctx_String cli "acl-file" = Some [].
Proof.
  intros HA HF HN HG HC HM. apply String.eqb_neq in HF. acl_run.
  rewrite bool_decide_eq_true_2
    by (destruct (Args cli); [ contradiction | discriminate ]).
  simpl. rewrite HN. simpl. rewrite HG. simpl. rewrite HF. simpl. rewrite HC. simpl.
  rewrite HM. simpl. split; [ reflexivity | apply lookup_insert_eq ].
Qed.

(** X27.  [mainAclSet] reads the file before anything else: with two
    arguments and a file that is missing or cannot be read, the command
    leaves through [fatalIf] with "Unable to get acl" and the world is
    exactly as it was: no client was made and nothing was sent. *)
Theorem mainAclSet_reads_file_first
    (cli : Context) (w : Acl.World Policy S3Client) :
  length (Args cli) = 2%nat ->
  Acl.ioutil_ReadFile_error (Args_Get (Args cli) 1) <> None \/
  Acl.fs w !! Args_Get (Args cli) 1 = None ->
  (exists e, (Acl.mainAclSet cli w).1 = Fatal e "Unable to get acl") /\
  (Acl.mainAclSet cli w).2 = w.
Proof.
  intros HL HR. acl_run. rewrite bool_decide_eq_true_2 by exact HL. simpl.
  destruct (Acl.ioutil_ReadFile_error _) as [e | ]; simpl.
  - split; [ eexists; reflexivity | reflexivity ].
  - destruct HR as [HR | HR]; [ contradiction | ]. rewrite HR. simpl.
    split; [ eexists; reflexivity | reflexivity ].
Qed.

(** X28.  A run of [mainAclSet] that returns had exactly two arguments;
    it has made one client for the first, sent it once the content of
    the file named by the second, byte for byte, and printed the message
    under [set]; the file system is as it was. *)
Theorem mainAclSet_success
    (cli : Context) (w : Acl.World Policy S3Client) (r : option error) :
  (Acl.mainAclSet cli w).1 = Ok r ->
  r = None /\ Args cli = [Args_Get (Args cli) 0; Args_Get (Args cli) 1] /\
  exists data clnt,
    Acl.fs w !! Args_Get (Args cli) 1 = Some data /\
    Acl.newClient (Args_Get (Args cli) 0) = inr clnt /\
    Acl.log (Acl.mainAclSet cli w).2
    = Acl.EvPrintMsg {| Acl.op := "set"; Acl.Status := "";
                        Acl.Path := Args_Get (Args cli) 0;
                        Acl.Acl := Acl.zeroPolicy |}
      :: Acl.EvAclSet clnt (string_of_bytes data)
      :: Acl.EvNewClient (Args_Get (Args cli) 0) :: Acl.log w /\
    Acl.fs (Acl.mainAclSet cli w).2 = Acl.fs w.
Proof.
  destruct (Acl.mainAclSet cli w) as [res w'] eqn:E. simpl. intros ->.
  destruct (mainAclSet_Ok _ _ _ _ E)
    as (-> & HL & _ & data & clnt & Hf & Hn & _ & Hl & Hs).
  split; [ reflexivity | ]. split.
  - destruct (Args cli) as [ | a [ | b [ | c rest]]]; try discriminate. reflexivity.
  - exists data, clnt. auto.
Qed.

(** X29.  [acl get --acl-file f] followed by [acl set TARGET f]: when
    both commands return, what the second sends to its target is the
    indented JSON of the ACL the first fetched. *)
Theorem aclGet_then_aclSet
    (cliGet cliSet : Context) (w : Acl.World Policy S3Client)
    (r1 r2 : option error) :
  ctx_String cliGet "acl-file" <> "" ->
  Args_Get (Args cliSet) 1 = ctx_String cliGet "acl-file" ->
  (Acl.mainAclGet cliGet w).1 = Ok r1 ->
  (Acl.mainAclSet cliSet (Acl.mainAclGet cliGet w).2).1 = Ok r2 ->
  exists clntGet acld acl clntSet,
    Acl.newClient (Args_Get (Args cliGet) 0) = inr clntGet /\
    Acl.client_AclGet clntGet = inr acld /\
    Acl.json_MarshalIndent acld = inr acl /\
    Acl.newClient (Args_Get (Args cliSet) 0) = inr clntSet /\
    In (Acl.EvAclSet clntSet (string_of_bytes acl))
       (Acl.log (Acl.mainAclSet cliSet (Acl.mainAclGet cliGet w).2).2).
Proof.
  intros HF HP.
  destruct (Acl.mainAclGet cliGet w) as [res1 w1] eqn:E1. simpl. intros ->.
  destruct (Acl.mainAclSet cliSet w1) as [res2 w2] eqn:E2. simpl. intros ->.
  destruct (mainAclGet_Ok _ _ _ _ E1)
    as (_ & _ & clntGet & acld & Hn & Hg & _ & _ & Hf).
  destruct (Hf HF) as (acl & Hm & Hfs).
  destruct (mainAclSet_Ok _ _ _ _ E2)
    as (_ & _ & _ & data & clntSet & Hd & Hn2 & _ & Hl & _).
  rewrite HP, Hfs, lookup_insert_eq in Hd. injection Hd as <-.
  exists clntGet, acld, acl, clntSet. repeat split; auto.
  rewrite Hl. right. left. reflexivity.
Qed.

(** X30.  [userAclMessage.JSON] always reports success: its result does
    not depend on the status the message carries, and it is the encoding
    of the message with the status [success]. *)
Theorem userAclMessage_JSON_reports_success
    (u : Acl.userAclMessage Policy) (status : string)
    (w : Acl.World Policy S3Client) :
  Acl.JSON {| Acl.op := Acl.op u; Acl.Status := status;
              Acl.Path := Acl.Path u; Acl.Acl := Acl.Acl u |} w
  = Acl.JSON u w
  /\ forall buf,
       Acl.json_MarshalIndent_message
         {| Acl.op := Acl.op u; Acl.Status := "success";
            Acl.Path := Acl.Path u; Acl.Acl := Acl.Acl u |} = inr buf ->
       Acl.JSON u w = (Ok (string_of_bytes buf), w).
Proof.
  unfold Acl.JSON. simpl. split; [ reflexivity | ].
  intros buf ->. reflexivity.
Qed.

End AclProperties.

(* ===================================================================== *)
(** ** The further properties on concrete runs                           *)
(* ===================================================================== *)

Lemma promptTrust_http_endpoint_witness :
  @promptTrustSelfSignedCert server "http://minio.example" "myminio" (world yes)
  = (Ok (None, None), world yes).
Proof.
  apply (@promptTrust_http_endpoint server "http://minio.example" "myminio"
           (world yes)
           {| URL_Scheme := "http"; req_endpoint := "http://minio.example" |});
    reflexivity.
Defined.

Lemma promptTrust_already_trusted_witness :
  outcome (@promptTrustSelfSignedCert
             (platform (fun _ => Some accessDenied)
                (inr {| TLS_PeerCertificates := Some [issuedByOther] |})
                [issuedByOther] (inr tokens) None)
             endpoint "myminio") (world yes)
  = Ok (None, None).
Proof.
  apply (@promptTrust_already_trusted
           (platform (fun _ => Some accessDenied)
              (inr {| TLS_PeerCertificates := Some [issuedByOther] |})
              [issuedByOther] (inr tokens) None)
           endpoint "myminio" (world yes)
           {| URL_Scheme := "https"; req_endpoint := endpoint |}
           {| TLS_PeerCertificates := Some [issuedByOther] |});
    [ reflexivity | discriminate | reflexivity ].
Defined.

Lemma promptTrust_pins_only_self_signed_witness :
  files (after (@promptTrustSelfSignedCert server endpoint "myminio") (world yes))
    !! "/home/user/.mc/certs/CAs/myminio.crt"
  = Some [Byte.x30; Byte.x82; Byte.x01].
Proof.
  apply (@promptTrust_pins_only_self_signed server endpoint "myminio" (world yes)
           selfSigned None).
  vm_compute. reflexivity.
Defined.

Lemma fetchPeerCertificate_first_peer_witness :
  exists req resp rest,
    @http_NewRequest server endpoint = inr req /\
    @http_Do server (pools (world [])) unverifyingClient req = inr resp /\
    TLS_PeerCertificates resp = Some (selfSigned :: rest) /\
    eventsSince (world []) (after (@fetchPeerCertificate server endpoint) (world []))
      = [EvHttpDo unverifyingClient req].
Proof.
  apply (@fetchPeerCertificate_first_peer server endpoint (world []) selfSigned).
  reflexivity.
Defined.

Lemma configurePeerCertificate_without_pool_witness :
  exists cfg' tc,
    configurePeerCertificate probeConfig selfSigned
      {| globalInsecure := false; globalJSON := false; globalDebug := false;
         globalRootCAs := None; pools := fun _ => []; stdin := [];
         clockReads := 0; files := ∅;
         mcConfig := {| Version := "10"; Aliases := ∅ |}; trace := [] |}
    = (Ok cfg',
       {| globalInsecure := false; globalJSON := false; globalDebug := false;
          globalRootCAs := None; pools := fun _ => []; stdin := [];
          clockReads := 0; files := ∅;
          mcConfig := {| Version := "10"; Aliases := ∅ |}; trace := [] |}) /\
    (exists t, cfg_Transport cfg' = Some t /\ TLSClientConfig t = Some tc) /\
    RootCAs tc = None /\ InsecureSkipVerify tc = false.
Proof.
  apply (configurePeerCertificate_without_pool probeConfig selfSigned
           {| globalInsecure := false; globalJSON := false; globalDebug := false;
              globalRootCAs := None; pools := fun _ => []; stdin := [];
              clockReads := 0; files := ∅;
              mcConfig := {| Version := "10"; Aliases := ∅ |}; trace := [] |});
    reflexivity.
Defined.

Lemma getStsWithLDAP_one_exchange_witness :
  exists client,
    exchLog (after (@getStsWithLDAP server endpoint "alice" "wonderland" None)
                   (world []))
    = [{| ldap_Client := client; STSEndpoint := endpoint;
          LDAPUsername := "alice"; LDAPPassword := "wonderland";
          RequestedExpiry := time.Hour |}].
Proof.
  apply (@getStsWithLDAP_one_exchange server endpoint "alice" "wonderland" None
           (world []) "STSACCESS" "STSSECRET" "eyJhbGciOiJIUzUxMiJ9" None).
  vm_compute. reflexivity.
Defined.

Lemma BuildS3Config_error_carries_keys_witness :
  exists err,
    outcome (@BuildS3Config rejecting endpoint "myminio" "alice" "wonderland" ""
               "" "auto" None) (world [])
    = Ok (None, Some err) /\
    last (probe.CallTrace err)
    = Some [endpoint; "alice"; "wonderland"; ""; "auto"].
Proof.
  eexists. split; [ vm_compute; reflexivity | ].
  apply (@BuildS3Config_error_carries_keys rejecting endpoint "myminio" "alice"
           "wonderland" "" "" "auto" None (world []) None).
  vm_compute. reflexivity.
Defined.

Lemma fetchAliasKeys_end_of_input_witness :
  outcome (@fetchAliasKeys server ["myminio"; endpoint]) (world []) = Ok ("", "").
Proof.
  apply (@fetchAliasKeys_end_of_input server); reflexivity.
Defined.

Lemma setAlias_round_trip_witness :
  Aliases (mcConfig (after (@setAlias server "myminio"
                              {| URL := endpoint; AccessKey := "alice";
                                 SecretKey := "wonderland"; SessionToken := "";
                                 API := "s3v4"; Path := "auto"; AType := "normal";
                                 StsAccessKey := "alice";
                                 StsSecretKey := "wonderland"; StsSessionTk := "";
                                 ExpireTime := {| time.sec := 0; time.nsec := 0 |} |})
                           (world []))) !! "myminio"
  = Some {| URL := endpoint; AccessKey := "alice";
            SecretKey := "wonderland"; SessionToken := "";
            API := "s3v4"; Path := "auto"; AType := "normal";
            StsAccessKey := "alice";
            StsSecretKey := "wonderland"; StsSessionTk := "";
            ExpireTime := {| time.sec := 0; time.nsec := 0 |} |}.
Proof.
  apply (@setAlias_round_trip server "myminio"
           {| URL := endpoint; AccessKey := "alice";
              SecretKey := "wonderland"; SessionToken := "";
              API := "s3v4"; Path := "auto"; AType := "normal";
              StsAccessKey := "alice";
              StsSecretKey := "wonderland"; StsSessionTk := "";
              ExpireTime := {| time.sec := 0; time.nsec := 0 |} |}
           (world []));
    reflexivity.
Defined.

Lemma mainAliasSet_without_negotiation_witness :
  files (after (@mainAliasSet server (cli endpoint (flags "" "ldap")) false)
               {| globalInsecure := true; globalJSON := false;
                  globalDebug := false; globalRootCAs := Some 0%nat;
                  pools := fun _ => []; stdin := yes; clockReads := 0;
                  files := ∅;
                  mcConfig := {| Version := "10"; Aliases := ∅ |};
                  trace := [] |})
  = ∅
  /\ pools (after (@mainAliasSet server (cli endpoint (flags "" "ldap")) false)
                  {| globalInsecure := true; globalJSON := false;
                     globalDebug := false; globalRootCAs := Some 0%nat;
                     pools := fun _ => []; stdin := yes; clockReads := 0;
                     files := ∅;
                     mcConfig := {| Version := "10"; Aliases := ∅ |};
                     trace := [] |}) 0%nat
     = [].
Proof.
  destruct (@mainAliasSet_without_negotiation server
              (cli endpoint (flags "" "ldap")) false
              {| globalInsecure := true; globalJSON := false;
                 globalDebug := false; globalRootCAs := Some 0%nat;
                 pools := fun _ => []; stdin := yes; clockReads := 0;
                 files := ∅;
                 mcConfig := {| Version := "10"; Aliases := ∅ |};
                 trace := [] |})
    as (Hf & _ & Hp & _).
  - left. reflexivity.
  - split; [ exact Hf | rewrite Hp; reflexivity ].
Defined.

Lemma mainAliasSet_static_copies_keys_witness :
  exists rec,
    Aliases (mcConfig (after (@mainAliasSet server
                                (cli endpoint (flags "" "normal")) false)
                             (world yes))) !! "myminio" = Some rec /\
    StsAccessKey rec = AccessKey rec /\ StsSecretKey rec = SecretKey rec.
Proof.
  destruct (@mainAliasSet_static_copies_keys server
              (cli endpoint (flags "" "normal")) false (world yes)) as [_ Hr].
  - vm_compute. discriminate.
  - apply (Hr None). vm_compute. reflexivity.
Defined.

Lemma mainAclGet_success_witness :
  Acl.fs (@Acl.mainAclGet _ _ AclFixture.server
            (AclFixture.cli "get" ["myminio/bucket"] "/tmp/acl.json")
            (AclFixture.world ∅)).2 !! "/tmp/acl.json"
  = Some AclFixture.emptyAcl.
Proof.
  destruct (@mainAclGet_success _ _ AclFixture.server
              (AclFixture.cli "get" ["myminio/bucket"] "/tmp/acl.json")
              (AclFixture.world ∅) None)
    as (_ & clnt & acld & _ & Hg & _ & Hf).
  - reflexivity.
  - destruct Hf as (acl & Hm & Hfs); [ discriminate | ].
    injection Hg as <-. injection Hm as <-. exact Hfs.
Defined.

Lemma mainAclGet_fetches_first_witness :
  Acl.fs (@Acl.mainAclGet _ _
            (AclFixture.platform (Some AclFixture.refused) None None)
            (AclFixture.cli "get" ["myminio/bucket"] "/tmp/acl.json")
            (AclFixture.world {["/tmp/acl.json" := [Byte.x5b; Byte.x5d]]})).2
  = {["/tmp/acl.json" := [Byte.x5b; Byte.x5d]]}.
Proof.
  destruct (@mainAclGet_fetches_first _ _
              (AclFixture.platform (Some AclFixture.refused) None None)
              (AclFixture.cli "get" ["myminio/bucket"] "/tmp/acl.json")
              (AclFixture.world {["/tmp/acl.json" := [Byte.x5b; Byte.x5d]]})
              AclFixture.refused)
    as (_ & Hf & _).
  - discriminate.
  - left. reflexivity.
  - exact Hf.
Defined.

Lemma mainAclGet_marshal_failure_empties_file_witness :
  Acl.fs (@Acl.mainAclGet _ _
            (AclFixture.platform None None (Some AclFixture.unsupported))
            (AclFixture.cli "get" ["myminio/bucket"] "/tmp/acl.json")
            (AclFixture.world {["/tmp/acl.json" := [Byte.x5b; Byte.x5d]]})).2
    !! "/tmp/acl.json"
  = Some [].
Proof.
  apply (@mainAclGet_marshal_failure_empties_file _ _
           (AclFixture.platform None None (Some AclFixture.unsupported))
           (AclFixture.cli "get" ["myminio/bucket"] "/tmp/acl.json")
           (AclFixture.world {["/tmp/acl.json" := [Byte.x5b; Byte.x5d]]})
           "myminio/bucket" AclFixture.emptyAcl AclFixture.unsupported);
    reflexivity || discriminate.
Defined.

Lemma mainAclSet_reads_file_first_witness :
  (@Acl.mainAclSet _ _ AclFixture.server
     (AclFixture.cli "set" ["myminio/bucket"; "/tmp/acl.json"] "")
     (AclFixture.world ∅)).2
  = AclFixture.world ∅.
Proof.
  destruct (@mainAclSet_reads_file_first _ _ AclFixture.server
              (AclFixture.cli "set" ["myminio/bucket"; "/tmp/acl.json"] "")
              (AclFixture.world ∅))
    as (_ & Hw).
  - reflexivity.
  - right. reflexivity.
  - exact Hw.
Defined.

Lemma mainAclSet_success_witness :
  Acl.log (@Acl.mainAclSet _ _ AclFixture.server
             (AclFixture.cli "set" ["myminio/bucket"; "/tmp/acl.json"] "")
             (AclFixture.world {["/tmp/acl.json" := AclFixture.emptyAcl]})).2
  = [Acl.EvPrintMsg {| Acl.op := "set"; Acl.Status := "";
                       Acl.Path := "myminio/bucket"; Acl.Acl := [] |};
     Acl.EvAclSet "myminio/bucket" "{}";
     Acl.EvNewClient "myminio/bucket"].
Proof.
  destruct (@mainAclSet_success _ _ AclFixture.server
              (AclFixture.cli "set" ["myminio/bucket"; "/tmp/acl.json"] "")
              (AclFixture.world {["/tmp/acl.json" := AclFixture.emptyAcl]}) None)
    as (_ & _ & data & clnt & Hd & Hn & Hl & _).
  - reflexivity.
  - injection Hn as <-.
    assert (data = AclFixture.emptyAcl) as ->
      by (vm_compute in Hd; injection Hd as <-; reflexivity).
    exact Hl.
Defined.

Lemma aclGet_then_aclSet_witness :
  In (Acl.EvAclSet "other/bucket" "{}")
     (Acl.log (@Acl.mainAclSet _ _ AclFixture.server
                 (AclFixture.cli "set" ["other/bucket"; "/tmp/acl.json"] "")
                 (@Acl.mainAclGet _ _ AclFixture.server
                    (AclFixture.cli "get" ["myminio/bucket"] "/tmp/acl.json")
                    (AclFixture.world ∅)).2).2).
Proof.
  destruct (@aclGet_then_aclSet _ _ AclFixture.server
              (AclFixture.cli "get" ["myminio/bucket"] "/tmp/acl.json")
              (AclFixture.cli "set" ["other/bucket"; "/tmp/acl.json"] "")
              (AclFixture.world ∅) None None)
    as (clntGet & acld & acl & clntSet & _ & Hg & Hm & Hn & Hin).
  - discriminate.
  - reflexivity.
  - reflexivity.
  - vm_compute. reflexivity.
  - injection Hg as <-. injection Hm as <-. injection Hn as <-. exact Hin.
Defined.
